(** * LightRAG console: session and ingestion orchestration

    A shallow embedding of the stateful handlers of the React front end
    (ContextSelector, Upload, Chat, Visualize) together with the small part
    of the JavaScript run time they rely on: strings as sequences of UTF-16
    code units, [String.prototype.trim], truthiness, JSON values, exceptions,
    [fetch], the console, [window.confirm] and the object-URL registry.

    A handler is a computation in the monad [Js S], where [S] is the state of
    the component (the tuple of its [useState] cells).  A [setX] call writes
    the cell; an [await] is sequencing; the answer of the network is given by
    an oracle, so a handler runs from its first line to its last without
    interleaving with another handler. *)

From Stdlib Require Import ZArith String Ascii.
From stdpp Require Import base option list pretty gmap.

#[local] Set Warnings "-register-all".
Local Open Scope N_scope.

(** ** Strings *)

(** A JavaScript string is a sequence of UTF-16 code units. *)
Definition jsstring := list N.

(** The code units of an ASCII literal. *)
Definition str (s : string) : jsstring :=
  map N_of_ascii (list_ascii_of_string s).
Arguments str : simpl never.

(** WhiteSpace and LineTerminator code points of ECMAScript, the characters
    [trim] strips: TAB, LF, VT, FF, CR, SP, NBSP, U+1680, U+2000..U+200A,
    LS, PS, U+202F, U+205F, U+3000 and the BOM. *)
Definition is_white_space (c : N) : bool :=
  (c =? 9) || (c =? 10) || (c =? 11) || (c =? 12) || (c =? 13) || (c =? 32)
  || (c =? 160) || (c =? 5760) || ((8192 <=? c) && (c <=? 8202))
  || (c =? 8232) || (c =? 8233) || (c =? 8239) || (c =? 8287)
  || (c =? 12288) || (c =? 65279).

Fixpoint trimStart (s : jsstring) : jsstring :=
  match s with
  | [] => []
  | c :: s' => if is_white_space c then trimStart s' else s
  end.

Definition trimEnd (s : jsstring) : jsstring :=
  reverse (trimStart (reverse s)).

(** [s.trim()] *)
Definition trim (s : jsstring) : jsstring := trimEnd (trimStart s).

(** ToBoolean on a string: the empty string is the only falsy one. *)
Definition truthy_string (s : jsstring) : bool :=
  match s with [] => false | _ :: _ => true end.

(** ToBoolean on a [string | null] cell. *)
Definition truthy (v : option jsstring) : bool :=
  match v with None => false | Some s => truthy_string s end.

(** [a || b] on strings. *)
Definition or_else (a : option jsstring) (b : jsstring) : jsstring :=
  match a with
  | Some s => if truthy_string s then s else b
  | None => b
  end.

(** ToString of a non-negative integer such as [files.length]. *)
Definition string_of_nat (n : nat) : jsstring := str (pretty n).

(** ToString of a boolean. *)
Definition string_of_bool (b : bool) : jsstring :=
  if b then str "true" else str "false".

(** ** JSON values *)

(** What [response.json()] resolves to.  Numbers are restricted to
    integers. *)
Inductive json : Type :=
  | JNull
  | JBool (b : bool)
  | JNum (z : Z)
  | JStr (s : jsstring)
  | JArr (items : list json)
  | JObj (fields : list (jsstring * json)).

(** A JavaScript value read from a JSON document: [None] is [undefined]. *)
Definition jsval := option json.

Fixpoint lookup_field (k : jsstring) (fields : list (jsstring * json)) : jsval :=
  match fields with
  | [] => None
  | (k', v) :: rest => if decide (k = k') then Some v else lookup_field k rest
  end.

(** ToString of a JSON value, as a template literal performs it. *)
Fixpoint json_to_string (j : json) : jsstring :=
  match j with
  | JNull => str "null"
  | JBool b => string_of_bool b
  | JNum z => str (pretty z)
  | JStr s => s
  | JArr items =>
      (fix join (l : list json) : jsstring :=
         match l with
         | [] => []
         | x :: rest =>
             (match x with JNull => [] | _ => json_to_string x end)
             ++ (match rest with [] => [] | _ :: _ => str "," ++ join rest end)
         end) items
  | JObj _ => str "[object Object]"
  end.

Definition to_string (v : jsval) : jsstring :=
  match v with
  | None => str "undefined"
  | Some j => json_to_string j
  end.

(** ToBoolean of a value. *)
Definition truthy_val (v : jsval) : bool :=
  match v with
  | None | Some JNull => false
  | Some (JBool b) => b
  | Some (JNum z) => negb (z =? 0)%Z
  | Some (JStr s) => truthy_string s
  | Some (JArr _) | Some (JObj _) => true
  end.

(** [v === s] for a string [s]. *)
Definition strict_eq_string (v : jsval) (s : jsstring) : bool :=
  match v with
  | Some (JStr s') => bool_decide (s' = s)
  | _ => false
  end.

(** ** Exceptions *)

(** A thrown value: an [Error] object (also a [TypeError] of [fetch] or a
    [SyntaxError] of [json()]) with its [message], or something that is not
    an instance of [Error]. *)
Inductive js_exn : Type :=
  | ErrorObj (message : jsstring)
  | NotAnError (shown : jsstring).

(** [error instanceof Error ? error.message : fallback] *)
Definition message_or (e : js_exn) (fallback : jsstring) : jsstring :=
  match e with
  | ErrorObj m => m
  | NotAnError _ => fallback
  end.

Inductive completion (A : Type) : Type :=
  | Normal (a : A)
  | Throw (e : js_exn).
Arguments Normal {A} a.
Arguments Throw {A} e.

(** Reading a property of a parsed document.  Reading from [null] throws
    (the message is V8's); a primitive or an array has none of the
    properties the handlers read ([detail], [message], [status], [data],
    [variables], [id]), so the read yields [undefined]. *)
Definition get_prop (j : json) (k : jsstring) : completion jsval :=
  match j with
  | JObj fields => Normal (lookup_field k fields)
  | JNull =>
      Throw (ErrorObj (str "Cannot read properties of null (reading '"
                       ++ k ++ str "')"))
  | _ => Normal None
  end.

(** ** The browser around a component *)

Record File := { file_name : jsstring; file_bytes : list N }.

Definition Blob := list N.

Inductive http_method := GET | POST | DELETE.

Inductive request_body :=
  | NoBody
  | JsonBody (j : json)                       (* JSON.stringify(j) *)
  | FormData (parts : list (jsstring * File)).

Record request := {
  method : http_method;
  url : jsstring;
  body : request_body
}.

(** A [Response]: its [ok] flag and what its [json()] and [blob()] promises
    settle to. *)
Record response := {
  ok : bool;
  json_body : js_exn + json;
  blob_body : js_exn + Blob
}.

(** What the promise of [fetch] settles to. *)
Inductive fetch_outcome :=
  | Rejected (e : js_exn)
  | Resolved (r : response).

(** The network: the answer to the [n]-th request of the session. *)
Definition network := nat -> request -> fetch_outcome.

(** An identifier minted by [URL.createObjectURL]; as a string it is never
    empty, hence always truthy. *)
Inductive object_url := BlobUrl (id : nat).

#[global] Instance object_url_eq_dec : EqDecision object_url.
Proof. solve_decision. Defined.

(** The state of a component together with what it has done to the outside
    world: the requests sent (oldest first, each with the component state at
    the moment of sending), the lines written by [console.error], and the
    registry of object URLs. *)
Record Env (S : Type) := mkEnv {
  state : S;
  sent : list (request * S);
  console : list (jsstring * js_exn);
  live_urls : list object_url;
  minted : nat
}.
Arguments mkEnv {S}.
Arguments state {S}.
Arguments sent {S}.
Arguments console {S}.
Arguments live_urls {S}.
Arguments minted {S}.

Definition with_state {S} (s : S) (w : Env S) : Env S :=
  mkEnv s (sent w) (console w) (live_urls w) (minted w).

(** A fresh session around an initial component state. *)
Definition boot {S} (s : S) : Env S := mkEnv s [] [] [] 0%nat.

(** ** The handler monad *)

Definition Js (S A : Type) : Type := Env S -> completion A * Env S.

Definition ret {S A} (a : A) : Js S A := fun w => (Normal a, w).

Definition bind {S A B} (m : Js S A) (k : A -> Js S B) : Js S B :=
  fun w =>
    match m w with
    | (Normal a, w') => k a w'
    | (Throw e, w') => (Throw e, w')
    end.

Declare Scope js_scope.
Delimit Scope js_scope with js.
Notation "'let!' x ':=' m 'in' k" := (bind m (fun x => k))
  (at level 10, x pattern, m at level 100, k at level 200) : js_scope.
Notation "m '>>' k" := (bind m (fun _ => k))
  (at level 100, k at level 200, right associativity) : js_scope.
Local Open Scope js_scope.

Section Primitives.
Context {S : Type}.

(** Reading the cells as the running closure sees them. *)
Definition get : Js S S := fun w => (Normal (state w), w).

(** A [setX(f)] call with an updater function. *)
Definition update (f : S -> S) : Js S unit :=
  fun w => (Normal tt, with_state (f (state w)) w).

Definition throw {A} (e : js_exn) : Js S A := fun w => (Throw e, w).

(** Lifting a fallible pure step. *)
Definition lift {A} (c : completion A) : Js S A := fun w => (c, w).

(** [try { body } catch (error) { handler error }] *)
Definition try_catch {A} (body : Js S A) (handler : js_exn -> Js S A)
  : Js S A :=
  fun w =>
    match body w with
    | (Normal a, w') => (Normal a, w')
    | (Throw e, w') => handler e w'
    end.

(** [try { body } finally { cleanup }] *)
Definition try_finally {A} (body : Js S A) (cleanup : Js S unit) : Js S A :=
  fun w =>
    match body w with
    | (r, w') =>
        match cleanup w' with
        | (Normal _, w'') => (r, w'')
        | (Throw e, w'') => (Throw e, w'')
        end
    end.

(** [console.error(label, error)] *)
Definition console_error (label : jsstring) (e : js_exn) : Js S unit :=
  fun w =>
    (Normal tt,
     mkEnv (state w) (sent w) (console w ++ [(label, e)])
           (live_urls w) (minted w)).

(** [await fetch(...)]: the request is recorded with the state at the
    moment it leaves, and the network decides how the promise settles. *)
Definition fetch (net : network) (req : request) : Js S response :=
  fun w =>
    let w' := mkEnv (state w) (sent w ++ [(req, state w)]) (console w)
                    (live_urls w) (minted w) in
    match net (length (sent w)) req with
    | Rejected e => (Throw e, w')
    | Resolved r => (Normal r, w')
    end.

(** [await response.json()] *)
Definition json_of (r : response) : Js S json :=
  match json_body r with
  | inl e => throw e
  | inr j => ret j
  end.

(** [await response.blob()] *)
Definition blob_of (r : response) : Js S Blob :=
  match blob_body r with
  | inl e => throw e
  | inr b => ret b
  end.

(** [URL.createObjectURL(blob)] *)
Definition createObjectURL (b : Blob) : Js S object_url :=
  fun w =>
    let u := BlobUrl (minted w) in
    (Normal u,
     mkEnv (state w) (sent w) (console w) (live_urls w ++ [u])
           (Datatypes.S (minted w))).

(** [URL.revokeObjectURL(u)] *)
Definition revokeObjectURL (u : object_url) : Js S unit :=
  fun w =>
    (Normal tt,
     mkEnv (state w) (sent w) (console w)
           (filter (fun v => v <> u) (live_urls w)) (minted w)).
End Primitives.

(** Running a handler: the environment it leaves. *)
Definition exec {S A} (m : Js S A) (w : Env S) : Env S := snd (m w).

(** Running a handler: how it completes. *)
Definition outcome {S A} (m : Js S A) (w : Env S) : completion A := fst (m w).

(** [`${v}`] for a [string | null] cell. *)
Definition string_of_cell (v : option jsstring) : jsstring :=
  match v with Some s => s | None => str "null" end.

(** [array.includes(x)] on an array of strings. *)
Definition includes (l : list jsstring) (x : jsstring) : bool :=
  bool_decide (x ∈ l).

(** [array.filter((x, i) => keep x i)], the callback receiving the index. *)
Fixpoint filter_from {A} (keep : A -> nat -> bool) (i : nat) (l : list A)
  : list A :=
  match l with
  | [] => []
  | x :: rest =>
      if keep x i then x :: filter_from keep (Datatypes.S i) rest
      else filter_from keep (Datatypes.S i) rest
  end.

Definition filter_indexed {A} (keep : A -> nat -> bool) (l : list A) : list A :=
  filter_from keep 0%nat l.

(** * Upload page (IngestionController and VariableEditor) *)

Module Upload.

Record UploadProgress := {
  total : nat;
  completed : nat;
  currentFile : jsstring
}.

Record SelectOption := { label : jsstring; value : jsstring }.

(** The [useState] cells of [Upload], in declaration order. *)
Record State := mkState {
  text : jsstring;
  files : option (list File);
  message : jsstring;
  loading : bool;
  isError : bool;
  clearLoading : bool;
  uploadProgress : option UploadProgress;
  selectedVariable : option SelectOption;
  variableValue : jsstring;
  tags : list jsstring;
  variableOptions : jsval;
  newTagInput : jsstring;
  selectedContext : option jsstring;
  selectedUploadTab : jsstring
}.

Definition initial : State :=
  mkState [] None [] false false false None None [] [] (Some (JArr [])) []
          None (str "text").

Definition with_files v (s : State) : State :=
  mkState (text s) v (message s) (loading s) (isError s) (clearLoading s)
          (uploadProgress s) (selectedVariable s) (variableValue s) (tags s)
          (variableOptions s) (newTagInput s) (selectedContext s)
          (selectedUploadTab s).
Definition with_message v (s : State) : State :=
  mkState (text s) (files s) v (loading s) (isError s) (clearLoading s)
          (uploadProgress s) (selectedVariable s) (variableValue s) (tags s)
          (variableOptions s) (newTagInput s) (selectedContext s)
          (selectedUploadTab s).
Definition with_loading v (s : State) : State :=
  mkState (text s) (files s) (message s) v (isError s) (clearLoading s)
          (uploadProgress s) (selectedVariable s) (variableValue s) (tags s)
          (variableOptions s) (newTagInput s) (selectedContext s)
          (selectedUploadTab s).
Definition with_isError v (s : State) : State :=
  mkState (text s) (files s) (message s) (loading s) v (clearLoading s)
          (uploadProgress s) (selectedVariable s) (variableValue s) (tags s)
          (variableOptions s) (newTagInput s) (selectedContext s)
          (selectedUploadTab s).
Definition with_uploadProgress v (s : State) : State :=
  mkState (text s) (files s) (message s) (loading s) (isError s)
          (clearLoading s) v (selectedVariable s) (variableValue s) (tags s)
          (variableOptions s) (newTagInput s) (selectedContext s)
          (selectedUploadTab s).
Definition with_tags v (s : State) : State :=
  mkState (text s) (files s) (message s) (loading s) (isError s)
          (clearLoading s) (uploadProgress s) (selectedVariable s)
          (variableValue s) v (variableOptions s) (newTagInput s)
          (selectedContext s) (selectedUploadTab s).
Definition with_variableOptions v (s : State) : State :=
  mkState (text s) (files s) (message s) (loading s) (isError s)
          (clearLoading s) (uploadProgress s) (selectedVariable s)
          (variableValue s) (tags s) v (newTagInput s) (selectedContext s)
          (selectedUploadTab s).
Definition with_newTagInput v (s : State) : State :=
  mkState (text s) (files s) (message s) (loading s) (isError s)
          (clearLoading s) (uploadProgress s) (selectedVariable s)
          (variableValue s) (tags s) (variableOptions s) v
          (selectedContext s) (selectedUploadTab s).
Definition with_selectedContext v (s : State) : State :=
  mkState (text s) (files s) (message s) (loading s) (isError s)
          (clearLoading s) (uploadProgress s) (selectedVariable s)
          (variableValue s) (tags s) (variableOptions s) (newTagInput s) v
          (selectedUploadTab s).

Definition setFiles v : Js State unit := update (with_files v).
Definition setMessage v : Js State unit := update (with_message v).
Definition setLoading v : Js State unit := update (with_loading v).
Definition setIsError v : Js State unit := update (with_isError v).
Definition setTags v : Js State unit := update (with_tags v).
Definition setVariableOptions v : Js State unit :=
  update (with_variableOptions v).
Definition setNewTagInput v : Js State unit := update (with_newTagInput v).
Definition setSelectedContext v : Js State unit :=
  update (with_selectedContext v).

(** [setUploadProgress], with a value or with an updater of the previous
    value. *)
Definition setUploadProgress v : Js State unit :=
  update (with_uploadProgress v).
Definition setUploadProgress_by
    (f : option UploadProgress -> option UploadProgress) : Js State unit :=
  update (fun s => with_uploadProgress (f (uploadProgress s)) s).

Section Handlers.
Variable API_BASE_URL : jsstring.
Variable net : network.

(** The request [handleFileUpload] sends for one file. *)
Definition insert_file_request (ctx : option jsstring) (file : File)
  : request :=
  {| method := POST;
     url := API_BASE_URL ++ str "/insert_file?context_id="
            ++ string_of_cell ctx;
     body := FormData [(str "file", file)] |}.

(** The [for] loop of [handleFileUpload], from index [i] on; [all] is
    the whole [files] list and [rest] its part from [i]. *)
Fixpoint upload_from (ctx : option jsstring) (all : list File)
    (i : nat) (rest : list File) : Js State unit :=
  match rest with
  | [] => ret tt
  | file :: rest' =>
      setUploadProgress_by (fun prev =>
        Some {| total :=
                  match prev with
                  | Some p =>
                      if (total p =? 0)%nat then length all else total p
                  | None => length all
                  end;
                completed := i;
                currentFile := file_name file |}) >>
      let! response := fetch net (insert_file_request ctx file) in
      let! data := json_of response in
      (if negb (ok response) then
         let! detail := lift (get_prop data (str "detail")) in
         throw (ErrorObj (str "Failed to upload " ++ file_name file
                          ++ str ": " ++ to_string detail))
       else ret tt) >>
      upload_from ctx all (Datatypes.S i) rest'
  end.

Definition handleFileUpload : Js State unit :=
  let! st := get in
  match files st with
  | None => ret tt
  | Some [] => ret tt
  | Some ((first :: _) as fl) =>
      if negb (truthy (selectedContext st)) then ret tt else
      setLoading true >>
      setUploadProgress
        (Some {| total := length fl; completed := 0;
                 currentFile := file_name first |}) >>
      try_finally
        (try_catch
           (upload_from (selectedContext st) fl 0 fl >>
            setMessage (str "Successfully uploaded "
                        ++ string_of_nat (length fl) ++ str " files") >>
            setIsError false >>
            setFiles None)
           (fun error =>
              setMessage (message_or error (str "Error uploading files")) >>
              setIsError true))
        (setLoading false >>
         setUploadProgress None)
  end.

Definition fetchVariables : Js State unit :=
  let! st := get in
  if negb (truthy (selectedContext st)) then ret tt else
  try_catch
    (let! response :=
       fetch net {| method := GET;
                    url := API_BASE_URL
                           ++ str "/get_prompt_variables?context_id="
                           ++ string_of_cell (selectedContext st);
                    body := NoBody |} in
     let! data := json_of response in
     let! variables := lift (get_prop data (str "variables")) in
     setVariableOptions variables)
    (fun error =>
       setMessage (str "Error loading prompt variables") >>
       setIsError true).
End Handlers.

Definition handleAddTag (newTag : jsstring) : Js State unit :=
  let! st := get in
  (if truthy_string (trim newTag) && negb (includes (tags st) (trim newTag))
   then setTags (tags st ++ [trim newTag])
   else ret tt) >>
  setNewTagInput [].

(** The [onClick] of the close button of the tag at [index]. *)
Definition removeTag (index : nat) : Js State unit :=
  let! st := get in
  setTags (filter_indexed (fun _ i => negb (i =? index)%nat) (tags st)).

(** The two ways the user edits the tag buffer. *)
Inductive tag_event :=
  | AddTag (text : jsstring)
  | RemoveTag (index : nat).

Definition dispatch (ev : tag_event) : Js State unit :=
  match ev with
  | AddTag t => handleAddTag t
  | RemoveTag i => removeTag i
  end.

Fixpoint dispatch_all (evs : list tag_event) : Js State unit :=
  match evs with
  | [] => ret tt
  | ev :: rest => dispatch ev >> dispatch_all rest
  end.

End Upload.

(** [v || fallback] on a value read from a document. *)
Definition val_or (v : jsval) (fallback : jsstring) : jsval :=
  if truthy_val v then v else Some (JStr fallback).

(** [new Error(v)]: the message is ToString of the argument. *)
Definition new_Error (v : jsval) : js_exn := ErrorObj (to_string v).

(** [array.filter(keep)] with a callback that may throw: the elements are
    visited in order and the first exception ends the call. *)
Fixpoint filter_throwing (keep : json -> completion bool) (l : list json)
  : completion (list json) :=
  match l with
  | [] => Normal []
  | x :: rest =>
      match keep x with
      | Throw e => Throw e
      | Normal b =>
          match filter_throwing keep rest with
          | Throw e => Throw e
          | Normal kept => Normal (if b then x :: kept else kept)
          end
      end
  end.

(** * ContextSelector (ContextStore) *)

Module ContextSelector.

(** The [useState] cells of [ContextSelector]. *)
Record State := mkState {
  contexts : list json;
  selectedContext : option jsstring;
  isCreateModalVisible : bool;
  newContextName : jsstring;
  newContextDescription : jsstring;
  loading : bool
}.

Definition initial : State := mkState [] None false [] [] false.

Definition with_contexts v (s : State) : State :=
  mkState v (selectedContext s) (isCreateModalVisible s) (newContextName s)
          (newContextDescription s) (loading s).
Definition with_selectedContext v (s : State) : State :=
  mkState (contexts s) v (isCreateModalVisible s) (newContextName s)
          (newContextDescription s) (loading s).
Definition with_isCreateModalVisible v (s : State) : State :=
  mkState (contexts s) (selectedContext s) v (newContextName s)
          (newContextDescription s) (loading s).
Definition with_newContextName v (s : State) : State :=
  mkState (contexts s) (selectedContext s) (isCreateModalVisible s) v
          (newContextDescription s) (loading s).
Definition with_newContextDescription v (s : State) : State :=
  mkState (contexts s) (selectedContext s) (isCreateModalVisible s)
          (newContextName s) v (loading s).
Definition with_loading v (s : State) : State :=
  mkState (contexts s) (selectedContext s) (isCreateModalVisible s)
          (newContextName s) (newContextDescription s) v.

(** The text of the confirmation dialog. *)
Definition delete_prompt : jsstring :=
  str "Are you sure you want to delete this context? This action cannot be undone.".

(** [c => c.id !== selectedContext] *)
Definition other_than (selected : option jsstring) (c : json)
  : completion bool :=
  match get_prop c (str "id") with
  | Throw e => Throw e
  | Normal id =>
      Normal (negb (match selected with
                    | Some s => strict_eq_string id s
                    | None => false
                    end))
  end.

(** The selector is mounted inside a page: [W] is the state of the whole
    tree, [sel] and [put] focus on the cells of the selector, and
    [onContextChange] is the prop the page passes down. *)
Section Handlers.
Context {W : Type}.
Variable sel : W -> State.
Variable put : State -> W -> W.
Variable onContextChange : option jsstring -> Js W unit.
Variable API_BASE_URL : jsstring.
Variable net : network.
(** The answer of the user to [window.confirm(message)]. *)
Variable confirm : jsstring -> bool.

Definition set (f : State -> State) : Js W unit :=
  update (fun w => put (f (sel w)) w).

(** The request [handleCreateContext] sends. *)
Definition create_request (st : State) : request :=
  {| method := POST;
     url := API_BASE_URL ++ str "/contexts";
     body := JsonBody
       (JObj [(str "name", JStr (newContextName st));
              (str "description", JStr (newContextDescription st))]) |}.

(** The request [handleDeleteContext] sends. *)
Definition delete_request (st : State) : request :=
  {| method := DELETE;
     url := API_BASE_URL ++ str "/contexts/"
            ++ string_of_cell (selectedContext st);
     body := NoBody |}.

Definition setContexts v := set (with_contexts v).
Definition setSelectedContext v := set (with_selectedContext v).
Definition setCreateModalVisible v := set (with_isCreateModalVisible v).
Definition setNewContextName v := set (with_newContextName v).
Definition setNewContextDescription v := set (with_newContextDescription v).
Definition setLoading v := set (with_loading v).

Definition handleCreateContext : Js W unit :=
  let! w := get in
  let st := sel w in
  setLoading true >>
  try_catch
    (let! response := fetch net (create_request st) in
     let! newContext := json_of response in
     setContexts (contexts st ++ [newContext]) >>
     setCreateModalVisible false >>
     setNewContextName [] >>
     setNewContextDescription [])
    (fun error => console_error (str "Failed to create context:") error) >>
  setLoading false.

Definition handleDeleteContext : Js W unit :=
  let! w := get in
  let st := sel w in
  if negb (truthy (selectedContext st)) then ret tt else
  if negb (confirm delete_prompt) then ret tt else
  try_catch
    (let! response := fetch net (delete_request st) in
     (if negb (ok response) then
        let! errorData := json_of response in
        let! detail := lift (get_prop errorData (str "detail")) in
        throw (new_Error (val_or detail (str "Failed to delete context")))
      else ret tt) >>
     let! kept :=
       lift (filter_throwing (other_than (selectedContext st))
                             (contexts st)) in
     setContexts kept >>
     setSelectedContext None >>
     onContextChange None)
    (fun error => console_error (str "Failed to delete context:") error).

(** The [onChange] of the select box; [chosen] is
    [detail.selectedOption?.value]. *)
Definition handleSelect (chosen : option jsstring) : Js W unit :=
  let v := if truthy chosen then chosen else None in
  setSelectedContext v >>
  onContextChange v.
End Handlers.

End ContextSelector.

(** * Chat page (QueryDispatcher) *)

Module Chat.

(** [keyof QueryResponse] *)
Inductive tab := naive | local | global_ | hybrid.

Definition key (t : tab) : jsstring :=
  match t with
  | naive => str "naive"
  | local => str "local"
  | global_ => str "global_"
  | hybrid => str "hybrid"
  end.

(** The [useState] cells of [Chat]; [responses] holds [null] as
    [Some JNull]. *)
Record State := mkState {
  query : jsstring;
  responses : jsval;
  loading : bool;
  error : option jsstring;
  selectedTab : tab;
  selectedContext : option jsstring
}.

Definition initial : State :=
  mkState [] (Some JNull) false None hybrid None.

Definition with_responses v (s : State) : State :=
  mkState (query s) v (loading s) (error s) (selectedTab s)
          (selectedContext s).
Definition with_loading v (s : State) : State :=
  mkState (query s) (responses s) v (error s) (selectedTab s)
          (selectedContext s).
Definition with_error v (s : State) : State :=
  mkState (query s) (responses s) (loading s) v (selectedTab s)
          (selectedContext s).
Definition with_selectedContext v (s : State) : State :=
  mkState (query s) (responses s) (loading s) (error s) (selectedTab s) v.

Definition setResponses v : Js State unit := update (with_responses v).
Definition setLoading v : Js State unit := update (with_loading v).
Definition setError v : Js State unit := update (with_error v).
Definition setSelectedContext v : Js State unit :=
  update (with_selectedContext v).

Section Handlers.
Variable API_BASE_URL : jsstring.
Variable net : network.

Definition query_request (st : State) : request :=
  {| method := POST;
     url := API_BASE_URL ++ str "/query?context_id="
            ++ string_of_cell (selectedContext st);
     body := JsonBody (JObj [(str "query", JStr (query st))]) |}.

Definition handleSubmit : Js State unit :=
  let! st := get in
  if negb (truthy_string (trim (query st)))
     || negb (truthy (selectedContext st))
  then ret tt else
  setLoading true >>
  setError None >>
  try_catch
    (let! response := fetch net (query_request st) in
     let! data := json_of response in
     let! status := lift (get_prop data (str "status")) in
     if strict_eq_string status (str "success") then
       let! result := lift (get_prop data (str "data")) in
       setResponses result
     else
       let! message := lift (get_prop data (str "message")) in
       throw (new_Error (val_or message (str "Failed to get response"))))
    (fun error =>
       console_error (str "Error querying:") error >>
       setError (Some (message_or error
         (str "An error occurred while processing your request"))) >>
       setResponses (Some JNull)) >>
  setLoading false.
End Handlers.

(** What the result panel shows: nothing unless [responses] is truthy,
    otherwise [responses[tab.id]] for the active tab. *)
Definition visible_result (st : State) : option jsval :=
  if truthy_val (responses st) then
    match responses st with
    | Some (JObj fields) => Some (lookup_field (key (selectedTab st)) fields)
    | _ => Some None
    end
  else None.

(** The page passes [setSelectedContext] to the selector; no effect of
    [Chat] depends on the selected context. *)
Definition onContextChange (v : option jsstring) : Js State unit :=
  setSelectedContext v.

End Chat.

(** * Visualize page (GraphResourceManager) *)

Module Visualize.

(** The [useState] cells of [Visualize], and [cleanup]: the value of
    [graphUrl] captured by the clean-up function the last run of the effect
    returned ([None] while no clean-up is pending). *)
Record State := mkState {
  loading : bool;
  error : option jsstring;
  graphUrl : option object_url;
  selectedContext : option jsstring;
  regenerating : bool;
  cleanup : option (option object_url)
}.

(** Before the first effect has run. *)
Definition initial : State := mkState false None None None false None.

Definition with_loading v (s : State) : State :=
  mkState v (error s) (graphUrl s) (selectedContext s) (regenerating s)
          (cleanup s).
Definition with_error v (s : State) : State :=
  mkState (loading s) v (graphUrl s) (selectedContext s) (regenerating s)
          (cleanup s).
Definition with_graphUrl v (s : State) : State :=
  mkState (loading s) (error s) v (selectedContext s) (regenerating s)
          (cleanup s).
Definition with_selectedContext v (s : State) : State :=
  mkState (loading s) (error s) (graphUrl s) v (regenerating s) (cleanup s).
Definition with_regenerating v (s : State) : State :=
  mkState (loading s) (error s) (graphUrl s) (selectedContext s) v
          (cleanup s).
Definition with_cleanup v (s : State) : State :=
  mkState (loading s) (error s) (graphUrl s) (selectedContext s)
          (regenerating s) v.

Definition setLoading v : Js State unit := update (with_loading v).
Definition setError v : Js State unit := update (with_error v).
Definition setGraphUrl v : Js State unit := update (with_graphUrl v).
Definition setSelectedContext v : Js State unit :=
  update (with_selectedContext v).
Definition setRegenerating v : Js State unit := update (with_regenerating v).

Section Handlers.
Variable API_BASE_URL : jsstring.
Variable net : network.

Definition visualize_request (ctx : option jsstring) (forceRegenerate : bool)
  : request :=
  {| method := GET;
     url := API_BASE_URL ++ str "/visualize?context_id="
            ++ string_of_cell ctx ++ str "&regenerate="
            ++ string_of_bool forceRegenerate;
     body := NoBody |}.

Definition loadGraph (forceRegenerate : bool) : Js State unit :=
  let! st := get in
  if negb (truthy (selectedContext st)) then ret tt else
  setLoading true >>
  setError None >>
  try_catch
    (let! response :=
       fetch net (visualize_request (selectedContext st) forceRegenerate) in
     (if negb (ok response) then
        throw (ErrorObj (str "Failed to generate graph visualization"))
      else ret tt) >>
     let! blob := blob_of response in
     let! url := createObjectURL blob in
     setGraphUrl (Some url))
    (fun error =>
       setError (Some (message_or error (str "An error occurred")))) >>
  setLoading false >>
  setRegenerating false.

Definition handleRegenerate : Js State unit :=
  setRegenerating true >>
  loadGraph true.

(** One run of the effect that depends on [selectedContext].  The
    clean-up function it returns closes over the [graphUrl] of the render
    the effect belongs to, that is the value read before the body
    runs. *)
Definition effect : Js State unit :=
  let! st := get in
  (if truthy (selectedContext st) then loadGraph false
   else setGraphUrl None) >>
  update (with_cleanup (Some (graphUrl st))).

(** Running the pending clean-up function. *)
Definition run_cleanup : Js State unit :=
  let! st := get in
  match cleanup st with
  | None => ret tt
  | Some captured =>
      (match captured with
       | Some url => revokeObjectURL url
       | None => ret tt
       end) >>
      update (with_cleanup None)
  end.

(** The first render. *)
Definition mount : Js State unit := effect.

(** The page passes [setSelectedContext] to the selector; a changed
    value re-renders the page, which runs the clean-up of the previous
    effect and then the effect again. *)
Definition onContextChange (v : option jsstring) : Js State unit :=
  let! st := get in
  if decide (v = selectedContext st) then ret tt else
  setSelectedContext v >>
  run_cleanup >>
  effect.

(** The view is discarded. *)
Definition unmount : Js State unit := run_cleanup.

(** What happens to a mounted view. *)
Inductive event :=
  | SelectContext (v : option jsstring)
  | Regenerate
  | Unmount.

Definition handle (ev : event) : Js State unit :=
  match ev with
  | SelectContext v => onContextChange v
  | Regenerate => handleRegenerate
  | Unmount => unmount
  end.

Fixpoint handle_all (evs : list event) : Js State unit :=
  match evs with
  | [] => ret tt
  | ev :: rest => handle ev >> handle_all rest
  end.
End Handlers.

End Visualize.

(** * A page with its selector *)

(** Running a handler of a child whose cells are the part [view] of the
    state of the tree. *)
Definition zoom {W P A} (view : W -> P) (put : P -> W -> W) (m : Js P A)
  : Js W A :=
  fun w =>
    let inner :=
      mkEnv (view (state w))
            ((fun e => (fst e, view (snd e))) <$> sent w)
            (console w) (live_urls w) (minted w) in
    match m inner with
    | (r, inner') =>
        (r,
         mkEnv (put (state inner') (state w))
               (sent w ++ ((fun e => (fst e, put (snd e) (state w)))
                           <$> drop (length (sent w)) (sent inner')))
               (console inner') (live_urls inner') (minted inner'))
    end.

Module Page.

(** The cells of the selector next to those of the page that mounts it. *)
Record Tree (P : Type) := mkTree {
  selector : ContextSelector.State;
  page : P
}.
Arguments mkTree {P}.
Arguments selector {P}.
Arguments page {P}.

Definition put_selector {P} (s : ContextSelector.State) (t : Tree P)
  : Tree P := mkTree s (page t).
Definition put_page {P} (p : P) (t : Tree P) : Tree P :=
  mkTree (selector t) p.

Section Pages.
Variable API_BASE_URL : jsstring.
Variable net : network.
Variable confirm : jsstring -> bool.

(** The prop of each page is its [setSelectedContext].  Where the page has
    an effect that depends on [selectedContext], the effect is run as part
    of the call: the selector calls the prop as the last statement of its
    handlers, so nothing of the handler runs between the write of the cell
    and the effect of the render that follows. *)

(** [<ContextSelector onContextChange={setSelectedContext} />] in
    [Chat]. *)
Definition chat_onContextChange (v : option jsstring)
  : Js (Tree Chat.State) unit :=
  zoom page put_page (Chat.onContextChange v).

(** In [Upload], the effect on [selectedContext] loads the variables of
    a truthy selection and does nothing otherwise. *)
Definition upload_onContextChange (v : option jsstring)
  : Js (Tree Upload.State) unit :=
  zoom page put_page
    (let! st := get in
     if decide (v = Upload.selectedContext st) then ret tt else
     Upload.setSelectedContext v >>
     (if truthy v then Upload.fetchVariables API_BASE_URL net
      else ret tt)).

Definition visualize_onContextChange (v : option jsstring)
  : Js (Tree Visualize.State) unit :=
  zoom page put_page (Visualize.onContextChange API_BASE_URL net v).

(** The handlers of the selector inside a page whose prop is
    [onContextChange]. *)
Definition handleDeleteContext {P}
    (onContextChange : option jsstring -> Js (Tree P) unit)
  : Js (Tree P) unit :=
  ContextSelector.handleDeleteContext selector put_selector
    onContextChange API_BASE_URL net confirm.

Definition handleCreateContext {P} : Js (Tree P) unit :=
  ContextSelector.handleCreateContext selector put_selector
    API_BASE_URL net.
End Pages.

End Page.

(** * Vocabulary of the statements *)

(** A string [trim] reduces to nothing: empty or white space only. *)
Definition blank (s : jsstring) : Prop := trim s = [].

(** How many times [x] occurs in [l]. *)
Definition occurrences (x : jsstring) (l : list jsstring) : nat :=
  length (filter (fun y => y = x) l).

(** A string that does not start with white space. *)
Definition headed (s : jsstring) : Prop :=
  match s with
  | [] => True
  | c :: _ => is_white_space c = false
  end.

(** The backend accepts an upload: a response with [ok] set whose body
    parses. *)
Definition accepted (o : fetch_outcome) : Prop :=
  exists r data, o = Resolved r /\ ok r = true /\ json_body r = inr data.

(** The backend refuses an upload with a non-success response whose body
    parses to a document with [detail] as its [detail] property. *)
Definition refused_with (detail : jsval) (o : fetch_outcome) : Prop :=
  exists r data,
    o = Resolved r /\ ok r = false /\ json_body r = inr data
    /\ get_prop data (str "detail") = Normal detail.

(** The exception one iteration of the upload loop ends with, if any, given
    how the request for [file] settles. *)
Definition upload_failure (file : File) (o : fetch_outcome) : option js_exn :=
  match o with
  | Rejected e => Some e
  | Resolved r =>
      match json_body r with
      | inl e => Some e
      | inr data =>
          if ok r then None
          else match get_prop data (str "detail") with
               | Throw e => Some e
               | Normal detail =>
                   Some (ErrorObj (str "Failed to upload " ++ file_name file
                                   ++ str ": " ++ to_string detail))
               end
      end
  end.

(** How a batch ends when its first request is the [n]-th of the session:
    the number of requests sent and the exception that aborted it, if
    any. *)
Fixpoint batch_end (req : File -> request) (net : network) (n : nat)
    (rest : list File) : nat * option js_exn :=
  match rest with
  | [] => (0%nat, None)
  | file :: rest' =>
      match upload_failure file (net n (req file)) with
      | Some e => (1%nat, Some e)
      | None =>
          let (m, r) := batch_end req net (Datatypes.S n) rest' in
          (Datatypes.S m, r)
      end
  end.

(** The component state while the request for [file], at index [j] of a
    batch of [len] files, is on its way. *)
Definition in_flight (len j : nat) (file : File) (st : Upload.State)
  : Upload.State :=
  Upload.with_uploadProgress
    (Some {| Upload.total := len; Upload.completed := j;
             Upload.currentFile := file_name file |}) st.

(** The entries a batch adds to the log of requests for the files [l], the
    first of which has index [i]; [st] is the state at the start of the
    loop. *)
Definition batch_log (req : File -> request) (len : nat) (st : Upload.State)
    (i : nat) (l : list File) : list (request * Upload.State) :=
  imap (fun j f => (req f, in_flight len (i + j) f st)) l.

(** The state the loop leaves: that of its last request. *)
Definition batch_state (req : File -> request) (len : nat) (st : Upload.State)
    (i : nat) (l : list File) : Upload.State :=
  match last (batch_log req len st i l) with
  | Some e => snd e
  | None => st
  end.

(** The backend answers a query with a document whose [status] is not
    ["success"] and whose [message] property is [message]. *)
Definition non_success (message : jsval) (o : fetch_outcome) : Prop :=
  exists r data status,
    o = Resolved r /\ json_body r = inr data
    /\ get_prop data (str "status") = Normal status
    /\ strict_eq_string status (str "success") = false
    /\ get_prop data (str "message") = Normal message.

(** The request does not come back with a document: [fetch] rejects, or the
    body of the response does not parse. *)
Definition transport_fails (e : js_exn) (o : fetch_outcome) : Prop :=
  o = Rejected e \/ exists r, o = Resolved r /\ json_body r = inl e.

(** The document [{status: "success", data: {naive, local, global_,
    hybrid}}]. *)
Definition success_document (a b c d : jsstring) : json :=
  JObj [(str "status", JStr (str "success"));
        (str "data",
         JObj [(str "naive", JStr a); (str "local", JStr b);
               (str "global_", JStr c); (str "hybrid", JStr d)])].

(** The state in which the loop of [handleFileUpload] starts. *)
Definition batch_start (fl : list File) (first : File) (st : Upload.State)
  : Upload.State :=
  Upload.with_uploadProgress
    (Some {| Upload.total := length fl; Upload.completed := 0;
             Upload.currentFile := file_name first |})
    (Upload.with_loading true st).

(** The state a batch ends in, from the state [st] the handler found. *)
Definition batch_final (fl : list File) (r : option js_exn)
    (st : Upload.State) : Upload.State :=
  Upload.with_uploadProgress None
    (Upload.with_loading false
       (match r with
        | None =>
            Upload.with_files None
              (Upload.with_isError false
                 (Upload.with_message
                    (str "Successfully uploaded "
                     ++ string_of_nat (length fl) ++ str " files") st))
        | Some e =>
            Upload.with_isError true
              (Upload.with_message (message_or e (str "Error uploading files")) st)
        end)).

(** Where a submit that was sent and failed with [e] leaves the page. *)
Definition submit_failed (API_BASE_URL : jsstring) (w : Env Chat.State)
    (e : js_exn) : completion unit * Env Chat.State :=
  let st := state w in
  (Normal tt,
   mkEnv (Chat.with_loading false
            (Chat.with_responses (Some JNull)
               (Chat.with_error
                  (Some (message_or e
                     (str "An error occurred while processing your request")))
                  (Chat.with_error None (Chat.with_loading true st)))))
         (sent w ++ [(Chat.query_request API_BASE_URL st,
                      Chat.with_error None (Chat.with_loading true st))])
         (console w ++ [(str "Error querying:", e)])
         (live_urls w) (minted w)).

(** A handler changed what the view is rendered from.  React renders the
    cells of the tree and nothing else, so a handler that reports something
    to the user, or to a caller waiting for a new state, leaves a state that
    differs from the one it found. *)
Definition surfaced {S} (before after : Env S) : Prop :=
  state after <> state before.

(** The entry [c] of the context list has the identifier [s]. *)
Definition has_id (s : jsstring) (c : json) : bool :=
  match c with
  | JObj fields => strict_eq_string (lookup_field (str "id") fields) s
  | _ => false
  end.

(** The request for a deletion is answered with a success status. *)
Definition deleted_ok (o : fetch_outcome) : Prop :=
  exists r, o = Resolved r /\ ok r = true.

(** The request for a deletion fails: [fetch] rejects with [e], or the
    response has a non-success status and [e] is what the handler throws
    for it (the exception of [json()], that of reading [detail] from
    [null], or an [Error] with the detail of the backend, by default
    ["Failed to delete context"]). *)
Definition delete_fails (e : js_exn) (o : fetch_outcome) : Prop :=
  o = Rejected e
  \/ exists r,
       o = Resolved r /\ ok r = false
       /\ match json_body r with
          | inl e' => e = e'
          | inr errorData =>
              match get_prop errorData (str "detail") with
              | Throw e' => e = e'
              | Normal detail =>
                  e = new_Error
                        (val_or detail (str "Failed to delete context"))
              end
          end.

(** A failed deletion: the request is in the log, the exception on the
    console, and no cell has changed. *)
Definition delete_logged {P} (API_BASE_URL : jsstring)
    (w : Env (Page.Tree P)) (e : js_exn)
  : completion unit * Env (Page.Tree P) :=
  (Normal tt,
   mkEnv (state w)
         (sent w ++ [(ContextSelector.delete_request API_BASE_URL
                        (Page.selector (state w)),
                      state w)])
         (console w ++ [(str "Failed to delete context:", e)])
         (live_urls w) (minted w)).

(** A failed creation: the request is in the log with the state it left
    in, the exception on the console, and [loading] is off again. *)
Definition create_logged {P} (API_BASE_URL : jsstring)
    (w : Env (Page.Tree P)) (e : js_exn)
  : completion unit * Env (Page.Tree P) :=
  let st := Page.selector (state w) in
  let busy :=
    Page.put_selector (ContextSelector.with_loading true st) (state w) in
  (Normal tt,
   mkEnv (Page.put_selector
            (ContextSelector.with_loading false
               (ContextSelector.with_loading true st)) (state w))
         (sent w ++ [(ContextSelector.create_request API_BASE_URL st, busy)])
         (console w ++ [(str "Failed to create context:", e)])
         (live_urls w) (minted w)).

(** A handler lets its caller know of a failure: it throws, or it changes
    what the view is rendered from. *)
Definition reported {S A} (m : Js S A) (w : Env S) : Prop :=
  (exists e, outcome m w = Throw e) \/ surfaced w (exec m w).

(** The request for a creation fails: [fetch] rejects, or the response has a
    non-success status. *)
Definition create_fails (o : fetch_outcome) : Prop :=
  (exists e, o = Rejected e) \/ (exists r, o = Resolved r /\ ok r = false).

(** What the specification asks of a failed creation: list and selection
    untouched, and the error reported to the caller. *)
Definition creation_fails_atomically {P} (API_BASE_URL : jsstring)
    (net : network) (w : Env (Page.Tree P)) : Prop :=
  let st := Page.selector (state w) in
  let run := Page.handleCreateContext API_BASE_URL net in
  let st' := Page.selector (state (exec run w)) in
  create_fails (net (length (sent w))
                    (ContextSelector.create_request API_BASE_URL st)) ->
  ContextSelector.contexts st' = ContextSelector.contexts st
  /\ ContextSelector.selectedContext st' = ContextSelector.selectedContext st
  /\ reported run w.

(** The user confirms the deletion of the selected context [s], the list
    holds no [null] entry, and the backend answers with a success status. *)
Definition deletion_confirmed {P} (API_BASE_URL : jsstring) (net : network)
    (confirm : jsstring -> bool) (s : jsstring) (w : Env (Page.Tree P))
  : Prop :=
  let st := Page.selector (state w) in
  ContextSelector.selectedContext st = Some s
  /\ s <> []
  /\ confirm ContextSelector.delete_prompt = true
  /\ Forall (fun c => c <> JNull) (ContextSelector.contexts st)
  /\ deleted_ok (net (length (sent w))
                     (ContextSelector.delete_request API_BASE_URL st)).

(** The cells of the selector after the deletion of [s]. *)
Definition selector_without (s : jsstring) (st : ContextSelector.State)
  : ContextSelector.State :=
  ContextSelector.with_selectedContext None
    (ContextSelector.with_contexts
       (filter (fun c => has_id s c = false) (ContextSelector.contexts st))
       st).

(** ** Sample inputs *)

Module Sample.

Definition api : jsstring := str "http://localhost:8000".

Definition file (n : string) : File :=
  {| file_name := str n; file_bytes := [] |}.

Definition three_files : list File :=
  [file "a.txt"; file "b.txt"; file "c.txt"].

(** A response with the given [ok] flag and a body that parses to [j]. *)
Definition answer (flag : bool) (j : json) : fetch_outcome :=
  Resolved {| ok := flag; json_body := inr j; blob_body := inr [] |}.

(** The backend accepts the first upload and refuses every later one. *)
Definition second_refused : network :=
  fun n _ =>
    match n with
    | O => answer true (JObj [(str "message", JStr (str "ok"))])
    | _ => answer false (JObj [(str "detail", JStr (str "too large"))])
    end.

(** The upload page with a context selected and three files chosen. *)
Definition ready_to_upload : Env Upload.State :=
  boot (Upload.with_files (Some three_files)
          (Upload.with_selectedContext (Some (str "c1")) Upload.initial)).

(** The chat page with a context selected, a question typed and the
    results of an earlier question on display. *)
Definition asking : Env Chat.State :=
  boot (Chat.mkState (str "what is a graph?")
          (Some (success_document (str "A") (str "B") (str "C") (str "D")))
          false None Chat.hybrid (Some (str "c1"))).

(** The backend reports a logical failure with a message. *)
Definition query_refused : network :=
  fun _ _ =>
    answer true (JObj [(str "status", JStr (str "error"));
                       (str "message", JStr (str "index not ready"))]).

(** The backend answers with the four results. *)
Definition query_answered : network :=
  fun _ _ =>
    answer true (success_document (str "A") (str "B") (str "C") (str "D")).

(** A context as the backend lists it. *)
Definition context (id name : string) : json :=
  JObj [(str "id", JStr (str id)); (str "name", JStr (str name));
        (str "created_at", JStr (str "2024-11-05T10:00:00"))].

(** A selector listing two contexts, the first of them selected. *)
Definition selector_on_c1 : ContextSelector.State :=
  ContextSelector.mkState [context "c1" "papers"; context "c2" "manuals"]
    (Some (str "c1")) false [] [] false.

(** The chat page of [asking] under that selector. *)
Definition chat_tree : Env (Page.Tree Chat.State) :=
  boot (Page.mkTree selector_on_c1 (state asking)).

(** The same selector with the modal open and a name typed. *)
Definition creating : Env (Page.Tree Chat.State) :=
  boot (Page.mkTree
          (ContextSelector.with_isCreateModalVisible true
             (ContextSelector.with_newContextName (str "papers")
                selector_on_c1))
          (state asking)).

Definition yes : jsstring -> bool := fun _ => true.
Definition no : jsstring -> bool := fun _ => false.

(** The backend deletes what it is asked to delete. *)
Definition delete_done : network :=
  fun _ _ => answer true (JObj [(str "message", JStr (str "deleted"))]).

(** The backend refuses with a detail. *)
Definition refusing : network :=
  fun _ _ => answer false (JObj [(str "detail", JStr (str "not allowed"))]).

(** The network is down. *)
Definition offline : network :=
  fun _ _ => Rejected (ErrorObj (str "Failed to fetch")).

(** The backend renders the graph: a binary body that is no JSON. *)
Definition graph_ready : network :=
  fun _ _ =>
    Resolved {| ok := true;
                json_body := inl (ErrorObj (str "Unexpected token <"));
                blob_body := inr (str "<html></html>") |}.

(** The graph page, mounted, on which the user selects a context and then
    presses the regenerate button. *)
Definition load_then_regenerate : Js Visualize.State unit :=
  (Visualize.mount api graph_ready >>
   Visualize.handle_all api graph_ready
     [Visualize.SelectContext (Some (str "c1")); Visualize.Regenerate])%js.

(** The backend accepts every upload. *)
Definition accepting : network :=
  fun _ _ => answer true (JObj [(str "message", JStr (str "ok"))]).

End Sample.

(** ** Further sample inputs *)

Module Fixture.

(** The network drops every request after the first. *)
Definition second_dropped : network :=
  fun n _ =>
    match n with
    | O => Sample.answer true (JObj [(str "message", JStr (str "ok"))])
    | _ => Rejected (ErrorObj (str "Failed to fetch"))
    end.

(** The variables of a context as the backend lists them. *)
Definition variables_doc : json :=
  JObj [(str "variables",
         JArr [JObj [(str "name", JStr (str "entity_types"));
                     (str "type", JStr (str "array"));
                     (str "currentValue",
                      JArr [JStr (str "person"); JStr (str "place")])]])].

Definition variables_served : network :=
  fun _ _ => Sample.answer true variables_doc.

(** The upload page with a context selected and a tag typed in. *)
Definition editing : Env Upload.State :=
  boot (Upload.with_tags [str "person"]
          (Upload.with_selectedContext (Some (str "c1")) Upload.initial)).

(** The same page under the selector of [Sample.selector_on_c1]. *)
Definition editing_tree : Env (Page.Tree Upload.State) :=
  boot (Page.mkTree Sample.selector_on_c1 (state editing)).

(** The graph page showing the graph of context c1. *)
Definition showing_graph : Env Visualize.State :=
  mkEnv (Visualize.mkState false None (Some (BlobUrl 0)) (Some (str "c1"))
           false (Some None))
        [] [] [BlobUrl 0] 1%nat.

(** The backend answers the first request with a new context and accepts
    whatever comes next. *)
Definition creates_c3 : network :=
  fun n _ =>
    match n with
    | O => Sample.answer true (Sample.context "c3" "notes")
    | _ => Sample.answer true (JObj [(str "message", JStr (str "deleted"))])
    end.

End Fixture.

(** The request [fetchVariables] sends. *)
Definition variables_request (API_BASE_URL : jsstring)
    (ctx : option jsstring) : request :=
  {| method := GET;
     url := API_BASE_URL ++ str "/get_prompt_variables?context_id="
            ++ string_of_cell ctx;
     body := NoBody |}.

(** Where [fetchVariables] leaves the page when the variables could not be
    loaded. *)
Definition variables_failed (API_BASE_URL : jsstring) (w : Env Upload.State)
  : completion unit * Env Upload.State :=
  (Normal tt,
   mkEnv (Upload.with_isError true
            (Upload.with_message (str "Error loading prompt variables")
               (state w)))
         (sent w ++ [(variables_request API_BASE_URL
                        (Upload.selectedContext (state w)), state w)])
         (console w) (live_urls w) (minted w)).

(** The cells of the upload page that hold what the user is editing. *)
Definition same_inputs (a b : Upload.State) : Prop :=
  Upload.text a = Upload.text b
  /\ Upload.files a = Upload.files b
  /\ Upload.selectedVariable a = Upload.selectedVariable b
  /\ Upload.variableValue a = Upload.variableValue b
  /\ Upload.tags a = Upload.tags b
  /\ Upload.newTagInput a = Upload.newTagInput b.

(** The state of the graph page while its request is on its way. *)
Definition graph_busy (st : Visualize.State) : Visualize.State :=
  Visualize.with_error None (Visualize.with_loading true st).

(** Where [loadGraph] leaves the page when the graph could not be loaded
    because of [e]. *)
Definition graph_failed (rq : request) (w : Env Visualize.State)
    (e : js_exn) : completion unit * Env Visualize.State :=
  (Normal tt,
   mkEnv (Visualize.with_regenerating false
            (Visualize.with_loading false
               (Visualize.with_error
                  (Some (message_or e (str "An error occurred")))
                  (graph_busy (state w)))))
         (sent w ++ [(rq, graph_busy (state w))])
         (console w) (live_urls w) (minted w)).

(** Where [loadGraph] leaves the page when the graph arrived. *)
Definition graph_loaded (rq : request) (w : Env Visualize.State)
  : completion unit * Env Visualize.State :=
  (Normal tt,
   mkEnv (Visualize.with_regenerating false
            (Visualize.with_loading false
               (Visualize.with_graphUrl (Some (BlobUrl (minted w)))
                  (graph_busy (state w)))))
         (sent w ++ [(rq, graph_busy (state w))])
         (console w) (live_urls w ++ [BlobUrl (minted w)])
         (Datatypes.S (minted w))).

(** The graph does not arrive: [fetch] rejects with [e], the response has a
    non-success status (and [e] is the error the handler makes of it), or
    the body cannot be read as a blob. *)
Definition graph_fails (e : js_exn) (o : fetch_outcome) : Prop :=
  o = Rejected e
  \/ (exists r, o = Resolved r /\ ok r = false
               /\ e = ErrorObj (str "Failed to generate graph visualization"))
  \/ (exists r, o = Resolved r /\ ok r = true /\ blob_body r = inl e).

(** * GeneratedContents page *)

Module GeneratedContents.

(** The [useState] cells of [GeneratedContents].  [fileContents] is the
    object used as a map from file name to content: the finite map holds
    its own properties.

    [renderError] is no cell of the component.  React evaluates a function
    passed to a setter when it renders, outside the handler that queued
    it, so an exception such a function throws is not seen by the [catch]
    of the handler: the next render fails with it and, the application
    having no error boundary, the tree is unmounted.  [renderError] holds
    that exception. *)
Record State := mkState {
  selectedContext : option jsstring;
  availableFiles : jsval;
  fileContents : gmap jsstring jsval;
  loadingFile : option jsstring;
  error : option jsstring;
  activeTabId : jsstring;
  renderError : option js_exn
}.

Definition initial : State :=
  mkState None (Some (JArr [])) ∅ None None
          (str "kv_store_full_docs.json") None.

Definition with_selectedContext v (s : State) : State :=
  mkState v (availableFiles s) (fileContents s) (loadingFile s) (error s)
          (activeTabId s) (renderError s).
Definition with_availableFiles v (s : State) : State :=
  mkState (selectedContext s) v (fileContents s) (loadingFile s) (error s)
          (activeTabId s) (renderError s).
Definition with_fileContents v (s : State) : State :=
  mkState (selectedContext s) (availableFiles s) v (loadingFile s) (error s)
          (activeTabId s) (renderError s).
Definition with_loadingFile v (s : State) : State :=
  mkState (selectedContext s) (availableFiles s) (fileContents s) v (error s)
          (activeTabId s) (renderError s).
Definition with_error v (s : State) : State :=
  mkState (selectedContext s) (availableFiles s) (fileContents s)
          (loadingFile s) v (activeTabId s) (renderError s).
Definition with_activeTabId v (s : State) : State :=
  mkState (selectedContext s) (availableFiles s) (fileContents s)
          (loadingFile s) (error s) v (renderError s).
Definition with_renderError v (s : State) : State :=
  mkState (selectedContext s) (availableFiles s) (fileContents s)
          (loadingFile s) (error s) (activeTabId s) v.

Definition setSelectedContext v : Js State unit :=
  update (with_selectedContext v).
Definition setAvailableFiles v : Js State unit :=
  update (with_availableFiles v).
Definition setLoadingFile v : Js State unit := update (with_loadingFile v).
Definition setError v : Js State unit := update (with_error v).
Definition setActiveTabId v : Js State unit := update (with_activeTabId v).

(** [setFileContents(prev => f prev)]: the call only queues [f] and never
    throws.  When [f] throws once React evaluates it, the contents stay as
    they are and the render fails with that exception. *)
Definition setFileContents_by
    (f : gmap jsstring jsval -> completion (gmap jsstring jsval))
  : Js State unit :=
  update (fun s =>
            match f (fileContents s) with
            | Normal contents => with_fileContents contents s
            | Throw e => with_renderError (Some e) s
            end).

(** The names every object inherits from [Object.prototype]; what is read
    under such a name is a function or an object, hence truthy. *)
Definition inherited_names : list jsstring :=
  [str "constructor"; str "__proto__"; str "hasOwnProperty";
   str "isPrototypeOf"; str "propertyIsEnumerable"; str "toLocaleString";
   str "toString"; str "valueOf"; str "__defineGetter__";
   str "__defineSetter__"; str "__lookupGetter__"; str "__lookupSetter__"].

(** ToBoolean of [fileContents[filename]]. *)
Definition loaded (contents : gmap jsstring jsval) (filename : jsstring)
  : bool :=
  match contents !! filename with
  | Some v => truthy_val v
  | None => bool_decide (filename ∈ inherited_names)
  end.

Section Handlers.
Variable API_BASE_URL : jsstring.
Variable net : network.

(** The request [fetchAvailableFiles] sends. *)
Definition files_request (ctx : option jsstring) : request :=
  {| method := GET;
     url := API_BASE_URL ++ str "/generated_files/" ++ string_of_cell ctx;
     body := NoBody |}.

(** The request [fetchFileContent] sends. *)
Definition content_request (ctx : option jsstring) (filename : jsstring)
  : request :=
  {| method := GET;
     url := API_BASE_URL ++ str "/generated_files/" ++ string_of_cell ctx
            ++ str "/" ++ filename;
     body := NoBody |}.

Definition fetchAvailableFiles : Js State unit :=
  let! st := get in
  try_catch
    (let! response := fetch net (files_request (selectedContext st)) in
     (if negb (ok response) then
        throw (ErrorObj (str "Failed to fetch file list"))
      else ret tt) >>
     let! data := json_of response in
     let! files := lift (get_prop data (str "files")) in
     setAvailableFiles files >>
     setError None)
    (fun err =>
       setError (Some (message_or err (str "An error occurred"))) >>
       setAvailableFiles (Some (JArr []))).

Definition fetchFileContent (filename : jsstring) : Js State unit :=
  let! st := get in
  if loaded (fileContents st) filename then ret tt else
  setLoadingFile (Some filename) >>
  try_finally
    (try_catch
       (let! response :=
          fetch net (content_request (selectedContext st) filename) in
        (if negb (ok response) then
           throw (ErrorObj (str "Failed to fetch " ++ filename))
         else ret tt) >>
        let! data := json_of response in
        setFileContents_by
          (fun prev =>
             match get_prop data (str "content") with
             | Normal content => Normal (<[filename := content]> prev)
             | Throw e => Throw e
             end) >>
        setError None)
       (fun err =>
          setError (Some (message_or err (str "An error occurred")))))
    (setLoadingFile None).

(** [detail.activeTabId] is the identifier of the tab that was clicked. *)
Definition handleTabChange (clicked : jsstring) : Js State unit :=
  setActiveTabId clicked >>
  fetchFileContent clicked.

(** The page passes [setSelectedContext] to the selector; its effect on
    [selectedContext] lists the files of a truthy selection. *)
Definition onContextChange (v : option jsstring) : Js State unit :=
  let! st := get in
  if decide (v = selectedContext st) then ret tt else
  setSelectedContext v >>
  (if truthy v then fetchAvailableFiles else ret tt).
End Handlers.

End GeneratedContents.

(** Where [fetchFileContent] leaves the page after a request that failed
    with [e]. *)
Definition content_failed (API_BASE_URL : jsstring) (filename : jsstring)
    (w : Env GeneratedContents.State) (e : js_exn)
  : completion unit * Env GeneratedContents.State :=
  let busy :=
    GeneratedContents.with_loadingFile (Some filename) (state w) in
  (Normal tt,
   mkEnv (GeneratedContents.with_loadingFile None
            (GeneratedContents.with_error
               (Some (message_or e (str "An error occurred"))) busy))
         (sent w ++
          [(GeneratedContents.content_request API_BASE_URL
              (GeneratedContents.selectedContext (state w)) filename, busy)])
         (console w) (live_urls w) (minted w)).

(** Where it leaves the page after storing [content]. *)
Definition content_stored (API_BASE_URL : jsstring) (filename : jsstring)
    (w : Env GeneratedContents.State) (content : jsval)
  : completion unit * Env GeneratedContents.State :=
  let busy :=
    GeneratedContents.with_loadingFile (Some filename) (state w) in
  (Normal tt,
   mkEnv (GeneratedContents.with_loadingFile None
            (GeneratedContents.with_error None
               (GeneratedContents.with_fileContents
                  (<[filename := content]>
                     (GeneratedContents.fileContents (state w))) busy)))
         (sent w ++
          [(GeneratedContents.content_request API_BASE_URL
              (GeneratedContents.selectedContext (state w)) filename, busy)])
         (console w) (live_urls w) (minted w)).

(** Where it leaves the page after a document whose [content] cannot be
    read, the read throwing [e]: the read is inside the function queued
    with [setFileContents], so the handler goes on as after a success. *)
Definition content_crashed (API_BASE_URL : jsstring) (filename : jsstring)
    (w : Env GeneratedContents.State) (e : js_exn)
  : completion unit * Env GeneratedContents.State :=
  let busy :=
    GeneratedContents.with_loadingFile (Some filename) (state w) in
  (Normal tt,
   mkEnv (GeneratedContents.with_loadingFile None
            (GeneratedContents.with_error None
               (GeneratedContents.with_renderError (Some e) busy)))
         (sent w ++
          [(GeneratedContents.content_request API_BASE_URL
              (GeneratedContents.selectedContext (state w)) filename, busy)])
         (console w) (live_urls w) (minted w)).

(** The content of a file does not arrive: [fetch] rejects with [e], the
    response has a non-success status (and [e] is the error the handler
    makes of it), or the body does not parse. *)
Definition content_fails (filename : jsstring) (e : js_exn)
    (o : fetch_outcome) : Prop :=
  o = Rejected e
  \/ (exists r, o = Resolved r /\ ok r = false
               /\ e = ErrorObj (str "Failed to fetch " ++ filename))
  \/ (exists r, o = Resolved r /\ ok r = true /\ json_body r = inl e).

(** A document arrives with a success status, and reading its [content]
    throws [e]: the body is [null]. *)
Definition content_unreadable (e : js_exn) (o : fetch_outcome) : Prop :=
  exists r data,
    o = Resolved r /\ ok r = true /\ json_body r = inr data
    /\ get_prop data (str "content") = Throw e.

(** The content of a file arrives as the [content] property of a
    document. *)
Definition content_arrives (content : jsval) (o : fetch_outcome) : Prop :=
  exists r data,
    o = Resolved r /\ ok r = true /\ json_body r = inr data
    /\ get_prop data (str "content") = Normal content.

Module Fixture2.

(** The page listing the files of context c1, with one file loaded. *)
Definition browsing : Env GeneratedContents.State :=
  boot (GeneratedContents.mkState (Some (str "c1"))
          (Some (JArr [JStr (str "vdb_chunks.json")]))
          {[ str "vdb_chunks.json" := Some (JStr (str "{}")) ]}
          None None (str "vdb_chunks.json") None).

(** The backend answers every request with the body [null]. *)
Definition serving_null : network :=
  fun _ _ => Sample.answer true JNull.

(** The backend serves a file with the given content. *)
Definition serving (content : string) : network :=
  fun _ _ => Sample.answer true (JObj [(str "content", JStr (str content))]).

End Fixture2.

(** The list of files does not arrive: [fetch] rejects with [e], the
    response has a non-success status (and [e] is the error the handler
    makes of it), the body does not parse, or it parses to [null]. *)
Definition listing_fails (e : js_exn) (o : fetch_outcome) : Prop :=
  o = Rejected e
  \/ (exists r, o = Resolved r /\ ok r = false
               /\ e = ErrorObj (str "Failed to fetch file list"))
  \/ (exists r, o = Resolved r /\ ok r = true /\ json_body r = inl e)
  \/ (exists r data, o = Resolved r /\ ok r = true /\ json_body r = inr data
                     /\ get_prop data (str "files") = Throw e).

(** Where [fetchAvailableFiles] leaves the page after a listing that
    failed with [e]. *)
Definition listing_failed (API_BASE_URL : jsstring)
    (w : Env GeneratedContents.State) (e : js_exn)
  : completion unit * Env GeneratedContents.State :=
  (Normal tt,
   mkEnv (GeneratedContents.with_availableFiles (Some (JArr []))
            (GeneratedContents.with_error
               (Some (message_or e (str "An error occurred"))) (state w)))
         (sent w ++
          [(GeneratedContents.files_request API_BASE_URL
              (GeneratedContents.selectedContext (state w)), state w)])
         (console w) (live_urls w) (minted w)).

(** Where it leaves the page after a listing that arrived. *)
Definition listing_done (API_BASE_URL : jsstring)
    (w : Env GeneratedContents.State) (files : jsval)
  : completion unit * Env GeneratedContents.State :=
  (Normal tt,
   mkEnv (GeneratedContents.with_error None
            (GeneratedContents.with_availableFiles files (state w)))
         (sent w ++
          [(GeneratedContents.files_request API_BASE_URL
              (GeneratedContents.selectedContext (state w)), state w)])
         (console w) (live_urls w) (minted w)).

(** * Upload page: text upload, clearing, and the variable editor *)

Module Forms.

(** An option of the select box of variables; only its [value] is read. *)
Record SelectOption := {
  label : jsval;
  value : option jsstring
}.

(** The [useState] cells of [Upload] once more, in declaration order.  The
    handlers of this module store [data.message] and [currentValue] as the
    backend sends them, so here [message], [variableValue] and [tags] hold
    any value, not only the strings [Upload.State] gives them. *)
Record Cells := mkCells {
  text : jsstring;
  files : option (list File);
  message : jsval;
  loading : bool;
  isError : bool;
  clearLoading : bool;
  uploadProgress : option Upload.UploadProgress;
  selectedVariable : option SelectOption;
  variableValue : jsval;
  tags : jsval;
  variableOptions : jsval;
  newTagInput : jsstring;
  selectedContext : option jsstring;
  selectedUploadTab : jsstring
}.

(** The cells of [Upload.State] seen as [Cells]. *)
Definition of_state (s : Upload.State) : Cells :=
  mkCells (Upload.text s) (Upload.files s) (Some (JStr (Upload.message s)))
    (Upload.loading s) (Upload.isError s) (Upload.clearLoading s)
    (Upload.uploadProgress s)
    ((fun o => {| label := Some (JStr (Upload.label o));
                 value := Some (Upload.value o) |})
       <$> Upload.selectedVariable s)
    (Some (JStr (Upload.variableValue s)))
    (Some (JArr (JStr <$> Upload.tags s)))
    (Upload.variableOptions s) (Upload.newTagInput s)
    (Upload.selectedContext s) (Upload.selectedUploadTab s).

Definition with_text v (s : Cells) : Cells :=
  mkCells v (files s) (message s) (loading s) (isError s) (clearLoading s)
    (uploadProgress s) (selectedVariable s) (variableValue s) (tags s)
    (variableOptions s) (newTagInput s) (selectedContext s)
    (selectedUploadTab s).
Definition with_files v (s : Cells) : Cells :=
  mkCells (text s) v (message s) (loading s) (isError s) (clearLoading s)
    (uploadProgress s) (selectedVariable s) (variableValue s) (tags s)
    (variableOptions s) (newTagInput s) (selectedContext s)
    (selectedUploadTab s).
Definition with_message v (s : Cells) : Cells :=
  mkCells (text s) (files s) v (loading s) (isError s) (clearLoading s)
    (uploadProgress s) (selectedVariable s) (variableValue s) (tags s)
    (variableOptions s) (newTagInput s) (selectedContext s)
    (selectedUploadTab s).
Definition with_loading v (s : Cells) : Cells :=
  mkCells (text s) (files s) (message s) v (isError s) (clearLoading s)
    (uploadProgress s) (selectedVariable s) (variableValue s) (tags s)
    (variableOptions s) (newTagInput s) (selectedContext s)
    (selectedUploadTab s).
Definition with_isError v (s : Cells) : Cells :=
  mkCells (text s) (files s) (message s) (loading s) v (clearLoading s)
    (uploadProgress s) (selectedVariable s) (variableValue s) (tags s)
    (variableOptions s) (newTagInput s) (selectedContext s)
    (selectedUploadTab s).
Definition with_clearLoading v (s : Cells) : Cells :=
  mkCells (text s) (files s) (message s) (loading s) (isError s) v
    (uploadProgress s) (selectedVariable s) (variableValue s) (tags s)
    (variableOptions s) (newTagInput s) (selectedContext s)
    (selectedUploadTab s).
Definition with_variableValue v (s : Cells) : Cells :=
  mkCells (text s) (files s) (message s) (loading s) (isError s)
    (clearLoading s) (uploadProgress s) (selectedVariable s) v (tags s)
    (variableOptions s) (newTagInput s) (selectedContext s)
    (selectedUploadTab s).
Definition with_tags v (s : Cells) : Cells :=
  mkCells (text s) (files s) (message s) (loading s) (isError s)
    (clearLoading s) (uploadProgress s) (selectedVariable s)
    (variableValue s) v (variableOptions s) (newTagInput s)
    (selectedContext s) (selectedUploadTab s).

Definition setText v : Js Cells unit := update (with_text v).
Definition setFiles v : Js Cells unit := update (with_files v).
Definition setMessage v : Js Cells unit := update (with_message v).
Definition setLoading v : Js Cells unit := update (with_loading v).
Definition setIsError v : Js Cells unit := update (with_isError v).
Definition setClearLoading v : Js Cells unit := update (with_clearLoading v).
Definition setVariableValue v : Js Cells unit :=
  update (with_variableValue v).
Definition setTags v : Js Cells unit := update (with_tags v).

(** [a === b] where [b] is a string or [undefined]. *)
Definition same_name (a : jsval) (b : option jsstring) : bool :=
  match b with
  | Some s => strict_eq_string a s
  | None => match a with None => true | Some _ => false end
  end.

(** [items.find(v => v.name === name)] *)
Fixpoint find_named (name : option jsstring) (items : list json)
  : completion jsval :=
  match items with
  | [] => Normal None
  | v :: rest =>
      match get_prop v (str "name") with
      | Throw e => Throw e
      | Normal n =>
          if same_name n name then Normal (Some v) else find_named name rest
      end
  end.

(** [variableOptions.find(v => v.name === name)]: only an array has a
    [find] method (the messages are V8's). *)
Definition find_variable (options : jsval) (name : option jsstring)
  : completion jsval :=
  match options with
  | Some (JArr items) => find_named name items
  | None =>
      Throw (ErrorObj
               (str "Cannot read properties of undefined (reading 'find')"))
  | Some JNull =>
      Throw (ErrorObj (str "Cannot read properties of null (reading 'find')"))
  | Some _ => Throw (ErrorObj (str "variableOptions.find is not a function"))
  end.

(** One property of an object literal under [JSON.stringify], which leaves
    out a property whose value is [undefined]. *)
Definition property (k : string) (v : jsval) : list (jsstring * json) :=
  match v with
  | Some j => [(str k, j)]
  | None => []
  end.

Section Handlers.
Variable API_BASE_URL : jsstring.
Variable net : network.

(** The request [handleTextUpload] sends. *)
Definition insert_request (st : Cells) : request :=
  {| method := POST;
     url := API_BASE_URL ++ str "/insert?context_id="
            ++ string_of_cell (selectedContext st);
     body := JsonBody (JObj [(str "text", JStr (text st))]) |}.

(** The request [handleClear] sends. *)
Definition clear_request (st : Cells) : request :=
  {| method := DELETE;
     url := API_BASE_URL ++ str "/contexts/"
            ++ string_of_cell (selectedContext st) ++ str "/clear";
     body := NoBody |}.

(** The request [handleVariableChange] sends for the variable [variable]
    found under the chosen name. *)
Definition update_request (st : Cells) (chosen : SelectOption)
    (variable : json) (type : jsval) : request :=
  {| method := POST;
     url := API_BASE_URL ++ str "/update_prompt?context_id="
            ++ string_of_cell (selectedContext st);
     body := JsonBody
       (JObj (property "variable" (JStr <$> value chosen)
              ++ property "value"
                   (if strict_eq_string type (str "array") then tags st
                    else variableValue st)
              ++ property "type" type)) |}.

Definition handleTextUpload : Js Cells unit :=
  let! st := get in
  if negb (truthy_string (trim (text st)))
     || negb (truthy (selectedContext st))
  then ret tt else
  setLoading true >>
  try_catch
    (let! response := fetch net (insert_request st) in
     let! data := json_of response in
     let! message := lift (get_prop data (str "message")) in
     setMessage message >>
     setIsError false >>
     setText [])
    (fun error =>
       setMessage (Some (JStr (str "Error uploading text"))) >>
       setIsError true) >>
  setLoading false.

Definition handleClear : Js Cells unit :=
  let! st := get in
  if negb (truthy (selectedContext st)) then ret tt else
  setClearLoading true >>
  try_catch
    (let! response := fetch net (clear_request st) in
     let! data := json_of response in
     let! message := lift (get_prop data (str "message")) in
     setMessage message >>
     setIsError false >>
     setText [] >>
     setFiles None)
    (fun error =>
       setMessage (Some (JStr (str "Error clearing data"))) >>
       setIsError true) >>
  setClearLoading false.

Definition handleVariableChange : Js Cells unit :=
  let! st := get in
  match selectedVariable st with
  | None => ret tt
  | Some chosen =>
      if negb (truthy (selectedContext st)) then ret tt else
      let! variable := lift (find_variable (variableOptions st)
                                           (value chosen)) in
      match variable with
      | None => ret tt
      | Some found =>
          if negb (truthy_val variable) then ret tt else
          try_catch
            (let! type := lift (get_prop found (str "type")) in
             let! response :=
               fetch net (update_request st chosen found type) in
             (if negb (ok response) then
                let! errorData := json_of response in
                let! detail := lift (get_prop errorData (str "detail")) in
                throw (new_Error
                         (val_or detail (str "Failed to update variable")))
              else ret tt) >>
             let! data := json_of response in
             let! message := lift (get_prop data (str "message")) in
             setMessage message >>
             setIsError false)
            (fun error =>
               setMessage
                 (Some (JStr (message_or error
                                (str "Error updating variable")))) >>
               setIsError true)
      end
  end.

(** The effect on [selectedVariable]: it seeds the buffer of the kind of
    the chosen variable and empties the other. *)
Definition seedBuffer : Js Cells unit :=
  let! st := get in
  match selectedVariable st with
  | None => ret tt
  | Some chosen =>
      let! variable := lift (find_variable (variableOptions st)
                                           (value chosen)) in
      match variable with
      | None => ret tt
      | Some found =>
          if negb (truthy_val variable) then ret tt else
          let! type := lift (get_prop found (str "type")) in
          let! currentValue := lift (get_prop found (str "currentValue")) in
          if strict_eq_string type (str "array") then
            setTags currentValue >>
            setVariableValue (Some (JStr []))
          else
            setVariableValue currentValue >>
            setTags (Some (JArr []))
      end
  end.
End Handlers.

End Forms.

(** Where [handleTextUpload] leaves the page after a request that did not
    come back with a document. *)
Definition text_upload_failed (API_BASE_URL : jsstring) (w : Env Forms.Cells)
  : completion unit * Env Forms.Cells :=
  let busy := Forms.with_loading true (state w) in
  (Normal tt,
   mkEnv (Forms.with_loading false
            (Forms.with_isError true
               (Forms.with_message (Some (JStr (str "Error uploading text")))
                  busy)))
         (sent w ++ [(Forms.insert_request API_BASE_URL (state w), busy)])
         (console w) (live_urls w) (minted w)).

(** Where it leaves the page after a document with the given [message]
    property. *)
Definition text_upload_done (API_BASE_URL : jsstring) (w : Env Forms.Cells)
    (message : jsval) : completion unit * Env Forms.Cells :=
  let busy := Forms.with_loading true (state w) in
  (Normal tt,
   mkEnv (Forms.with_loading false
            (Forms.with_text []
               (Forms.with_isError false (Forms.with_message message busy))))
         (sent w ++ [(Forms.insert_request API_BASE_URL (state w), busy)])
         (console w) (live_urls w) (minted w)).

(** The same two for [handleClear]. *)
Definition clear_failed (API_BASE_URL : jsstring) (w : Env Forms.Cells)
  : completion unit * Env Forms.Cells :=
  let busy := Forms.with_clearLoading true (state w) in
  (Normal tt,
   mkEnv (Forms.with_clearLoading false
            (Forms.with_isError true
               (Forms.with_message (Some (JStr (str "Error clearing data")))
                  busy)))
         (sent w ++ [(Forms.clear_request API_BASE_URL (state w), busy)])
         (console w) (live_urls w) (minted w)).

Definition clear_done (API_BASE_URL : jsstring) (w : Env Forms.Cells)
    (message : jsval) : completion unit * Env Forms.Cells :=
  let busy := Forms.with_clearLoading true (state w) in
  (Normal tt,
   mkEnv (Forms.with_clearLoading false
            (Forms.with_files None
               (Forms.with_text []
                  (Forms.with_isError false
                     (Forms.with_message message busy)))))
         (sent w ++ [(Forms.clear_request API_BASE_URL (state w), busy)])
         (console w) (live_urls w) (minted w)).

(** A document arrives, whatever the status of the response, and its
    [message] property is [message]. *)
Definition document_with_message (message : jsval) (o : fetch_outcome)
  : Prop :=
  exists r data,
    o = Resolved r /\ json_body r = inr data
    /\ get_prop data (str "message") = Normal message.

(** No document arrives: [fetch] rejects, the body does not parse, or it
    parses to [null]. *)
Definition no_document (o : fetch_outcome) : Prop :=
  (exists e, o = Rejected e)
  \/ (exists r e, o = Resolved r /\ json_body r = inl e)
  \/ (exists r, o = Resolved r /\ json_body r = inr JNull).

Module Fixture3.

(** The upload page with a context selected, a text typed and two files
    chosen. *)
Definition typing : Env Forms.Cells :=
  boot (Forms.of_state
          (Upload.mkState (str "a graph is a set of nodes")
             (Some [Sample.file "a.txt"; Sample.file "b.txt"]) [] false false
             false None None [] [] (Some (JArr [])) []
             (Some (str "c1")) (str "text"))).

(** The backend acknowledges with a message. *)
Definition acknowledging : network :=
  fun _ _ => Sample.answer true (JObj [(str "message", JStr (str "done"))]).

End Fixture3.

(** Where [handleVariableChange] leaves the page when it ends in its
    [catch] with [shown] as the message, [log] being the requests sent. *)
Definition update_failed (w : Env Forms.Cells)
    (log : list (request * Forms.Cells)) (shown : jsstring)
  : completion unit * Env Forms.Cells :=
  (Normal tt,
   mkEnv (Forms.with_isError true
            (Forms.with_message (Some (JStr shown)) (state w)))
         log (console w) (live_urls w) (minted w)).

(** Where it leaves the page after a success document with the given
    [message] property. *)
Definition update_done (w : Env Forms.Cells)
    (log : list (request * Forms.Cells)) (message : jsval)
  : completion unit * Env Forms.Cells :=
  (Normal tt,
   mkEnv (Forms.with_isError false (Forms.with_message message (state w)))
         log (console w) (live_urls w) (minted w)).

(** The cells no handler of the variable editor writes when it commits. *)
Definition same_editor (a b : Forms.Cells) : Prop :=
  Forms.tags a = Forms.tags b
  /\ Forms.variableValue a = Forms.variableValue b
  /\ Forms.variableOptions a = Forms.variableOptions b
  /\ Forms.selectedVariable a = Forms.selectedVariable b
  /\ Forms.selectedContext a = Forms.selectedContext b
  /\ Forms.text a = Forms.text b
  /\ Forms.files a = Forms.files b
  /\ Forms.newTagInput a = Forms.newTagInput b.

(** No variable in [items] is called [name]. *)
Definition none_named (name : option jsstring) (items : list json) : Prop :=
  Forall (fun v => exists n, get_prop v (str "name") = Normal n
                             /\ Forms.same_name n name = false) items.

(** [v] is a variable called [name]. *)
Definition named (name : option jsstring) (v : json) : Prop :=
  exists n, get_prop v (str "name") = Normal n
            /\ Forms.same_name n name = true.

Module Fixture4.

Definition entity_types : json :=
  JObj [(str "name", JStr (str "entity_types"));
        (str "type", JStr (str "array"));
        (str "currentValue", JArr [JStr (str "person"); JStr (str "place")])].

Definition language : json :=
  JObj [(str "name", JStr (str "language"));
        (str "type", JStr (str "string"));
        (str "currentValue", JStr (str "English"))].

Definition chosen : Forms.SelectOption :=
  {| Forms.label := Some (JStr (str "entity_types"));
     Forms.value := Some (str "entity_types") |}.

(** The variable editor with [entity_types] chosen and an edited tag
    buffer. *)
Definition editing_tags : Env Forms.Cells :=
  boot (Forms.mkCells [] None (Some (JStr [])) false false false None
          (Some chosen) (Some (JStr []))
          (Some (JArr [JStr (str "person"); JStr (str "event")]))
          (Some (JArr [language; entity_types])) []
          (Some (str "c1")) (str "text")).

End Fixture4.

(** The life of the graph page: it is mounted, then handles events. *)
Inductive graph_step :=
  | Mount
  | Later (ev : Visualize.event).

Definition graph_run (API_BASE_URL : jsstring) (net : network)
    (step : graph_step) : Js Visualize.State unit :=
  match step with
  | Mount => Visualize.mount API_BASE_URL net
  | Later ev => Visualize.handle API_BASE_URL net ev
  end.


(** The name of a file occurs in a message. *)
Definition names_file (message : jsstring) (f : File) : Prop :=
  exists before after, message = before ++ file_name f ++ after.

Module Gateway.

(** The backend accepts the first upload; the second is answered by a
    gateway in front of it, with a non-success status and a page of HTML
    for a body. *)
Definition second_unparsed : network :=
  fun n _ =>
    match n with
    | O => Sample.answer true (JObj [(str "message", JStr (str "ok"))])
    | _ =>
        Resolved
          {| ok := false;
             json_body :=
               inl (ErrorObj (str "Unexpected token < in JSON at position 0"));
             blob_body := inr (str "<html>502 Bad Gateway</html>") |}
    end.

End Gateway.


(** A document arrives whose [status] cannot be read, the read throwing
    [e]: the body is [null]. *)
Definition status_unreadable (e : js_exn) (o : fetch_outcome) : Prop :=
  exists r data,
    o = Resolved r /\ json_body r = inr data
    /\ get_prop data (str "status") = Throw e.

(** The answer to a query is a document whose [status] is ["success"]. *)
Definition success_status (o : fetch_outcome) : Prop :=
  exists r data status,
    o = Resolved r /\ json_body r = inr data
    /\ get_prop data (str "status") = Normal status
    /\ strict_eq_string status (str "success") = true.


(** * Facts about the run time *)

Example trim_both_ends : trim (str "  graph rag  ") = str "graph rag".
Proof. reflexivity. Qed.

Example trim_line_breaks :
  trim ([10; 9; 160] ++ str "x" ++ [8232; 65279; 13]) = str "x".
Proof. reflexivity. Qed.

Example template_of_undefined : to_string None = str "undefined".
Proof. reflexivity. Qed.

Section TrimFacts.

Lemma trimStart_headed s : headed (trimStart s).
Proof.
  induction s as [|c s IH]; simpl; [done|].
  destruct (is_white_space c) eqn:E; [done|]. simpl. done.
Qed.

Lemma trimStart_fixed s : headed s -> trimStart s = s.
Proof. destruct s as [|c s]; simpl; [done|]. by intros ->. Qed.

Lemma trimStart_idem s : trimStart (trimStart s) = trimStart s.
Proof. apply trimStart_fixed, trimStart_headed. Qed.

Lemma trimStart_snoc s c :
  is_white_space c = false -> trimStart (s ++ [c]) = trimStart s ++ [c].
Proof.
  intros Hc. induction s as [|d s IH]; simpl.
  - by rewrite Hc.
  - destruct (is_white_space d); [apply IH|done].
Qed.

Lemma trimEnd_headed s : headed s -> headed (trimEnd s).
Proof.
  destruct s as [|c s]; [done|]. simpl. intros Hc.
  unfold trimEnd. rewrite reverse_cons, trimStart_snoc by done.
  by rewrite reverse_app.
Qed.

Lemma trimEnd_idem s : trimEnd (trimEnd s) = trimEnd s.
Proof.
  unfold trimEnd. by rewrite reverse_involutive, trimStart_idem.
Qed.

Lemma trim_idem s : trim (trim s) = trim s.
Proof.
  unfold trim.
  rewrite (trimStart_fixed (trimEnd _))
    by apply trimEnd_headed, trimStart_headed.
  apply trimEnd_idem.
Qed.

Lemma truthy_string_spec s : truthy_string s = true <-> s <> [].
Proof. destruct s; simpl; split; congruence. Qed.

Lemma trimmed_not_blank t : trim t <> [] -> ~ blank (trim t).
Proof. unfold blank. by rewrite trim_idem. Qed.
End TrimFacts.

Section FilterFacts.
Context {A : Type}.

Lemma filter_from_skip (index i : nat) (l : list A) :
  filter_from (fun _ j => negb (j =? index)%nat) i l
  = if decide (index < i)%nat then l else delete (index - i)%nat l.
Proof.
  revert i. induction l as [|x l IH]; intros i; simpl.
  - by case_decide.
  - rewrite IH. destruct (Nat.eqb_spec i index) as [->|Hne]; simpl.
    + rewrite Nat.sub_diag. repeat case_decide; try lia. done.
    + repeat case_decide; try lia; [done|].
      replace (index - i)%nat with (Datatypes.S (index - Datatypes.S i))
        by lia.
      done.
Qed.

(** Filtering out one position is positional deletion. *)
Lemma filter_indexed_delete (index : nat) (l : list A) :
  filter_indexed (fun _ j => negb (j =? index)%nat) l = delete index l.
Proof.
  unfold filter_indexed. rewrite filter_from_skip.
  case_decide; [lia|]. by rewrite Nat.sub_0_r.
Qed.

Lemma delete_out_of_range (index : nat) (l : list A) :
  (length l <= index)%nat -> delete index l = l.
Proof.
  revert index. induction l as [|x l IH]; intros [|i] H; simpl in *;
    try done; try lia.
  f_equal. apply IH. lia.
Qed.
End FilterFacts.

Section OccurrenceFacts.

Lemma occurrences_snoc x y l :
  occurrences x (l ++ [y])
  = (occurrences x l + if decide (y = x) then 1 else 0)%nat.
Proof.
  unfold occurrences. rewrite filter_app, length_app. f_equal.
  rewrite filter_cons, filter_nil. by case_decide.
Qed.

Lemma occurrences_absent x (l : list jsstring) : x ∉ l -> occurrences x l = 0%nat.
Proof.
  unfold occurrences. induction l as [|y l IH]; [done|].
  rewrite not_elem_of_cons. intros [Hne Hl].
  rewrite filter_cons. case_decide; [congruence|]. by apply IH.
Qed.

Lemma occurrences_delete x (i : nat) (l : list jsstring) :
  (occurrences x (delete i l) <= occurrences x l)%nat.
Proof.
  unfold occurrences. revert i. induction l as [|y l IH]; intros [|i]; simpl;
    try done.
  - rewrite filter_cons. case_decide; simpl; lia.
  - rewrite !filter_cons. specialize (IH i). case_decide; simpl; lia.
Qed.

End OccurrenceFacts.

(** * The tag buffer of the variable editor *)

Section TagBuffer.
Import Upload.

Lemma handleAddTag_tags w t :
  tags (state (exec (handleAddTag t) w))
  = if truthy_string (trim t) && negb (includes (tags (state w)) (trim t))
    then tags (state w) ++ [trim t]
    else tags (state w).
Proof.
  unfold exec, handleAddTag, bind, get, setTags, setNewTagInput, update, ret.
  simpl. by destruct (_ && _).
Qed.

Lemma removeTag_tags w i :
  tags (state (exec (removeTag i) w)) = delete i (tags (state w)).
Proof.
  unfold exec, removeTag, bind, get, setTags, update. simpl.
  apply filter_indexed_delete.
Qed.

Lemma includes_spec l x : includes l x = true <-> x ∈ l.
Proof. unfold includes. by rewrite bool_decide_eq_true. Qed.

(** The guard of [handleAddTag] passes exactly for a text that is not blank
    and whose trimmed form is not yet in the buffer. *)
Lemma add_guard l t :
  truthy_string (trim t) && negb (includes l (trim t)) = true
  <-> ~ blank t /\ trim t ∉ l.
Proof.
  rewrite andb_true_iff, negb_true_iff, truthy_string_spec.
  unfold blank. split; intros [H1 H2]; split; try done.
  - intros Hin. apply includes_spec in Hin. congruence.
  - destruct (includes l (trim t)) eqn:E; [|done].
    apply includes_spec in E. done.
Qed.

Lemma dispatch_tags_sound ev w x :
  let before := tags (state w) in
  let after := tags (state (exec (dispatch ev) w)) in
  (occurrences x after <= max 1 (occurrences x before))%nat
  /\ (x ∈ after -> x ∈ before \/ ~ blank x).
Proof.
  destruct ev as [t|i]; cbv zeta; cbn [dispatch].
  - rewrite handleAddTag_tags.
    destruct (_ && _) eqn:G; [|split; [lia|auto]].
    apply add_guard in G as [Hnb Hnew]. split.
    + rewrite occurrences_snoc. case_decide; [|lia].
      subst x. rewrite occurrences_absent by done. lia.
    + rewrite elem_of_app, list_elem_of_singleton. intros [H| ->]; [by left|].
      right. apply trimmed_not_blank. exact Hnb.
  - rewrite removeTag_tags. split.
    + pose proof (occurrences_delete x i (tags (state w))). lia.
    + intros H. left. by eapply list_elem_of_delete_inv.
Qed.

Lemma exec_dispatch_all_cons ev evs w :
  exec (dispatch_all (ev :: evs)) w
  = exec (dispatch_all evs) (exec (dispatch ev) w).
Proof.
  unfold exec. simpl. unfold bind.
  destruct ev as [t|i]; simpl;
    unfold handleAddTag, removeTag, bind, get, setTags, setNewTagInput,
      update, ret; simpl; by destruct (_ && _) || done.
Qed.

Lemma dispatch_all_tags_sound evs w x :
  let before := tags (state w) in
  let after := tags (state (exec (dispatch_all evs) w)) in
  (occurrences x after <= max 1 (occurrences x before))%nat
  /\ (x ∈ after -> x ∈ before \/ ~ blank x).
Proof.
  revert w. induction evs as [|ev evs IH]; intros w; cbv zeta.
  - split; [cbn; lia|auto].
  - rewrite exec_dispatch_all_cons.
    destruct (IH (exec (dispatch ev) w)) as [Hc Hb].
    destruct (dispatch_tags_sound ev w x) as [Hc' Hb']. simpl in *.
    split; [lia|]. intros H. destruct (Hb H) as [H'|H']; [auto|by right].
Qed.
End TagBuffer.

(** C7. Tag edit buffer.  [handleAddTag] trims its argument; it leaves the
    buffer as it is when the trimmed text is blank or already present
    (exact match) and otherwise appends the trimmed text at the end, so a
    second add of the same text changes nothing.  The remove button deletes
    by position and does nothing for a position past the end.  One event
    shortens the buffer only if it is a removal at a valid position and
    lengthens it only if it is an add of a new, non-blank tag.  Along any
    sequence of adds and removals no tag comes to occur twice unless it
    already did at the start, and every tag of the buffer was there at the
    start or is not blank. *)
Theorem tag_edit_buffer_algebra (w : Env Upload.State) (t : jsstring) :
  let tags_of (m : Js Upload.State unit) := Upload.tags (state (exec m w)) in
  let tags0 := Upload.tags (state w) in
  (blank t \/ trim t ∈ tags0 -> tags_of (Upload.handleAddTag t) = tags0)
  /\ (~ blank t -> trim t ∉ tags0 ->
      tags_of (Upload.handleAddTag t) = tags0 ++ [trim t])
  /\ Upload.tags (state (exec (Upload.handleAddTag t)
                              (exec (Upload.handleAddTag t) w)))
     = tags_of (Upload.handleAddTag t)
  /\ (forall i : nat, tags_of (Upload.removeTag i) = delete i tags0)
  /\ (forall i : nat, (length tags0 <= i)%nat ->
        tags_of (Upload.removeTag i) = tags0)
  /\ (forall ev,
        (length (tags_of (Upload.dispatch ev)) < length tags0)%nat ->
        exists i, ev = Upload.RemoveTag i /\ (i < length tags0)%nat)
  /\ (forall ev,
        (length tags0 < length (tags_of (Upload.dispatch ev)))%nat ->
        exists t', ev = Upload.AddTag t' /\ ~ blank t' /\ trim t' ∉ tags0)
  /\ (forall evs x,
        (occurrences x (tags_of (Upload.dispatch_all evs))
         <= max 1 (occurrences x tags0))%nat
        /\ (x ∈ tags_of (Upload.dispatch_all evs) ->
            x ∈ tags0 \/ ~ blank x)).
Proof.
  cbv zeta.
  assert (Hno : blank t \/ trim t ∈ Upload.tags (state w) ->
                Upload.tags (state (exec (Upload.handleAddTag t) w))
                = Upload.tags (state w)).
  { intros H. rewrite handleAddTag_tags.
    destruct (_ && _) eqn:G; [|done].
    apply add_guard in G as [Hnb Hnew]. tauto. }
  assert (Hyes : ~ blank t -> trim t ∉ Upload.tags (state w) ->
                 Upload.tags (state (exec (Upload.handleAddTag t) w))
                 = Upload.tags (state w) ++ [trim t]).
  { intros Hnb Hnew. rewrite handleAddTag_tags.
    destruct (_ && _) eqn:G; [done|].
    assert (G' : truthy_string (trim t)
                 && negb (includes (Upload.tags (state w)) (trim t)) = true)
      by (apply add_guard; done).
    congruence. }
  repeat split.
  - exact Hno.
  - exact Hyes.
  - rewrite (handleAddTag_tags (exec _ w)).
    destruct (_ && _) eqn:G; [|done].
    apply add_guard in G as [Hnb Hnew]. exfalso. apply Hnew.
    rewrite handleAddTag_tags. destruct (_ && _); [|].
    + rewrite elem_of_app, list_elem_of_singleton. by right.
    + destruct (decide (trim t ∈ Upload.tags (state w))) as [Hin|Hout];
        [done|].
      rewrite handleAddTag_tags in Hnew.
      assert (G' : truthy_string (trim t)
                   && negb (includes (Upload.tags (state w)) (trim t)) = true)
        by (apply add_guard; done).
      rewrite G' in Hnew. exfalso. apply Hnew.
      rewrite elem_of_app, list_elem_of_singleton. by right.
  - intros i. apply removeTag_tags.
  - intros i Hi. rewrite removeTag_tags. by apply delete_out_of_range.
  - intros [t'|i]; cbn [Upload.dispatch].
    + rewrite handleAddTag_tags. intros Hlen. exfalso.
      destruct (_ && _); rewrite ?length_app in Hlen; simpl in Hlen; lia.
    + rewrite removeTag_tags. intros Hlen. exists i. split; [done|].
      destruct (decide (i < length (Upload.tags (state w)))%nat); [done|].
      rewrite delete_out_of_range in Hlen by lia. lia.
  - intros [t'|i]; cbn [Upload.dispatch].
    + rewrite handleAddTag_tags. destruct (_ && _) eqn:G; [|lia].
      apply add_guard in G as [Hnb Hnew]. intros _. by exists t'.
    + rewrite removeTag_tags. intros Hlen.
      exfalso. destruct (decide (i < length (Upload.tags (state w)))%nat).
      * rewrite length_delete in Hlen by (by apply lookup_lt_is_Some). lia.
      * rewrite delete_out_of_range in Hlen by lia. lia.
  - apply dispatch_all_tags_sound.
  - apply dispatch_all_tags_sound.
Qed.

Lemma tag_edit_buffer_algebra_witness :
  Upload.tags
    (state (exec (Upload.handleAddTag (str " b "))
                 (boot (Upload.with_tags [str "a"] Upload.initial))))
  = [str "a"; str "b"].
Proof.
  destruct (tag_edit_buffer_algebra
              (boot (Upload.with_tags [str "a"] Upload.initial)) (str " b "))
    as (_ & Hadd & _).
  apply Hadd.
  - unfold blank. vm_compute. discriminate.
  - apply (bool_decide_unpack _). vm_compute. exact I.
Defined.

(** * File batches *)

Section FileBatch.
Import Upload.
Variable API_BASE_URL : jsstring.
Variable net : network.
Variable ctx : option jsstring.
Variable all : list File.

Let req := insert_file_request API_BASE_URL ctx.

(** The batch stops at its first file. *)
Local Ltac stop_here :=
  cbn [take]; unfold batch_state, batch_log; rewrite imap_cons;
  cbn [imap last snd throw lift]; rewrite Nat.add_0_r; reflexivity.

Lemma upload_from_run rest i w p :
  uploadProgress (state w) = Some p ->
  total p = length all ->
  length all <> 0%nat ->
  upload_from API_BASE_URL net ctx all i rest w
  = let (m, r) := batch_end req net (length (sent w)) rest in
    (match r with None => Normal tt | Some e => Throw e end,
     mkEnv (batch_state req (length all) (state w) i (take m rest))
           (sent w ++ batch_log req (length all) (state w) i (take m rest))
           (console w) (live_urls w) (minted w)).
Proof.
  revert i w p. induction rest as [|file rest IH]; intros i w p Hp Ht Hlen.
  - simpl. unfold ret. rewrite app_nil_r. by destruct w.
  - simpl upload_from. simpl batch_end. fold req.
    unfold bind at 1. unfold setUploadProgress_by, update at 1.
    rewrite Hp, Ht. destruct (Nat.eqb_spec (length all) 0) as [|_]; [done|].
    unfold bind at 1. unfold fetch at 1. cbn [state sent console live_urls
      minted with_state].
    fold (in_flight (length all) i file (state w)).
    destruct (net (length (sent w)) (req file)) as [e|r] eqn:Hnet;
      cbn [upload_failure].
    { stop_here. }
    unfold bind at 1. unfold json_of at 1.
    destruct (json_body r) as [e|data] eqn:Hjson.
    { stop_here. }
    unfold ret at 1. unfold bind at 1.
    destruct (ok r) eqn:Hok; cbn [negb].
    2:{ unfold bind at 1, lift at 1.
        destruct (get_prop data (str "detail")) as [detail|e]; stop_here. }
    unfold ret at 1.
    erewrite IH; cbn [state sent console live_urls minted];
      [|reflexivity|done|done].
    rewrite length_app. cbn [length]. rewrite Nat.add_1_r.
    destruct (batch_end req net (Datatypes.S (length (sent w))) rest)
      as [m res].
    f_equal. cbn [take]. unfold batch_state, batch_log.
    rewrite imap_cons. cbn [last]. rewrite Nat.add_0_r.
    rewrite <- app_assoc. cbn [app].
    assert (Hext : imap (fun j f => (req f,
                     in_flight (length all) (Datatypes.S i + j) f
                       (in_flight (length all) i file (state w))))
                     (take m rest)
                   = imap ((fun j f => (req f,
                       in_flight (length all) (i + j) f (state w)))
                       ∘ Datatypes.S) (take m rest)).
    { apply imap_ext. intros j f _. cbn. f_equal.
      replace (i + Datatypes.S j)%nat with (Datatypes.S (i + j)) by lia.
      done. }
    rewrite Hext. clear Hext. f_equal.
    destruct (imap _ (take m rest)) as [|e0 l0]; [reflexivity|].
    rewrite last_cons_cons. destruct (last (e0 :: l0)) eqn:E; [done|].
    by apply last_None in E.
Qed.
End FileBatch.

Section FileUpload.
Import Upload.
Variable API_BASE_URL : jsstring.
Variable net : network.

(** The loop writes no cell but [uploadProgress]. *)
Lemma batch_state_shape req len st i l :
  exists pr, batch_state req len st i l = with_uploadProgress pr st.
Proof.
  unfold batch_state. destruct (last _) as [e|] eqn:E.
  - apply last_Some_elem_of, elem_of_lookup_imap in E as (j & f & -> & _).
    eexists. reflexivity.
  - exists (uploadProgress st). by destruct st.
Qed.

Lemma handleFileUpload_run w first tail :
  files (state w) = Some (first :: tail) ->
  truthy (selectedContext (state w)) = true ->
  let fl := first :: tail in
  let req := insert_file_request API_BASE_URL (selectedContext (state w)) in
  handleFileUpload API_BASE_URL net w
  = let (m, r) := batch_end req net (length (sent w)) fl in
    (Normal tt,
     mkEnv (batch_final fl r (state w))
           (sent w ++ batch_log req (length fl)
                        (batch_start fl first (state w)) 0 (take m fl))
           (console w) (live_urls w) (minted w)).
Proof.
  intros Hfiles Hctx fl req.
  unfold handleFileUpload. unfold bind at 1, get at 1. rewrite Hfiles, Hctx.
  cbn [negb]. unfold bind at 1. unfold setLoading, update at 1.
  unfold bind at 1. unfold setUploadProgress, update at 1.
  unfold try_finally, try_catch. unfold bind at 1.
  erewrite upload_from_run; cbn [state sent console live_urls minted
    with_state]; [|reflexivity|reflexivity|done].
  fold fl. fold req. fold (batch_start fl first (state w)).
  destruct (batch_state_shape req (length fl)
              (batch_start fl first (state w)) 0
              (take (fst (batch_end req net (length (sent w)) fl)) fl))
    as [pr Hpr].
  destruct (batch_end req net (length (sent w)) fl) as [m [e|]];
    cbn [fst] in Hpr; rewrite Hpr; reflexivity.
Qed.
End FileUpload.

Example upload_all_accepted :
  let w' := exec (Upload.handleFileUpload Sample.api Sample.accepting)
                 Sample.ready_to_upload in
  Upload.message (state w') = str "Successfully uploaded 3 files"
  /\ Upload.files (state w') = None
  /\ Upload.isError (state w') = false
  /\ length (sent w') = 3%nat.
Proof. cbv zeta. repeat split; reflexivity. Qed.

Section BatchEnd.
Variable req : File -> request.
Variable net : network.

Lemma accepted_no_failure f o : accepted o -> upload_failure f o = None.
Proof. intros (r & data & -> & Hok & Hjson). simpl. by rewrite Hjson, Hok. Qed.

Lemma no_failure_accepted f o : upload_failure f o = None -> accepted o.
Proof.
  destruct o as [e|r]; [done|]. cbn [upload_failure].
  destruct (json_body r) as [e|data] eqn:Hjson; [done|].
  destruct (ok r) eqn:Hok.
  - intros _. by exists r, data.
  - by destruct (get_prop data (str "detail")).
Qed.

(** An upload that is not accepted ends the loop with an exception. *)
Lemma not_accepted_failure f o :
  ~ accepted o -> exists e, upload_failure f o = Some e.
Proof.
  intros Hno. destruct (upload_failure f o) as [e|] eqn:Hf; [by exists e|].
  by apply no_failure_accepted in Hf.
Qed.

Lemma refused_failure f o detail :
  refused_with detail o ->
  upload_failure f o
  = Some (ErrorObj (str "Failed to upload " ++ file_name f ++ str ": "
                    ++ to_string detail)).
Proof.
  intros (r & data & -> & Hok & Hjson & Hd). simpl.
  by rewrite Hjson, Hok, Hd.
Qed.

(** A batch whose first [k] uploads pass and whose next one fails sends
    [k + 1] requests and ends with the exception of that one. *)
Lemma batch_end_first_failure k rest n fk e :
  (forall j f, (j < k)%nat -> rest !! j = Some f ->
     upload_failure f (net (n + j)%nat (req f)) = None) ->
  rest !! k = Some fk ->
  upload_failure fk (net (n + k)%nat (req fk)) = Some e ->
  batch_end req net n rest = (Datatypes.S k, Some e).
Proof.
  revert rest n. induction k as [|k IH]; intros [|f rest] n Hpre Hk He;
    try done; simpl in Hk.
  - injection Hk as ->. rewrite Nat.add_0_r in He. simpl. by rewrite He.
  - simpl. pose proof (Hpre 0%nat f) as H0. rewrite Nat.add_0_r in H0.
    rewrite H0 by (done || lia).
    rewrite (IH rest (Datatypes.S n)); [done| |done|].
    + intros j g Hj Hg.
      replace (Datatypes.S n + j)%nat with (n + Datatypes.S j)%nat by lia.
      apply Hpre; [lia|done].
    + by replace (Datatypes.S n + k)%nat with (n + Datatypes.S k)%nat by lia.
Qed.

(** A batch in which every upload passes sends one request per file. *)
Lemma batch_end_all_pass rest n :
  (forall j f, rest !! j = Some f ->
     upload_failure f (net (n + j)%nat (req f)) = None) ->
  batch_end req net n rest = (length rest, None).
Proof.
  revert n. induction rest as [|f rest IH]; intros n Hall; [done|].
  simpl. pose proof (Hall 0%nat f eq_refl) as H0.
  rewrite Nat.add_0_r in H0. rewrite H0, IH; [done|].
  intros j g Hg.
  replace (Datatypes.S n + j)%nat with (n + Datatypes.S j)%nat by lia.
  by apply Hall.
Qed.
End BatchEnd.

Lemma batch_log_requests req len st i l :
  fst <$> batch_log req len st i l = req <$> l.
Proof.
  unfold batch_log. rewrite fmap_imap. rewrite <- imap_const.
  apply imap_ext. done.
Qed.

Lemma truthy_Some ctx : ctx <> [] -> truthy (Some ctx) = true.
Proof. by destruct ctx. Qed.

(** C2. Abort of a file batch.  When the uploads of files 1..k-1 are
    accepted and the upload of file k is not (its request is rejected, its
    response has a body that does not parse, or its response has a
    non-success status), [handleFileUpload] sends exactly the requests for
    files 1..k, in the order of the list, and none for a later file, and
    reports an error.  When the failing response is a non-success one
    whose body parses, the message names file k and ends with the detail
    of the backend; when the request is rejected or the body does not
    parse, the message is that of the exception; when the body of a
    non-success response parses to [null], it is that of the failed read
    of the detail. *)
Theorem file_batch_aborts_at_first_failure
    (API_BASE_URL : jsstring) (net : network) (w : Env Upload.State)
    (fl : list File) (ctx : jsstring) (k : nat) (fk : File) :
  let req := Upload.insert_file_request API_BASE_URL (Some ctx) in
  let o := net (length (sent w) + (k - 1))%nat (req fk) in
  Upload.files (state w) = Some fl ->
  Upload.selectedContext (state w) = Some ctx ->
  ctx <> [] ->
  (1 <= k)%nat ->
  fl !! (k - 1)%nat = Some fk ->
  (forall j f, (j < k - 1)%nat -> fl !! j = Some f ->
     accepted (net (length (sent w) + j)%nat (req f))) ->
  ~ accepted o ->
  let w' := exec (Upload.handleFileUpload API_BASE_URL net) w in
  fst <$> sent w' = (fst <$> sent w) ++ (req <$> take k fl)
  /\ length (sent w') = (length (sent w) + k)%nat
  /\ Upload.isError (state w') = true
  /\ Upload.files (state w') = Some fl
  /\ (forall detail, refused_with detail o ->
        Upload.message (state w')
        = str "Failed to upload " ++ file_name fk ++ str ": "
          ++ to_string detail
        /\ names_file (Upload.message (state w')) fk)
  /\ (forall e, transport_fails e o ->
        Upload.message (state w')
        = message_or e (str "Error uploading files"))
  /\ (forall r data e,
        o = Resolved r -> ok r = false -> json_body r = inr data ->
        get_prop data (str "detail") = Throw e ->
        Upload.message (state w')
        = message_or e (str "Error uploading files")).
Proof.
  intros req o Hfiles Hctx Hne Hk Hfk Hpre Hfail w'.
  destruct fl as [|first tail]; [done|].
  assert (Hrun := handleFileUpload_run API_BASE_URL net w first tail Hfiles).
  rewrite Hctx in Hrun. specialize (Hrun (truthy_Some ctx Hne)).
  cbv zeta in Hrun. fold req in Hrun.
  destruct (not_accepted_failure fk o Hfail) as [e He].
  rewrite (batch_end_first_failure req net (k - 1) (first :: tail)
             (length (sent w)) fk e) in Hrun.
  - subst w'. unfold exec. rewrite Hrun. cbn [snd sent state].
    replace (Datatypes.S (k - 1)) with k by lia.
    rewrite fmap_app, batch_log_requests, length_app.
    unfold batch_log. rewrite length_imap, length_take_le
      by (apply lookup_lt_Some in Hfk; lia).
    split; [done|]. split; [done|]. split; [done|].
    split; [by rewrite <- Hfiles; destruct (state w)|].
    assert (Hmsg : Upload.message (batch_final (first :: tail) (Some e)
                                     (state w))
                   = message_or e (str "Error uploading files")) by done.
    rewrite Hmsg. split; [|split].
    + intros detail Href.
      rewrite (refused_failure fk o detail Href) in He.
      injection He as <-. cbn [message_or]. split; [done|].
      exists (str "Failed to upload "), (str ": " ++ to_string detail).
      reflexivity.
    + intros e' [Ho|(r & Ho & Hjson)]; rewrite Ho in He;
        cbn [upload_failure] in He; [|rewrite Hjson in He];
        by injection He as <-.
    + intros r data e' Ho Hok Hjson Hd. rewrite Ho in He.
      cbn [upload_failure] in He. rewrite Hjson, Hok, Hd in He.
      by injection He as <-.
  - intros j f Hj Hf. apply accepted_no_failure. by apply Hpre.
  - exact Hfk.
  - exact He.
Qed.

Lemma file_batch_aborts_at_first_failure_witness :
  let w' := exec (Upload.handleFileUpload Sample.api Sample.second_refused)
                 Sample.ready_to_upload in
  length (sent w') = 2%nat
  /\ Upload.message (state w')
     = str "Failed to upload " ++ str "b.txt" ++ str ": " ++ str "too large".
Proof.
  destruct (file_batch_aborts_at_first_failure Sample.api
              Sample.second_refused Sample.ready_to_upload Sample.three_files
              (str "c1") 2 (Sample.file "b.txt"))
    as (_ & Hlen & _ & _ & Hmsg & _).
  - reflexivity.
  - reflexivity.
  - vm_compute. discriminate.
  - lia.
  - reflexivity.
  - intros [|j] f Hj Hf; [|simpl in Hj; lia].
    eexists _, _. vm_compute. repeat split.
  - intros (r & data & Hr & Hok & _). vm_compute in Hr.
    injection Hr as <-. discriminate.
  - split; [exact Hlen|].
    apply (Hmsg (Some (JStr (str "too large")))).
    eexists _, _. vm_compute. repeat split.
Defined.

(** C2, as stated, fails.  The first upload of three is
    accepted and the second is the first to come back with a non-success
    status, but with a body that is no JSON: [response.json()] is awaited
    before the status is tested, so the batch stops after two requests
    with the message of the parser, which neither names the file nor
    carries a detail of the backend. *)
Lemma unparsed_refusal_does_not_name_file :
  let req := Upload.insert_file_request Sample.api (Some (str "c1")) in
  let w' := exec (Upload.handleFileUpload Sample.api Gateway.second_unparsed)
                 Sample.ready_to_upload in
  (exists r, Gateway.second_unparsed 0%nat (req (Sample.file "a.txt"))
             = Resolved r /\ ok r = true)
  /\ (exists r, Gateway.second_unparsed 1%nat (req (Sample.file "b.txt"))
                = Resolved r /\ ok r = false)
  /\ length (sent w') = 2%nat
  /\ Upload.isError (state w') = true
  /\ Upload.message (state w')
     = str "Unexpected token < in JSON at position 0"
  /\ ~ names_file (Upload.message (state w')) (Sample.file "b.txt").
Proof.
  cbv zeta. split; [by eexists|]. split; [by eexists|].
  split; [reflexivity|]. split; [reflexivity|]. split; [reflexivity|].
  intros (before & after & Hmsg).
  assert (Hin : 98%N ∈ Upload.message
                        (state (exec (Upload.handleFileUpload Sample.api
                                        Gateway.second_unparsed)
                                     Sample.ready_to_upload))).
  { rewrite Hmsg. apply elem_of_app. right. apply elem_of_app. left.
    apply (bool_decide_unpack _). vm_compute. exact I. }
  revert Hin. apply (bool_decide_eq_false_1 _). vm_compute. reflexivity.
Qed.

(** How far a batch goes: it sends a request for its first file, goes on
    while the uploads pass, and stops at the first one that does not or at
    the end of the list. *)
Lemma batch_end_shape req net rest n :
  rest <> [] ->
  let m := fst (batch_end req net n rest) in
  (1 <= m <= length rest)%nat
  /\ (forall j f, (j + 1 < m)%nat -> rest !! j = Some f ->
        upload_failure f (net (n + j)%nat (req f)) = None)
  /\ (exists f, rest !! (m - 1)%nat = Some f
                /\ upload_failure f (net (n + (m - 1))%nat (req f))
                   = snd (batch_end req net n rest))
  /\ (snd (batch_end req net n rest) = None -> m = length rest).
Proof.
  revert n. induction rest as [|f rest IH]; intros n Hne; [done|].
  cbn [batch_end].
  destruct (upload_failure f (net n (req f))) as [e|] eqn:Hf.
  - cbn [fst snd length]. split; [lia|]. split; [intros j g Hj; lia|].
    split; [|done]. exists f. rewrite Nat.add_0_r. by split.
  - destruct rest as [|g rest].
    + cbn [batch_end fst snd length]. split; [lia|].
      split; [intros j h Hj; lia|]. split; [|done].
      exists f. rewrite Nat.add_0_r. by split.
    + specialize (IH (Datatypes.S n) ltac:(done)). cbv zeta in IH.
      destruct (batch_end req net (Datatypes.S n) (g :: rest)) as [m r].
      cbn [fst snd] in *. destruct IH as ((Hm1 & Hm2) & Hpre & Hlast & Hall).
      split; [cbn [length] in *; lia|]. split; [|split].
      * intros [|j] h Hj Hh.
        -- injection Hh as <-. by rewrite Nat.add_0_r.
        -- replace (n + Datatypes.S j)%nat with (Datatypes.S n + j)%nat
             by lia.
           apply Hpre; [lia|exact Hh].
      * destruct Hlast as (h & Hh & Hfail). exists h.
        replace (Datatypes.S m - 1)%nat with (Datatypes.S (m - 1)) by lia.
        split; [exact Hh|].
        by replace (n + Datatypes.S (m - 1))%nat
             with (Datatypes.S n + (m - 1))%nat by lia.
      * intros Hr. cbn [length] in *. rewrite (Hall Hr). reflexivity.
Qed.

(** C3. Progress of a batch.  Whatever the network answers, a batch started
    by [handleFileUpload] on a non-empty list with a context selected sends
    at least one request: it sends the request for the first file, goes on
    to the next file while the uploads are accepted, and stops at the first
    upload that is not, or after the last file.  Its i-th request (counting
    from 1) is the one for the i-th file, and at the moment it is sent the
    progress cell holds [completed = i - 1] and the name of that file (and
    the size of the batch as [total]); every file up to the last one
    requested has such a request.  When the handler returns, after full
    success or after a failure at any file, the progress cell is back to
    [null] and [loading] is off. *)
Theorem upload_progress_invariant
    (API_BASE_URL : jsstring) (net : network) (w : Env Upload.State)
    (fl : list File) (ctx : jsstring) :
  let req := Upload.insert_file_request API_BASE_URL (Some ctx) in
  Upload.files (state w) = Some fl ->
  fl <> [] ->
  Upload.selectedContext (state w) = Some ctx ->
  ctx <> [] ->
  let w' := exec (Upload.handleFileUpload API_BASE_URL net) w in
  (exists batch,
     sent w' = sent w ++ batch
     /\ (1 <= length batch <= length fl)%nat
     /\ (forall j f, (j + 1 < length batch)%nat -> fl !! j = Some f ->
           accepted (net (length (sent w) + j)%nat (req f)))
     /\ ((length batch < length fl)%nat ->
         exists f, fl !! (length batch - 1)%nat = Some f
                   /\ ~ accepted
                        (net (length (sent w) + (length batch - 1))%nat
                             (req f)))
     /\ (forall i f, (1 <= i <= length batch)%nat ->
           fl !! (i - 1)%nat = Some f ->
           exists snap,
             batch !! (i - 1)%nat = Some (req f, snap)
             /\ Upload.uploadProgress snap
                = Some {| Upload.total := length fl;
                          Upload.completed := i - 1;
                          Upload.currentFile := file_name f |})
     /\ forall i rq snap,
          (1 <= i)%nat ->
          batch !! (i - 1)%nat = Some (rq, snap) ->
          exists f,
            fl !! (i - 1)%nat = Some f
            /\ rq = req f
            /\ Upload.uploadProgress snap
               = Some {| Upload.total := length fl;
                         Upload.completed := i - 1;
                         Upload.currentFile := file_name f |})
  /\ Upload.uploadProgress (state w') = None
  /\ Upload.loading (state w') = false
  /\ outcome (Upload.handleFileUpload API_BASE_URL net) w = Normal tt.
Proof.
  intros req Hfiles Hfl Hctx Hne w'.
  destruct fl as [|first tail]; [done|].
  assert (Hrun := handleFileUpload_run API_BASE_URL net w first tail Hfiles).
  rewrite Hctx in Hrun. specialize (Hrun (truthy_Some ctx Hne)).
  cbv zeta in Hrun. fold req in Hrun.
  subst w'. unfold exec, outcome. rewrite Hrun.
  pose proof (batch_end_shape req net (first :: tail) (length (sent w)) Hfl)
    as Hshape.
  cbv zeta in Hshape.
  destruct (batch_end req net (length (sent w)) (first :: tail)) as [m r].
  cbn [fst snd] in Hshape. destruct Hshape as (Hm & Hpre & Hlast & Hall).
  cbn [snd fst sent state]. split; [|by repeat split].
  eexists. split; [reflexivity|].
  assert (Hlen : length (batch_log req (length (first :: tail))
                           (batch_start (first :: tail) first (state w)) 0
                           (take m (first :: tail))) = m).
  { unfold batch_log. rewrite length_imap, length_take. lia. }
  rewrite Hlen.
  split; [exact Hm|]. split; [|split; [|split]].
  - intros j f Hj Hf. eapply no_failure_accepted. by apply Hpre.
  - intros Hshort. destruct Hlast as (f & Hf & Hfail). exists f.
    split; [exact Hf|]. intros Hacc.
    rewrite (accepted_no_failure f _ Hacc) in Hfail.
    symmetry in Hfail. apply Hall in Hfail. lia.
  - intros i f Hi Hf. eexists. unfold batch_log.
    rewrite list_lookup_imap, lookup_take_lt by lia. rewrite Hf.
    split; reflexivity.
  - intros i rq snap Hi Hlook. unfold batch_log in Hlook.
    rewrite list_lookup_imap in Hlook.
    destruct (take m (first :: tail) !! (i - 1)%nat) as [f|] eqn:Hf; [|done].
    injection Hlook as <- <-. exists f.
    apply lookup_take_Some in Hf as [Hf _]. done.
Qed.

Lemma upload_progress_invariant_witness :
  Upload.uploadProgress
    (state (exec (Upload.handleFileUpload Sample.api Sample.second_refused)
                 Sample.ready_to_upload)) = None.
Proof.
  destruct (upload_progress_invariant Sample.api Sample.second_refused
              Sample.ready_to_upload Sample.three_files (str "c1"))
    as (_ & Hclear & _).
  - reflexivity.
  - discriminate.
  - reflexivity.
  - vm_compute. discriminate.
  - exact Hclear.
Defined.

(** * Query dispatch *)

Section QueryDispatch.
Import Chat.
Variable API_BASE_URL : jsstring.
Variable net : network.

(** What [handleSubmit] does once its guard has passed, by the way the
    request settles. *)
Lemma handleSubmit_run w :
  trim (query (state w)) <> [] ->
  truthy (selectedContext (state w)) = true ->
  let st := state w in
  let rq := query_request API_BASE_URL st in
  let log := sent w ++ [(rq, with_error None (with_loading true st))] in
  let failed := submit_failed API_BASE_URL w in
  handleSubmit API_BASE_URL net w
  = match net (length (sent w)) rq with
    | Rejected e => failed e
    | Resolved r =>
        match json_body r with
        | inl e => failed e
        | inr data =>
            match get_prop data (str "status") with
            | Throw e => failed e
            | Normal status =>
                if strict_eq_string status (str "success") then
                  match get_prop data (str "data") with
                  | Throw e => failed e
                  | Normal result =>
                      (Normal tt,
                       mkEnv (with_loading false
                                (with_responses result
                                   (with_error None (with_loading true st))))
                             log (console w) (live_urls w) (minted w))
                  end
                else
                  match get_prop data (str "message") with
                  | Throw e => failed e
                  | Normal message =>
                      failed (new_Error
                                (val_or message (str "Failed to get response")))
                  end
            end
        end
    end.
Proof.
  intros Hq Hctx st rq log failed.
  unfold handleSubmit. unfold bind at 1, get at 1.
  apply truthy_string_spec in Hq. rewrite Hq, Hctx. cbn [negb orb].
  unfold bind at 1. unfold setLoading, update at 1.
  unfold bind at 1. unfold setError at 1, update at 1.
  unfold bind at 1. unfold try_catch. unfold bind at 1. unfold fetch.
  cbn [state sent console live_urls minted with_state]. fold st rq.
  destruct (net (length (sent w)) rq) as [e|r]; [reflexivity|].
  unfold bind at 1, json_of. destruct (json_body r) as [e|data];
    [reflexivity|].
  unfold ret at 1. unfold bind at 1, lift at 1.
  destruct (get_prop data (str "status")) as [status|e]; [|reflexivity].
  destruct (strict_eq_string status (str "success")).
  - unfold bind at 1, lift at 1.
    destruct (get_prop data (str "data")) as [result|e]; reflexivity.
  - unfold bind at 1, lift at 1.
    destruct (get_prop data (str "message")) as [message|e]; reflexivity.
Qed.

Lemma handleSubmit_non_success w message :
  trim (query (state w)) <> [] ->
  truthy (selectedContext (state w)) = true ->
  non_success message
    (net (length (sent w)) (query_request API_BASE_URL (state w))) ->
  handleSubmit API_BASE_URL net w
  = submit_failed API_BASE_URL w
      (new_Error (val_or message (str "Failed to get response"))).
Proof.
  intros Hq Hctx (r & data & status & Hnet & Hjson & Hst & Hne & Hmsg).
  rewrite handleSubmit_run by done. cbv zeta.
  by rewrite Hnet, Hjson, Hst, Hne, Hmsg.
Qed.

Lemma handleSubmit_transport_fails w e :
  trim (query (state w)) <> [] ->
  truthy (selectedContext (state w)) = true ->
  transport_fails e
    (net (length (sent w)) (query_request API_BASE_URL (state w))) ->
  handleSubmit API_BASE_URL net w = submit_failed API_BASE_URL w e.
Proof.
  intros Hq Hctx [Hnet|(r & Hnet & Hjson)];
    rewrite handleSubmit_run by done; cbv zeta.
  - by rewrite Hnet.
  - by rewrite Hnet, Hjson.
Qed.
End QueryDispatch.

Lemma val_or_string m fallback :
  m <> [] -> to_string (val_or (Some (JStr m)) fallback) = m.
Proof. by destruct m. Qed.

(** C5. Failure of a query.  For a submit that passes the guard of
    [handleSubmit], when the response carries a status other than
    ["success"] the error shown is the message of the backend, or
    ["Failed to get response"] when the message is absent or falsy; when the
    request is rejected, its body does not parse, or its body is [null],
    the error shown is the message of the exception, and the generic text
    only for a thrown value that is no [Error].  In each of these cases,
    and so whenever the answer is not a document with the status
    ["success"], an error is shown and [responses] is reset to [null], so
    the result panel shows nothing and no field of a result is populated;
    [loading] is switched off and the handler returns normally. *)
Theorem query_failure_clears_results
    (API_BASE_URL : jsstring) (net : network) (w : Env Chat.State) :
  trim (Chat.query (state w)) <> [] ->
  truthy (Chat.selectedContext (state w)) = true ->
  let o := net (length (sent w)) (Chat.query_request API_BASE_URL (state w)) in
  let w' := exec (Chat.handleSubmit API_BASE_URL net) w in
  (forall message, non_success message o ->
     Chat.error (state w')
     = Some (to_string (val_or message (str "Failed to get response"))))
  /\ (forall m, m <> [] -> non_success (Some (JStr m)) o ->
        Chat.error (state w') = Some m)
  /\ (non_success None o ->
        Chat.error (state w') = Some (str "Failed to get response"))
  /\ (forall e, transport_fails e o \/ status_unreadable e o ->
        Chat.error (state w')
        = Some (message_or e
                  (str "An error occurred while processing your request")))
  /\ ((exists message, non_success message o)
      \/ (exists e, transport_fails e o) ->
      Chat.responses (state w') = Some JNull
      /\ Chat.visible_result (state w') = None
      /\ Chat.loading (state w') = false
      /\ outcome (Chat.handleSubmit API_BASE_URL net) w = Normal tt)
  /\ (~ success_status o ->
      is_Some (Chat.error (state w'))
      /\ Chat.responses (state w') = Some JNull
      /\ Chat.visible_result (state w') = None
      /\ Chat.loading (state w') = false
      /\ outcome (Chat.handleSubmit API_BASE_URL net) w = Normal tt).
Proof.
  intros Hq Hctx o w'. subst o w'. unfold exec, outcome.
  split; [|split; [|split; [|split; [|split]]]].
  - intros message H.
    by rewrite (handleSubmit_non_success _ _ _ message Hq Hctx H).
  - intros m Hm H.
    rewrite (handleSubmit_non_success _ _ _ _ Hq Hctx H).
    cbn [snd state submit_failed Chat.error Chat.with_loading
         Chat.with_responses Chat.with_error message_or new_Error].
    by rewrite val_or_string.
  - intros H. by rewrite (handleSubmit_non_success _ _ _ _ Hq Hctx H).
  - intros e [H|(r & data & Hnet & Hjson & Hst)].
    + by rewrite (handleSubmit_transport_fails _ _ _ e Hq Hctx H).
    + rewrite handleSubmit_run by done. cbv zeta.
      by rewrite Hnet, Hjson, Hst.
  - intros [[message H]|[e H]].
    + by rewrite (handleSubmit_non_success _ _ _ message Hq Hctx H).
    + by rewrite (handleSubmit_transport_fails _ _ _ e Hq Hctx H).
  - intros Hno. rewrite handleSubmit_run by done. cbv zeta.
    destruct (net (length (sent w)) _) as [e|r] eqn:Hnet; [by repeat split|].
    destruct (json_body r) as [e|data] eqn:Hjson; [by repeat split|].
    destruct (get_prop data (str "status")) as [status|e] eqn:Hst;
      [|by repeat split].
    destruct (strict_eq_string status (str "success")) eqn:Hs.
    + exfalso. apply Hno. by exists r, data, status.
    + destruct (get_prop data (str "message")); by repeat split.
Qed.

Lemma query_failure_clears_results_witness :
  let w' := exec (Chat.handleSubmit Sample.api Sample.query_refused)
                 Sample.asking in
  Chat.error (state w') = Some (str "index not ready")
  /\ Chat.responses (state w') = Some JNull.
Proof.
  assert (Hq : trim (Chat.query (state Sample.asking)) <> [])
    by (vm_compute; discriminate).
  assert (Hctx : truthy (Chat.selectedContext (state Sample.asking)) = true)
    by reflexivity.
  assert (Hns : non_success (Some (JStr (str "index not ready")))
                  (Sample.query_refused (length (sent Sample.asking))
                     (Chat.query_request Sample.api (state Sample.asking)))).
  { eexists _, _, _. vm_compute. repeat split. }
  destruct (query_failure_clears_results Sample.api Sample.query_refused
              Sample.asking Hq Hctx) as (_ & Hmsg & _ & _ & Hclear & _).
  split.
  - apply Hmsg; [vm_compute; discriminate|exact Hns].
  - apply Hclear. left. eexists. exact Hns.
Defined.

(** C5, as stated, fails for a failure of the transport.  With
    the network down the backend provides no message, and the error shown
    is not the generic fallback but the message of the exception that
    [fetch] rejects with. *)
Lemma transport_failure_shows_exception_message :
  let o := Sample.offline (length (sent Sample.asking))
             (Chat.query_request Sample.api (state Sample.asking)) in
  let w' := exec (Chat.handleSubmit Sample.api Sample.offline)
                 Sample.asking in
  transport_fails (ErrorObj (str "Failed to fetch")) o
  /\ Chat.error (state w') = Some (str "Failed to fetch")
  /\ Chat.error (state w') <> Some (str "Failed to get response")
  /\ Chat.error (state w')
     <> Some (str "An error occurred while processing your request").
Proof.
  cbv zeta. split; [by left|]. split; [reflexivity|].
  split; intros H; vm_compute in H; discriminate.
Qed.

Lemma success_document_status a b c d :
  get_prop (success_document a b c d) (str "status")
  = Normal (Some (JStr (str "success"))).
Proof. reflexivity. Qed.

Lemma success_document_data a b c d :
  get_prop (success_document a b c d) (str "data")
  = Normal (Some (JObj [(str "naive", JStr a); (str "local", JStr b);
                        (str "global_", JStr c); (str "hybrid", JStr d)])).
Proof. reflexivity. Qed.

(** C6. Success of a query.  For a submit that passes the guard of
    [handleSubmit] and is answered with [{status: "success", data: {naive:
    a, local: b, global_: c, hybrid: d}}], the stored result is the [data]
    object, reading each of the four mode fields from it yields its value,
    and the active tab is left alone: it is [hybrid] by default, and with
    that tab the panel shows [d]. *)
Theorem query_success_populates_results
    (API_BASE_URL : jsstring) (net : network) (w : Env Chat.State)
    (r : response) (a b c d : jsstring) :
  trim (Chat.query (state w)) <> [] ->
  truthy (Chat.selectedContext (state w)) = true ->
  net (length (sent w)) (Chat.query_request API_BASE_URL (state w))
  = Resolved r ->
  json_body r = inr (success_document a b c d) ->
  let w' := exec (Chat.handleSubmit API_BASE_URL net) w in
  (exists stored,
     Chat.responses (state w') = Some stored
     /\ get_prop stored (Chat.key Chat.naive) = Normal (Some (JStr a))
     /\ get_prop stored (Chat.key Chat.local) = Normal (Some (JStr b))
     /\ get_prop stored (Chat.key Chat.global_) = Normal (Some (JStr c))
     /\ get_prop stored (Chat.key Chat.hybrid) = Normal (Some (JStr d)))
  /\ Chat.selectedTab Chat.initial = Chat.hybrid
  /\ Chat.selectedTab (state w') = Chat.selectedTab (state w)
  /\ (Chat.selectedTab (state w) = Chat.hybrid ->
      Chat.visible_result (state w') = Some (Some (JStr d)))
  /\ Chat.error (state w') = None
  /\ Chat.loading (state w') = false.
Proof.
  intros Hq Hctx Hnet Hjson w'. subst w'. unfold exec.
  rewrite handleSubmit_run by done. cbv zeta.
  rewrite Hnet, Hjson, success_document_status.
  change (strict_eq_string (Some (JStr (str "success"))) (str "success"))
    with true.
  cbv iota. rewrite success_document_data. cbn [snd state].
  split; [|split; [|split; [|split; [|split]]]]; try reflexivity.
  - eexists. split; [reflexivity|]. repeat split.
  - intros Htab. unfold Chat.visible_result.
    cbn [Chat.responses Chat.with_loading Chat.with_responses Chat.with_error
         Chat.selectedTab truthy_val].
    rewrite Htab. reflexivity.
Qed.

Lemma query_success_populates_results_witness :
  Chat.visible_result
    (state (exec (Chat.handleSubmit Sample.api Sample.query_answered)
                 Sample.asking))
  = Some (Some (JStr (str "D"))).
Proof.
  destruct (query_success_populates_results Sample.api Sample.query_answered
              Sample.asking
              {| ok := true;
                 json_body := inr (success_document (str "A") (str "B")
                                     (str "C") (str "D"));
                 blob_body := inr [] |}
              (str "A") (str "B") (str "C") (str "D"))
    as (_ & _ & _ & Hshow & _).
  - vm_compute. discriminate.
  - reflexivity.
  - reflexivity.
  - reflexivity.
  - apply Hshow. reflexivity.
Defined.

(** * The selector inside a page *)

Section Selector.
Import ContextSelector Page.
Context {P : Type}.
Variable API_BASE_URL : jsstring.
Variable net : network.
Variable confirm : jsstring -> bool.
Variable onContextChange : option jsstring -> Js (Tree P) unit.

Lemma handleDeleteContext_run (w : Env (Tree P)) :
  let st := selector (state w) in
  Page.handleDeleteContext API_BASE_URL net confirm onContextChange w
  = if negb (truthy (selectedContext st)) then (Normal tt, w) else
    if negb (confirm delete_prompt) then (Normal tt, w) else
    match net (length (sent w)) (delete_request API_BASE_URL st) with
    | Rejected e => delete_logged API_BASE_URL w e
    | Resolved r =>
        if ok r then
          match filter_throwing (other_than (selectedContext st))
                                (contexts st) with
          | Throw e => delete_logged API_BASE_URL w e
          | Normal kept =>
              try_catch (onContextChange None)
                (fun error =>
                   console_error (str "Failed to delete context:") error)
                (mkEnv (mkTree (with_selectedContext None
                                  (with_contexts kept st))
                               (page (state w)))
                       (sent w ++ [(delete_request API_BASE_URL st, state w)])
                       (console w) (live_urls w) (minted w))
          end
        else
          match json_body r with
          | inl e => delete_logged API_BASE_URL w e
          | inr errorData =>
              match get_prop errorData (str "detail") with
              | Throw e => delete_logged API_BASE_URL w e
              | Normal detail =>
                  delete_logged API_BASE_URL w
                    (new_Error
                       (val_or detail (str "Failed to delete context")))
              end
          end
    end.
Proof.
  intros st.
  unfold Page.handleDeleteContext, ContextSelector.handleDeleteContext.
  unfold bind at 1, get at 1. fold st.
  destruct (truthy (selectedContext st)); [|reflexivity]. cbn [negb].
  destruct (confirm delete_prompt); [|reflexivity]. cbn [negb].
  unfold try_catch at 1. unfold bind at 1. unfold fetch at 1.
  destruct (net (length (sent w)) (delete_request API_BASE_URL st))
    as [e|r]; [reflexivity|].
  unfold bind at 1. destruct (ok r); cbn [negb].
  - unfold ret at 1. unfold bind at 1, lift at 1.
    destruct (filter_throwing _ _) as [kept|e]; [|reflexivity].
    unfold bind at 1. unfold setContexts, set, update at 1.
    unfold bind at 1. unfold setSelectedContext, set, update at 1.
    reflexivity.
  - unfold bind at 1, json_of at 1.
    destruct (json_body r) as [e|errorData]; [reflexivity|].
    unfold ret at 1. unfold bind at 1, lift at 1.
    destruct (get_prop errorData (str "detail")) as [detail|e]; reflexivity.
Qed.

Lemma handleDeleteContext_fails (w : Env (Tree P)) e :
  truthy (selectedContext (selector (state w))) = true ->
  confirm delete_prompt = true ->
  delete_fails e
    (net (length (sent w))
         (delete_request API_BASE_URL (selector (state w)))) ->
  Page.handleDeleteContext API_BASE_URL net confirm onContextChange w
  = delete_logged API_BASE_URL w e.
Proof.
  intros Hsel Hyes Hfail. rewrite handleDeleteContext_run. cbv zeta.
  rewrite Hsel, Hyes. cbn [negb].
  destruct Hfail as [->|(r & -> & Hok & He)]; [done|]. rewrite Hok.
  destruct (json_body r) as [e'|errorData]; [by subst|].
  destruct (get_prop errorData (str "detail")); by subst.
Qed.

Lemma handleCreateContext_run (w : Env (Tree P)) :
  let st := selector (state w) in
  let busy := put_selector (with_loading true st) (state w) in
  Page.handleCreateContext API_BASE_URL net w
  = match net (length (sent w)) (create_request API_BASE_URL st) with
    | Rejected e => create_logged API_BASE_URL w e
    | Resolved r =>
        match json_body r with
        | inl e => create_logged API_BASE_URL w e
        | inr newContext =>
            (Normal tt,
             mkEnv (mkTree
                      (with_loading false
                         (with_newContextDescription []
                            (with_newContextName []
                               (with_isCreateModalVisible false
                                  (with_contexts (contexts st ++ [newContext])
                                     (with_loading true st))))))
                      (page (state w)))
                   (sent w ++ [(create_request API_BASE_URL st, busy)])
                   (console w) (live_urls w) (minted w))
        end
    end.
Proof.
  intros st busy.
  unfold Page.handleCreateContext, ContextSelector.handleCreateContext.
  unfold bind at 1, get at 1. fold st.
  unfold bind at 1. unfold setLoading, set, update at 1.
  unfold bind at 1. unfold try_catch at 1. unfold bind at 1.
  unfold fetch at 1.
  cbn [state sent console live_urls minted with_state].
  change (selector (put_selector (with_loading true st) (state w)))
    with (with_loading true st).
  fold busy.
  destruct (net (length (sent w)) (create_request API_BASE_URL st))
    as [e|r]; [reflexivity|].
  unfold bind at 1, json_of at 1.
  destruct (json_body r) as [e|newContext]; reflexivity.
Qed.
End Selector.

(** C10. A declined confirmation.  When the user answers the confirmation
    dialog with "cancel", [handleDeleteContext] returns at once: no request
    is sent, nothing is written to the console, and the cells of the
    selector and of the page that mounts it, whatever that page is, are all
    as they were. *)
Theorem declined_deletion_changes_nothing {P : Type}
    (API_BASE_URL : jsstring) (net : network) (confirm : jsstring -> bool)
    (onContextChange : option jsstring -> Js (Page.Tree P) unit)
    (w : Env (Page.Tree P)) :
  confirm ContextSelector.delete_prompt = false ->
  let run :=
    Page.handleDeleteContext API_BASE_URL net confirm onContextChange in
  exec run w = w
  /\ sent (exec run w) = sent w
  /\ Page.selector (state (exec run w)) = Page.selector (state w)
  /\ Page.page (state (exec run w)) = Page.page (state w)
  /\ outcome run w = Normal tt.
Proof.
  intros Hno run. subst run. unfold exec, outcome.
  rewrite handleDeleteContext_run. cbv zeta. rewrite Hno. cbn [negb].
  by destruct (negb _).
Qed.

Lemma declined_deletion_changes_nothing_witness :
  exec (Page.handleDeleteContext Sample.api Sample.delete_done Sample.no
          Page.chat_onContextChange) Sample.chat_tree
  = Sample.chat_tree.
Proof.
  apply (declined_deletion_changes_nothing Sample.api Sample.delete_done
           Sample.no Page.chat_onContextChange Sample.chat_tree).
  reflexivity.
Defined.

(** C9, as the code has it.  When a confirmed deletion fails, by a rejected
    [fetch] or by a response with a non-success status, no cell of the
    selector or of the page changes, so the context list and the selection
    are as before; the error, which for a non-success response carries the
    detail of the backend or ["Failed to delete context"], is written to
    the console and to nothing the view is rendered from; the handler
    returns normally. *)
Theorem failed_deletion_only_logged {P : Type}
    (API_BASE_URL : jsstring) (net : network) (confirm : jsstring -> bool)
    (onContextChange : option jsstring -> Js (Page.Tree P) unit)
    (w : Env (Page.Tree P)) (e : js_exn) :
  truthy (ContextSelector.selectedContext (Page.selector (state w))) = true ->
  confirm ContextSelector.delete_prompt = true ->
  delete_fails e
    (net (length (sent w))
         (ContextSelector.delete_request API_BASE_URL
            (Page.selector (state w)))) ->
  let run :=
    Page.handleDeleteContext API_BASE_URL net confirm onContextChange in
  let w' := exec run w in
  ContextSelector.contexts (Page.selector (state w'))
  = ContextSelector.contexts (Page.selector (state w))
  /\ ContextSelector.selectedContext (Page.selector (state w'))
     = ContextSelector.selectedContext (Page.selector (state w))
  /\ state w' = state w
  /\ ~ surfaced w w'
  /\ console w' = console w ++ [(str "Failed to delete context:", e)]
  /\ outcome run w = Normal tt.
Proof.
  intros Hsel Hyes Hfail run w'. subst run w'. unfold exec, outcome, surfaced.
  rewrite (handleDeleteContext_fails _ _ _ _ _ e) by done.
  cbn [delete_logged snd fst state console]. repeat split. tauto.
Qed.

Lemma failed_deletion_only_logged_witness :
  let w' := exec (Page.handleDeleteContext Sample.api Sample.refusing
                    Sample.yes Page.chat_onContextChange) Sample.chat_tree in
  state w' = state Sample.chat_tree
  /\ console w'
     = [(str "Failed to delete context:",
         ErrorObj (str "not allowed"))].
Proof.
  destruct (failed_deletion_only_logged Sample.api Sample.refusing Sample.yes
              Page.chat_onContextChange Sample.chat_tree
              (ErrorObj (str "not allowed")))
    as (_ & _ & Hstate & _ & Hconsole & _).
  - reflexivity.
  - reflexivity.
  - right. eexists. vm_compute. repeat split.
  - split; [exact Hstate|exact Hconsole].
Defined.

(** C9, as stated, fails: the backend refuses the deletion of the selected
    context with a detail, the list and the selection stay as they were,
    and nothing the view is rendered from changes, so no message reaches
    the user. *)
Lemma failed_deletion_not_surfaced :
  let run := Page.handleDeleteContext Sample.api Sample.refusing Sample.yes
               Page.chat_onContextChange in
  let w := Sample.chat_tree in
  ~ (ContextSelector.contexts (Page.selector (state (exec run w)))
     = ContextSelector.contexts (Page.selector (state w))
     /\ ContextSelector.selectedContext (Page.selector (state (exec run w)))
        = ContextSelector.selectedContext (Page.selector (state w))
     /\ surfaced w (exec run w)).
Proof.
  cbv zeta. intros (_ & _ & Hsurf). apply Hsurf. reflexivity.
Qed.

(** C8, as the code has it.  When the request of [handleCreateContext] is
    rejected, or the body of its response does not parse, the context list
    and the selection are left as they were, as are the modal, the two
    inputs and the page; the exception is written to the console and the
    handler returns normally, so the caller is not told.  When the response
    has a success status and its body parses, the parsed document is
    appended to the list, the selection and the page are left as they were,
    the modal is closed and the inputs are emptied. *)
Theorem create_context_effects {P : Type}
    (API_BASE_URL : jsstring) (net : network) (w : Env (Page.Tree P)) :
  let st := Page.selector (state w) in
  let o := net (length (sent w))
               (ContextSelector.create_request API_BASE_URL st) in
  let run := Page.handleCreateContext API_BASE_URL net in
  let st' := Page.selector (state (exec run w)) in
  (forall e, transport_fails e o ->
     st' = ContextSelector.with_loading false st
     /\ ContextSelector.contexts st' = ContextSelector.contexts st
     /\ ContextSelector.selectedContext st'
        = ContextSelector.selectedContext st
     /\ Page.page (state (exec run w)) = Page.page (state w)
     /\ console (exec run w)
        = console w ++ [(str "Failed to create context:", e)]
     /\ outcome run w = Normal tt)
  /\ (forall r newContext,
        o = Resolved r -> ok r = true -> json_body r = inr newContext ->
        ContextSelector.contexts st'
        = ContextSelector.contexts st ++ [newContext]
        /\ ContextSelector.selectedContext st'
           = ContextSelector.selectedContext st
        /\ Page.page (state (exec run w)) = Page.page (state w)
        /\ ContextSelector.isCreateModalVisible st' = false
        /\ ContextSelector.newContextName st' = []
        /\ ContextSelector.newContextDescription st' = []
        /\ outcome run w = Normal tt).
Proof.
  cbv zeta. unfold exec, outcome. rewrite handleCreateContext_run. cbv zeta.
  split.
  - intros e [->|(r & -> & ->)]; cbn [create_logged snd fst state console];
      repeat split; by destruct (Page.selector (state w)).
  - intros r newContext -> _ ->. repeat split.
Qed.

Lemma create_context_effects_witness :
  let w' := exec (Page.handleCreateContext Sample.api Sample.offline)
                 Sample.creating in
  ContextSelector.contexts (Page.selector (state w'))
  = ContextSelector.contexts (Page.selector (state Sample.creating))
  /\ console w'
     = [(str "Failed to create context:", ErrorObj (str "Failed to fetch"))].
Proof.
  destruct (create_context_effects Sample.api Sample.offline Sample.creating)
    as [Hfail _].
  destruct (Hfail (ErrorObj (str "Failed to fetch")))
    as (_ & Hlist & _ & _ & Hconsole & _).
  - left. reflexivity.
  - split; [exact Hlist|exact Hconsole].
Defined.

(** C8, as stated, fails twice.  A response with a non-success status is a
    failed creation, yet its body is appended to the list as if it were the
    new context; and when the network is down the handler neither throws
    nor changes what the view is rendered from, so the error is not
    reported to the caller. *)
Lemma failed_creation_not_atomic :
  ~ creation_fails_atomically Sample.api Sample.refusing Sample.creating
  /\ ~ creation_fails_atomically Sample.api Sample.offline Sample.creating.
Proof.
  unfold creation_fails_atomically. cbv zeta. split.
  - intros H. destruct H as (Hlist & _ & _).
    + right. eexists. split; reflexivity.
    + apply (f_equal length) in Hlist. vm_compute in Hlist. discriminate.
  - intros H. destruct H as (_ & _ & [[e He]|Hsurf]).
    + left. eexists. reflexivity.
    + vm_compute in He. discriminate.
    + apply Hsurf. reflexivity.
Qed.

(** * Deleting the selected context *)

Lemma zoom_silent {W P A} (view : W -> P) (put : P -> W -> W) (m : Js P A)
    (w : Env W) r p' c' lu' mi' :
  m (mkEnv (view (state w)) ((fun e => (fst e, view (snd e))) <$> sent w)
           (console w) (live_urls w) (minted w))
  = (r, mkEnv p' ((fun e => (fst e, view (snd e))) <$> sent w) c' lu' mi') ->
  zoom view put m w = (r, mkEnv (put p' (state w)) (sent w) c' lu' mi').
Proof.
  intros H. unfold zoom. rewrite H. cbn [state sent console live_urls minted].
  rewrite drop_ge by (by rewrite length_fmap).
  by rewrite fmap_nil, app_nil_r.
Qed.

Lemma other_than_has_id s c :
  c <> JNull ->
  ContextSelector.other_than (Some s) c = Normal (negb (has_id s c)).
Proof. by destruct c. Qed.

Lemma filter_throwing_documents s l :
  Forall (fun c => c <> JNull) l ->
  filter_throwing (ContextSelector.other_than (Some s)) l
  = Normal (filter (fun c => has_id s c = false) l).
Proof.
  induction 1 as [|c l Hc Hl IH]; [done|].
  simpl. rewrite other_than_has_id, IH by done.
  rewrite filter_cons. destruct (has_id s c); by case_decide.
Qed.

Section DeleteSelected.
Import Page.
Variable API_BASE_URL : jsstring.
Variable net : network.
Variable confirm : jsstring -> bool.
Variable s : jsstring.

(** A confirmed, successful deletion up to the call of the prop. *)
Lemma handleDeleteContext_done {P} onContextChange (w : Env (Tree P)) :
  deletion_confirmed API_BASE_URL net confirm s w ->
  Page.handleDeleteContext API_BASE_URL net confirm onContextChange w
  = try_catch (onContextChange None)
      (fun error => console_error (str "Failed to delete context:") error)
      (mkEnv (mkTree (selector_without s (selector (state w)))
                     (page (state w)))
             (sent w ++ [(ContextSelector.delete_request API_BASE_URL
                            (selector (state w)), state w)])
             (console w) (live_urls w) (minted w)).
Proof.
  intros (Hsel & Hs & Hyes & Hdocs & r & Hnet & Hok).
  assert (Ht : truthy (ContextSelector.selectedContext (selector (state w)))
               = true) by (rewrite Hsel; by apply truthy_Some).
  rewrite handleDeleteContext_run. cbv zeta.
  rewrite Ht, Hyes, Hnet, Hok, Hsel. cbn [negb].
  by rewrite filter_throwing_documents.
Qed.

Lemma chat_onContextChange_run v (w : Env (Tree Chat.State)) :
  chat_onContextChange v w
  = (Normal tt,
     with_state (put_page (Chat.with_selectedContext v (page (state w)))
                          (state w)) w).
Proof. unfold chat_onContextChange. by apply zoom_silent. Qed.

Lemma upload_onContextChange_None (w : Env (Tree Upload.State)) :
  upload_onContextChange API_BASE_URL net None w
  = (Normal tt,
     with_state (put_page (Upload.with_selectedContext None (page (state w)))
                          (state w)) w).
Proof.
  unfold upload_onContextChange. apply zoom_silent.
  unfold bind at 1, get at 1. cbn [state].
  destruct (decide (None = Upload.selectedContext (page (state w))))
    as [Heq|Hne].
  - unfold ret. f_equal. f_equal.
    destruct (page (state w)). simpl in Heq. by subst.
  - reflexivity.
Qed.

Lemma visualize_onContextChange_None (w : Env (Tree Visualize.State)) :
  let pg := page (state w) in
  Visualize.selectedContext pg <> None ->
  visualize_onContextChange API_BASE_URL net None w
  = (Normal tt,
     mkEnv (put_page
              (Visualize.mkState (Visualize.loading pg) (Visualize.error pg)
                 None None (Visualize.regenerating pg)
                 (Some (Visualize.graphUrl pg)))
              (state w))
           (sent w) (console w)
           (match Visualize.cleanup pg with
            | Some (Some url) => filter (fun v => v <> url) (live_urls w)
            | _ => live_urls w
            end)
           (minted w)).
Proof.
  intros pg Hne. unfold visualize_onContextChange. apply zoom_silent.
  unfold Visualize.onContextChange. unfold bind at 1, get at 1. cbn [state].
  fold pg. destruct (decide (None = Visualize.selectedContext pg)); [done|].
  unfold bind at 1. unfold Visualize.setSelectedContext, update at 1.
  unfold bind at 1. unfold Visualize.run_cleanup.
  unfold bind at 1, get at 1.
  cbn [state with_state Visualize.cleanup Visualize.with_selectedContext].
  destruct (Visualize.cleanup pg) as [[url|]|]; reflexivity.
Qed.
End DeleteSelected.

Lemma selector_without_spec s st :
  ContextSelector.selectedContext (selector_without s st) = None
  /\ (forall c, c ∈ ContextSelector.contexts (selector_without s st) <->
                c ∈ ContextSelector.contexts st /\ has_id s c = false).
Proof.
  split; [done|]. intros c. cbn. rewrite list_elem_of_filter. tauto.
Qed.

(** C4, as the code has it.  After a confirmed deletion of the selected
    context [s] that the backend answers with a success status, the list
    keeps exactly the entries whose [id] is not [s], the selection of the
    selector is [null] and so is the [selectedContext] cell of the page.
    The graph page, whose selection was set, also resets [graphUrl] to
    [null].  The chat page keeps its [responses], and the upload page keeps
    its loaded variables, its text, its chosen files and its tag buffer:
    apart from [selectedContext], no cell of these two pages changes. *)
Theorem confirmed_deletion_effects
    (API_BASE_URL : jsstring) (net : network) (confirm : jsstring -> bool)
    (s : jsstring) :
  (forall w : Env (Page.Tree Chat.State),
     deletion_confirmed API_BASE_URL net confirm s w ->
     let w' := exec (Page.handleDeleteContext API_BASE_URL net confirm
                       Page.chat_onContextChange) w in
     Page.selector (state w') = selector_without s (Page.selector (state w))
     /\ Page.page (state w')
        = Chat.with_selectedContext None (Page.page (state w))
     /\ Chat.responses (Page.page (state w'))
        = Chat.responses (Page.page (state w)))
  /\ (forall w : Env (Page.Tree Upload.State),
        deletion_confirmed API_BASE_URL net confirm s w ->
        let w' := exec (Page.handleDeleteContext API_BASE_URL net confirm
                          (Page.upload_onContextChange API_BASE_URL net)) w in
        Page.selector (state w') = selector_without s (Page.selector (state w))
        /\ Page.page (state w')
           = Upload.with_selectedContext None (Page.page (state w))
        /\ Upload.variableOptions (Page.page (state w'))
           = Upload.variableOptions (Page.page (state w))
        /\ Upload.text (Page.page (state w')) = Upload.text (Page.page (state w))
        /\ Upload.files (Page.page (state w'))
           = Upload.files (Page.page (state w))
        /\ Upload.tags (Page.page (state w'))
           = Upload.tags (Page.page (state w)))
  /\ (forall w : Env (Page.Tree Visualize.State),
        deletion_confirmed API_BASE_URL net confirm s w ->
        Visualize.selectedContext (Page.page (state w)) <> None ->
        let w' := exec (Page.handleDeleteContext API_BASE_URL net confirm
                          (Page.visualize_onContextChange API_BASE_URL net))
                       w in
        Page.selector (state w') = selector_without s (Page.selector (state w))
        /\ Visualize.selectedContext (Page.page (state w')) = None
        /\ Visualize.graphUrl (Page.page (state w')) = None)
  /\ (forall st : ContextSelector.State,
        ContextSelector.selectedContext (selector_without s st) = None
        /\ forall c,
             c ∈ ContextSelector.contexts (selector_without s st) <->
             c ∈ ContextSelector.contexts st /\ has_id s c = false).
Proof.
  split; [|split; [|split]].
  - intros w Hdel w'. subst w'. unfold exec.
    rewrite (handleDeleteContext_done _ _ _ s) by done.
    unfold try_catch. rewrite chat_onContextChange_run. repeat split.
  - intros w Hdel w'. subst w'. unfold exec.
    rewrite (handleDeleteContext_done _ _ _ s) by done.
    unfold try_catch. rewrite upload_onContextChange_None. repeat split.
  - intros w Hdel Hsync w'. subst w'. unfold exec.
    rewrite (handleDeleteContext_done _ _ _ s) by done.
    unfold try_catch. rewrite visualize_onContextChange_None by done.
    repeat split.
  - apply selector_without_spec.
Qed.

Lemma confirmed_deletion_effects_witness :
  let w' := exec (Page.handleDeleteContext Sample.api Sample.delete_done
                    Sample.yes Page.chat_onContextChange) Sample.chat_tree in
  ContextSelector.contexts (Page.selector (state w'))
  = [Sample.context "c2" "manuals"]
  /\ Chat.responses (Page.page (state w'))
     = Chat.responses (Page.page (state Sample.chat_tree)).
Proof.
  destruct (confirmed_deletion_effects Sample.api Sample.delete_done
              Sample.yes (str "c1")) as (Hchat & _).
  destruct (Hchat Sample.chat_tree) as (Hsel & _ & Hkeep).
  - split; [reflexivity|]. split; [vm_compute; discriminate|].
    split; [reflexivity|]. split.
    + repeat constructor; discriminate.
    + eexists. split; reflexivity.
  - split; [|exact Hkeep]. cbv zeta in Hsel. rewrite Hsel. reflexivity.
Defined.

(** C4, as stated, fails: the selected context is deleted while the chat
    page shows the results of an earlier question; the context leaves the
    list and the selection becomes [null], but the results stay on display
    instead of going back to the initial [null]. *)
Lemma deleted_context_results_stay :
  let w := Sample.chat_tree in
  let w' := exec (Page.handleDeleteContext Sample.api Sample.delete_done
                    Sample.yes Page.chat_onContextChange) w in
  deletion_confirmed Sample.api Sample.delete_done Sample.yes (str "c1") w
  /\ ~ (ContextSelector.selectedContext (Page.selector (state w')) = None
        /\ Chat.responses (Page.page (state w'))
           = Chat.responses Chat.initial).
Proof.
  cbv zeta. split.
  - split; [reflexivity|]. split; [vm_compute; discriminate|].
    split; [reflexivity|]. split.
    + repeat constructor; discriminate.
    + eexists. split; reflexivity.
  - intros [_ H]. vm_compute in H. discriminate.
Qed.

(** * The object URL of the graph *)

(** [loadGraph] mints at most one identifier and releases none. *)
Lemma loadGraph_keeps_live_urls API_BASE_URL net force
    (w : Env Visualize.State) :
  exists minted_now,
    live_urls (exec (Visualize.loadGraph API_BASE_URL net force) w)
    = live_urls w ++ minted_now
    /\ (length minted_now <= 1)%nat.
Proof.
  assert (Hsame : forall l : list object_url,
            l = l ++ [] /\ (length (@nil object_url) <= 1)%nat)
    by (intros l; rewrite app_nil_r; split; [reflexivity|cbn; lia]).
  unfold exec, Visualize.loadGraph. unfold bind at 1, get at 1.
  destruct (truthy _); cbn [negb]; [|exists []; apply Hsame].
  unfold bind at 1. unfold Visualize.setLoading, update at 1.
  unfold bind at 1. unfold Visualize.setError, update at 1.
  unfold bind at 1. unfold try_catch at 1. unfold bind at 1. unfold fetch at 1.
  cbn [state sent console live_urls minted with_state].
  destruct (net _ _) as [e|r]; [exists []; apply Hsame|].
  unfold bind at 1. destruct (ok r); cbn [negb]; [|exists []; apply Hsame].
  unfold ret at 1. unfold bind at 1, blob_of at 1.
  destruct (blob_body r) as [e|blob]; [exists []; apply Hsame|].
  eexists [_]. split; [reflexivity|]. cbn [length]. lia.
Qed.

(** A regeneration mints a second identifier next to the one on display
    and leaves the first one live. *)
Lemma handleRegenerate_keeps_previous_url API_BASE_URL net
    (w : Env Visualize.State) (url : object_url) (r : response) (b : Blob) :
  Visualize.graphUrl (state w) = Some url ->
  url ∈ live_urls w ->
  truthy (Visualize.selectedContext (state w)) = true ->
  net (length (sent w))
      (Visualize.visualize_request API_BASE_URL
         (Visualize.selectedContext (state w)) true) = Resolved r ->
  ok r = true ->
  blob_body r = inr b ->
  let w' := exec (Visualize.handleRegenerate API_BASE_URL net) w in
  live_urls w' = live_urls w ++ [BlobUrl (minted w)]
  /\ url ∈ live_urls w'
  /\ Visualize.graphUrl (state w') = Some (BlobUrl (minted w)).
Proof.
  intros Hurl Hlive Hctx Hnet Hok Hblob w'.
  assert (Hrun : exists st' log,
            Visualize.handleRegenerate API_BASE_URL net w
            = (Normal tt,
               mkEnv st' log (console w)
                     (live_urls w ++ [BlobUrl (minted w)])
                     (Datatypes.S (minted w)))
            /\ Visualize.graphUrl st' = Some (BlobUrl (minted w))).
  { unfold Visualize.handleRegenerate.
    unfold bind at 1. unfold Visualize.setRegenerating at 1, update at 1.
    unfold Visualize.loadGraph. unfold bind at 1, get at 1.
    cbn [state with_state Visualize.selectedContext
         Visualize.with_regenerating].
    rewrite Hctx. cbn [negb].
    unfold bind at 1. unfold Visualize.setLoading at 1, update at 1.
    unfold bind at 1. unfold Visualize.setError at 1, update at 1.
    unfold bind at 1. unfold try_catch at 1. unfold bind at 1.
    unfold fetch at 1.
    cbn [state sent console live_urls minted with_state
         Visualize.selectedContext Visualize.with_regenerating
         Visualize.with_loading Visualize.with_error].
    rewrite Hnet. unfold bind at 1. rewrite Hok. cbn [negb].
    unfold ret at 1. unfold bind at 1, blob_of at 1. rewrite Hblob.
    eexists _, _. split; reflexivity. }
  destruct Hrun as (st' & log & Hrun & Hgraph).
  subst w'. unfold exec. rewrite Hrun. cbn [snd live_urls state].
  split; [reflexivity|]. split; [|exact Hgraph].
  apply elem_of_app. by left.
Qed.

(** C1 fails on the code.  [loadGraph] installs a new identifier without
    releasing the one in [graphUrl]: after a load and a regeneration two
    identifiers are live, the first of which is no longer referenced.  The
    clean-up function of the effect releases the [graphUrl] of the render
    in which the effect ran, which for the first selection is [null]:
    discarding the view after that releases nothing. *)
Theorem graph_url_leak :
  let w := exec Sample.load_then_regenerate (boot Visualize.initial) in
  let gone := exec Visualize.unmount w in
  live_urls w = [BlobUrl 0; BlobUrl 1]
  /\ Visualize.graphUrl (state w) = Some (BlobUrl 1)
  /\ Visualize.cleanup (state w) = Some None
  /\ live_urls gone = [BlobUrl 0; BlobUrl 1].
Proof. cbv zeta. repeat split; reflexivity. Qed.

(** * Further properties of the handlers *)

(** ** Blank input *)

Lemma trimStart_nil_iff s :
  trimStart s = [] <-> Forall (fun c => is_white_space c = true) s.
Proof.
  induction s as [|c s IH]; simpl.
  - split; [constructor|done].
  - destruct (is_white_space c) eqn:E.
    + rewrite IH. split; [by constructor|by inversion 1].
    + split; [done|]. inversion 1; congruence.
Qed.

(** [trim] leaves nothing exactly of the strings made of white space. *)
Lemma trim_nil_iff s :
  trim s = [] <-> Forall (fun c => is_white_space c = true) s.
Proof.
  rewrite <- trimStart_nil_iff. unfold trim. split.
  - intros H. pose proof (trimStart_headed s) as Hh.
    destruct (trimStart s) as [|c u] eqn:E; [done|]. exfalso.
    simpl in Hh. unfold trimEnd in H. rewrite reverse_cons in H.
    rewrite trimStart_snoc in H by done.
    apply (f_equal length) in H.
    rewrite length_reverse, length_app in H. simpl in H. lia.
  - by intros ->.
Qed.

(** ** Chat: what a submit does in every case *)

(** X1. [handleSubmit] does nothing at all, and in particular sends no
    request, when the query is empty or made of white space only, or when
    no context is selected. *)
Theorem submit_needs_query_and_context
    (API_BASE_URL : jsstring) (net : network) (w : Env Chat.State) :
  Forall (fun c => is_white_space c = true) (Chat.query (state w))
  \/ truthy (Chat.selectedContext (state w)) = false ->
  Chat.handleSubmit API_BASE_URL net w = (Normal tt, w).
Proof.
  intros H. unfold Chat.handleSubmit. unfold bind at 1, get at 1.
  destruct H as [H|H].
  - apply trim_nil_iff in H. by rewrite H.
  - rewrite H. by rewrite orb_true_r.
Qed.

Lemma submit_needs_query_and_context_witness :
  Chat.handleSubmit Sample.api Sample.query_answered
    (boot (Chat.mkState (str "  ") (Some JNull) false None Chat.hybrid
             (Some (str "c1"))))
  = (Normal tt,
     boot (Chat.mkState (str "  ") (Some JNull) false None Chat.hybrid
             (Some (str "c1")))).
Proof.
  apply submit_needs_query_and_context. left.
  repeat constructor.
Defined.

(** X2. A submit that passes the guard sends exactly one request, the POST
    of the query as typed (not trimmed) for the selected context, whatever
    the answer is; the handler returns normally with [loading] off and with
    the query, the active tab and the selection as they were; and when it
    leaves an error on display there is no result on display. *)
Theorem submit_sends_one_request
    (API_BASE_URL : jsstring) (net : network) (w : Env Chat.State) :
  trim (Chat.query (state w)) <> [] ->
  truthy (Chat.selectedContext (state w)) = true ->
  let w' := exec (Chat.handleSubmit API_BASE_URL net) w in
  (exists snap,
     sent w' = sent w ++ [(Chat.query_request API_BASE_URL (state w), snap)]
     /\ Chat.loading snap = true)
  /\ body (Chat.query_request API_BASE_URL (state w))
     = JsonBody (JObj [(str "query", JStr (Chat.query (state w)))])
  /\ Chat.query (state w') = Chat.query (state w)
  /\ Chat.selectedTab (state w') = Chat.selectedTab (state w)
  /\ Chat.selectedContext (state w') = Chat.selectedContext (state w)
  /\ Chat.loading (state w') = false
  /\ outcome (Chat.handleSubmit API_BASE_URL net) w = Normal tt
  /\ (Chat.error (state w') <> None ->
      Chat.responses (state w') = Some JNull
      /\ Chat.visible_result (state w') = None).
Proof.
  intros Hq Hctx w'. subst w'. unfold exec, outcome.
  rewrite handleSubmit_run by done. cbv zeta.
  destruct (net _ _) as [e|r]; [|destruct (json_body r) as [e|data];
    [|destruct (get_prop data (str "status")) as [status|e];
      [destruct (strict_eq_string status (str "success"));
       [destruct (get_prop data (str "data")) as [result|e]
       |destruct (get_prop data (str "message")) as [message|e]]|]]];
    cbn [submit_failed snd fst state sent];
    (split; [eexists; split; reflexivity|]);
    repeat split; done.
Qed.

Lemma submit_sends_one_request_witness :
  length (sent (exec (Chat.handleSubmit Sample.api Sample.query_refused)
                     Sample.asking)) = 1%nat.
Proof.
  destruct (submit_sends_one_request Sample.api Sample.query_refused
              Sample.asking) as ((snap & Hsent & _) & _).
  - vm_compute. discriminate.
  - reflexivity.
  - rewrite Hsent. reflexivity.
Defined.

(** ** Upload: the file batch outside the abort path *)

(** X3. [handleFileUpload] does nothing at all, and sends no request, when
    no file list is held, when the list is empty, or when no context is
    selected; in particular it does not switch [loading] on. *)
Theorem upload_needs_files_and_context
    (API_BASE_URL : jsstring) (net : network) (w : Env Upload.State) :
  Upload.files (state w) = None
  \/ Upload.files (state w) = Some []
  \/ truthy (Upload.selectedContext (state w)) = false ->
  Upload.handleFileUpload API_BASE_URL net w = (Normal tt, w).
Proof.
  intros H. unfold Upload.handleFileUpload. unfold bind at 1, get at 1.
  destruct H as [H|[H|H]].
  - by rewrite H.
  - by rewrite H.
  - rewrite H. by destruct (Upload.files (state w)) as [[|? ?]|].
Qed.

Lemma upload_needs_files_and_context_witness :
  Upload.handleFileUpload Sample.api Sample.accepting
    (boot (Upload.with_files (Some Sample.three_files) Upload.initial))
  = (Normal tt,
     boot (Upload.with_files (Some Sample.three_files) Upload.initial)).
Proof.
  apply upload_needs_files_and_context. right. right. reflexivity.
Defined.

(** X4. When the backend accepts every file of a batch, [handleFileUpload]
    sends one request per file, in the order of the list, reports
    ["Successfully uploaded N files"] without the error flag, and forgets
    the chosen files; the text, the tag buffer and the selection are as
    before. *)
Theorem upload_all_files_succeeds
    (API_BASE_URL : jsstring) (net : network) (w : Env Upload.State)
    (fl : list File) (ctx : jsstring) :
  let req := Upload.insert_file_request API_BASE_URL (Some ctx) in
  Upload.files (state w) = Some fl ->
  fl <> [] ->
  Upload.selectedContext (state w) = Some ctx ->
  ctx <> [] ->
  (forall j f, fl !! j = Some f ->
     accepted (net (length (sent w) + j)%nat (req f))) ->
  let w' := exec (Upload.handleFileUpload API_BASE_URL net) w in
  fst <$> sent w' = (fst <$> sent w) ++ (req <$> fl)
  /\ Upload.message (state w')
     = str "Successfully uploaded " ++ string_of_nat (length fl)
       ++ str " files"
  /\ Upload.isError (state w') = false
  /\ Upload.files (state w') = None
  /\ Upload.loading (state w') = false
  /\ Upload.uploadProgress (state w') = None
  /\ Upload.text (state w') = Upload.text (state w)
  /\ Upload.tags (state w') = Upload.tags (state w)
  /\ Upload.selectedContext (state w') = Upload.selectedContext (state w).
Proof.
  intros req Hfiles Hfl Hctx Hne Hall w'.
  destruct fl as [|first tail]; [done|].
  assert (Hrun := handleFileUpload_run API_BASE_URL net w first tail Hfiles).
  rewrite Hctx in Hrun. specialize (Hrun (truthy_Some ctx Hne)).
  cbv zeta in Hrun. fold req in Hrun.
  rewrite (batch_end_all_pass req net (first :: tail)) in Hrun.
  - subst w'. unfold exec. rewrite Hrun. cbn [snd sent state].
    rewrite fmap_app, batch_log_requests, firstn_all. repeat split.
  - intros j f Hf. apply accepted_no_failure. by apply Hall.
Qed.

Lemma upload_all_files_succeeds_witness :
  let w' := exec (Upload.handleFileUpload Sample.api Sample.accepting)
                 Sample.ready_to_upload in
  Upload.files (state w') = None /\ Upload.isError (state w') = false.
Proof.
  destruct (upload_all_files_succeeds Sample.api Sample.accepting
              Sample.ready_to_upload Sample.three_files (str "c1"))
    as (_ & _ & Herr & Hfiles & _).
  - reflexivity.
  - discriminate.
  - reflexivity.
  - vm_compute. discriminate.
  - intros j f _. eexists _, _. repeat split.
  - split; [exact Hfiles|exact Herr].
Defined.

(** X5. When the network rejects the request for file k after files 1..k-1
    were accepted, the batch stops after exactly k requests; the message is
    that of the exception (["Error uploading files"] for a thrown value
    that is no [Error]) with the error flag set; and the chosen files stay
    selected, as do the text and the tag buffer. *)
Theorem upload_rejected_keeps_files
    (API_BASE_URL : jsstring) (net : network) (w : Env Upload.State)
    (fl : list File) (ctx : jsstring) (k : nat) (fk : File) (e : js_exn) :
  let req := Upload.insert_file_request API_BASE_URL (Some ctx) in
  Upload.files (state w) = Some fl ->
  Upload.selectedContext (state w) = Some ctx ->
  ctx <> [] ->
  (1 <= k)%nat ->
  fl !! (k - 1)%nat = Some fk ->
  (forall j f, (j < k - 1)%nat -> fl !! j = Some f ->
     accepted (net (length (sent w) + j)%nat (req f))) ->
  net (length (sent w) + (k - 1))%nat (req fk) = Rejected e ->
  let w' := exec (Upload.handleFileUpload API_BASE_URL net) w in
  fst <$> sent w' = (fst <$> sent w) ++ (req <$> take k fl)
  /\ Upload.message (state w') = message_or e (str "Error uploading files")
  /\ Upload.isError (state w') = true
  /\ Upload.files (state w') = Some fl
  /\ Upload.loading (state w') = false
  /\ Upload.uploadProgress (state w') = None
  /\ Upload.text (state w') = Upload.text (state w)
  /\ Upload.tags (state w') = Upload.tags (state w).
Proof.
  intros req Hfiles Hctx Hne Hk Hfk Hpre Hfail w'.
  destruct fl as [|first tail]; [done|].
  assert (Hrun := handleFileUpload_run API_BASE_URL net w first tail Hfiles).
  rewrite Hctx in Hrun. specialize (Hrun (truthy_Some ctx Hne)).
  cbv zeta in Hrun. fold req in Hrun.
  rewrite (batch_end_first_failure req net (k - 1) (first :: tail)
             (length (sent w)) fk e) in Hrun.
  - subst w'. unfold exec. rewrite Hrun. cbn [snd sent state].
    replace (Datatypes.S (k - 1)) with k by lia.
    rewrite fmap_app, batch_log_requests. repeat split. exact Hfiles.
  - intros j f Hj Hf. apply accepted_no_failure. by apply Hpre.
  - exact Hfk.
  - by rewrite Hfail.
Qed.

Lemma upload_rejected_keeps_files_witness :
  let w' := exec (Upload.handleFileUpload Sample.api Fixture.second_dropped)
                 Sample.ready_to_upload in
  Upload.message (state w') = str "Failed to fetch"
  /\ Upload.files (state w') = Some Sample.three_files.
Proof.
  destruct (upload_rejected_keeps_files Sample.api Fixture.second_dropped
              Sample.ready_to_upload Sample.three_files (str "c1") 2
              (Sample.file "b.txt") (ErrorObj (str "Failed to fetch")))
    as (_ & Hmsg & _ & Hfiles & _).
  - reflexivity.
  - reflexivity.
  - vm_compute. discriminate.
  - lia.
  - reflexivity.
  - intros [|j] f Hj Hf; [|simpl in Hj; lia].
    eexists _, _. repeat split.
  - reflexivity.
  - split; [exact Hmsg|exact Hfiles].
Defined.

(** ** Upload: loading the prompt variables *)

Lemma fetchVariables_run API_BASE_URL net (w : Env Upload.State) :
  Upload.fetchVariables API_BASE_URL net w
  = if negb (truthy (Upload.selectedContext (state w))) then (Normal tt, w)
    else
      match net (length (sent w))
                (variables_request API_BASE_URL
                   (Upload.selectedContext (state w))) with
      | Rejected e => variables_failed API_BASE_URL w
      | Resolved r =>
          match json_body r with
          | inl e => variables_failed API_BASE_URL w
          | inr data =>
              match get_prop data (str "variables") with
              | Throw e => variables_failed API_BASE_URL w
              | Normal variables =>
                  (Normal tt,
                   mkEnv (Upload.with_variableOptions variables (state w))
                         (sent w ++ [(variables_request API_BASE_URL
                                        (Upload.selectedContext (state w)),
                                      state w)])
                         (console w) (live_urls w) (minted w))
              end
          end
      end.
Proof.
  unfold Upload.fetchVariables. unfold bind at 1, get at 1.
  destruct (truthy _); [|reflexivity]. cbn [negb].
  unfold try_catch, bind at 1, fetch.
  change {| method := GET;
            url := API_BASE_URL ++ str "/get_prompt_variables?context_id="
                   ++ string_of_cell (Upload.selectedContext (state w));
            body := NoBody |}
    with (variables_request API_BASE_URL (Upload.selectedContext (state w))).
  destruct (net _ _) as [e|r]; [reflexivity|].
  unfold bind at 1, json_of. destruct (json_body r) as [e|data];
    [reflexivity|].
  unfold ret at 1. unfold bind at 1, lift at 1.
  destruct (get_prop data (str "variables")); reflexivity.
Qed.



(** ** Upload: switching the context *)

Lemma zoom_run {W P A} (view : W -> P) (put : P -> W -> W) (m : Js P A)
    (w : Env W) r p' new c' lu' mi' :
  m (mkEnv (view (state w)) ((fun e => (fst e, view (snd e))) <$> sent w)
           (console w) (live_urls w) (minted w))
  = (r, mkEnv p' (((fun e => (fst e, view (snd e))) <$> sent w) ++ new)
              c' lu' mi') ->
  zoom view put m w
  = (r, mkEnv (put p' (state w))
              (sent w ++ ((fun e => (fst e, put (snd e) (state w))) <$> new))
              c' lu' mi').
Proof.
  intros H. unfold zoom. rewrite H. cbn [state sent console live_urls minted].
  replace (length (sent w))
    with (length ((fun e => (fst e, view (snd e))) <$> sent w))
    by apply length_fmap.
  by rewrite drop_app_length.
Qed.

(** [fetchVariables] returns normally, writes only the loaded variables,
    the message and the error flag, and sends its request when a context
    is selected. *)
Lemma fetchVariables_frame API_BASE_URL net (w : Env Upload.State) :
  exists st' snap,
    Upload.fetchVariables API_BASE_URL net w
    = (Normal tt,
       mkEnv st'
             (sent w ++
              if truthy (Upload.selectedContext (state w))
              then [(variables_request API_BASE_URL
                       (Upload.selectedContext (state w)), snap)]
              else [])
             (console w) (live_urls w) (minted w))
    /\ same_inputs st' (state w)
    /\ Upload.selectedContext st' = Upload.selectedContext (state w).
Proof.
  rewrite fetchVariables_run.
  destruct (truthy _); cbn [negb].
  - destruct (net _ _) as [e|r];
      [|destruct (json_body r) as [e|data];
        [|destruct (get_prop data (str "variables")) as [v|e]]];
      eexists _, _; (split; [reflexivity|]); by repeat split.
  - exists (state w), (state w). rewrite app_nil_r.
    split; [by destruct w|]. by repeat split.
Qed.

(** X7. In the upload page, passing the selector's choice [v] to the page
    does nothing when [v] is the selection the page already has.
    Otherwise the page takes [v] as its selection, sends the one GET for the
    variables of [v] when [v] is truthy and no request when it is not, and
    keeps what the user was editing: the text, the chosen files, the chosen
    variable with its value, and the tag buffer.  The cells of the selector
    are not touched. *)
Theorem upload_context_switch
    (API_BASE_URL : jsstring) (net : network) (v : option jsstring)
    (w : Env (Page.Tree Upload.State)) :
  let run := Page.upload_onContextChange API_BASE_URL net v in
  let w' := exec run w in
  (v = Upload.selectedContext (Page.page (state w)) -> w' = w)
  /\ (v <> Upload.selectedContext (Page.page (state w)) ->
      Upload.selectedContext (Page.page (state w')) = v
      /\ same_inputs (Page.page (state w')) (Page.page (state w))
      /\ Page.selector (state w') = Page.selector (state w)
      /\ fst <$> sent w'
         = (fst <$> sent w)
           ++ (if truthy v then [variables_request API_BASE_URL v] else [])
      /\ outcome run w = Normal tt).
Proof.
  cbv zeta. unfold exec, outcome, Page.upload_onContextChange. split.
  - intros Heq. erewrite zoom_silent.
    2:{ unfold bind at 1, get at 1. cbn [state].
        destruct (decide _); [reflexivity|done]. }
    by destruct w as [[? ?] ? ? ? ?].
  - intros Hne.
    set (inner := mkEnv (Page.page (state w))
                    ((fun e => (fst e, Page.page (snd e))) <$> sent w)
                    (console w) (live_urls w) (minted w)).
    destruct (truthy v) eqn:Hv.
    + destruct (fetchVariables_frame API_BASE_URL net
                  (with_state (Upload.with_selectedContext v
                                 (Page.page (state w))) inner))
        as (st' & snap & Hrun & Hin & Hsel).
      cbn [state sent console live_urls minted with_state
           Upload.selectedContext Upload.with_selectedContext] in Hrun, Hsel.
      rewrite Hv in Hrun.
      erewrite zoom_run.
      2:{ unfold bind at 1, get at 1. cbn [state].
          destruct (decide _) as [Heq|_]; [exfalso; by apply Hne|].
          unfold bind at 1. unfold Upload.setSelectedContext, update at 1.
          exact Hrun. }
      cbn [snd fst state sent Page.page Page.selector Page.put_page].
      rewrite fmap_app. repeat split; try apply Hin; try done.
    + erewrite zoom_silent.
      2:{ unfold bind at 1, get at 1. cbn [state].
          destruct (decide _) as [Heq|_]; [exfalso; by apply Hne|].
          unfold bind at 1. unfold Upload.setSelectedContext, update at 1.
          unfold ret, with_state. cbn [state sent console live_urls minted].
          reflexivity. }
      cbn [snd fst state sent Page.page Page.selector Page.put_page].
      rewrite app_nil_r. by repeat split.
Qed.

Lemma upload_context_switch_witness :
  let w' := exec (Page.upload_onContextChange Sample.api
                    Fixture.variables_served (Some (str "c2")))
                 Fixture.editing_tree in
  Upload.selectedContext (Page.page (state w')) = Some (str "c2")
  /\ Upload.tags (Page.page (state w')) = [str "person"].
Proof.
  destruct (upload_context_switch Sample.api Fixture.variables_served
              (Some (str "c2")) Fixture.editing_tree) as [_ Hswitch].
  destruct Hswitch as (Hsel & Hin & _).
  - vm_compute. discriminate.
  - split; [exact Hsel|]. destruct Hin as (_ & _ & _ & _ & Htags & _).
    exact Htags.
Defined.

(** ** Visualize: loading the graph *)

Lemma loadGraph_run API_BASE_URL net force (w : Env Visualize.State) :
  let rq := Visualize.visualize_request API_BASE_URL
              (Visualize.selectedContext (state w)) force in
  Visualize.loadGraph API_BASE_URL net force w
  = if negb (truthy (Visualize.selectedContext (state w)))
    then (Normal tt, w)
    else
      match net (length (sent w)) rq with
      | Rejected e => graph_failed rq w e
      | Resolved r =>
          if ok r then
            match blob_body r with
            | inl e => graph_failed rq w e
            | inr _ => graph_loaded rq w
            end
          else
            graph_failed rq w
              (ErrorObj (str "Failed to generate graph visualization"))
      end.
Proof.
  intros rq. unfold Visualize.loadGraph. unfold bind at 1, get at 1.
  destruct (truthy _); [|reflexivity]. cbn [negb].
  unfold bind at 1. unfold Visualize.setLoading at 1, update at 1.
  unfold bind at 1. unfold Visualize.setError at 1, update at 1.
  unfold bind at 1. unfold try_catch at 1. unfold bind at 1. unfold fetch at 1.
  cbn [state sent console live_urls minted with_state]. fold rq.
  destruct (net (length (sent w)) rq) as [e|r]; [reflexivity|].
  unfold bind at 1. destruct (ok r); cbn [negb]; [|reflexivity].
  unfold ret at 1. unfold bind at 1, blob_of at 1.
  destruct (blob_body r) as [e|b]; reflexivity.
Qed.

(** X8. With a context selected, a load of the graph that fails (rejected
    request, non-success status, unreadable body) leaves the identifier on
    display as it was and mints none; it shows the message of the failure,
    which for a non-success status is ["Failed to generate graph
    visualization"], and ends with [loading] and [regenerating] off, having
    sent its one request. *)
Theorem graph_load_failure_keeps_graph
    (API_BASE_URL : jsstring) (net : network) (force : bool)
    (w : Env Visualize.State) (e : js_exn) :
  truthy (Visualize.selectedContext (state w)) = true ->
  let rq := Visualize.visualize_request API_BASE_URL
              (Visualize.selectedContext (state w)) force in
  graph_fails e (net (length (sent w)) rq) ->
  let w' := exec (Visualize.loadGraph API_BASE_URL net force) w in
  Visualize.graphUrl (state w') = Visualize.graphUrl (state w)
  /\ live_urls w' = live_urls w
  /\ minted w' = minted w
  /\ Visualize.error (state w')
     = Some (message_or e (str "An error occurred"))
  /\ Visualize.loading (state w') = false
  /\ Visualize.regenerating (state w') = false
  /\ fst <$> sent w' = (fst <$> sent w) ++ [rq]
  /\ outcome (Visualize.loadGraph API_BASE_URL net force) w = Normal tt.
Proof.
  intros Hctx rq Hfail w'. subst w'. unfold exec, outcome.
  rewrite loadGraph_run. cbv zeta. fold rq. rewrite Hctx. cbn [negb].
  destruct Hfail as [->|[(r & -> & -> & ->)|(r & -> & -> & ->)]];
    cbn [graph_failed snd fst state sent live_urls minted];
    rewrite fmap_app; repeat split.
Qed.

Lemma graph_load_failure_keeps_graph_witness :
  let w' := exec (Visualize.loadGraph Sample.api Sample.refusing true)
                 Fixture.showing_graph in
  Visualize.graphUrl (state w') = Some (BlobUrl 0)
  /\ Visualize.error (state w')
     = Some (str "Failed to generate graph visualization").
Proof.
  destruct (graph_load_failure_keeps_graph Sample.api Sample.refusing true
              Fixture.showing_graph
              (ErrorObj (str "Failed to generate graph visualization")))
    as (Hurl & _ & _ & Herr & _).
  - reflexivity.
  - right. left. eexists. repeat split.
  - split; [exact Hurl|exact Herr].
Defined.

Lemma handleRegenerate_run API_BASE_URL net (w : Env Visualize.State) :
  Visualize.handleRegenerate API_BASE_URL net w
  = Visualize.loadGraph API_BASE_URL net true
      (with_state (Visualize.with_regenerating true (state w)) w).
Proof. reflexivity. Qed.

(** X9. With a context selected, [handleRegenerate] is [loadGraph] with
    the force flag: both send the same request, whose address ends in
    [regenerate=true], and leave the same cells, the same live identifiers
    and the same count of minted ones.  Without a context,
    [handleRegenerate] sends nothing and its only trace is [regenerating],
    which it leaves on. *)
Theorem regenerate_is_forced_load
    (API_BASE_URL : jsstring) (net : network) (w : Env Visualize.State) :
  let w1 := exec (Visualize.handleRegenerate API_BASE_URL net) w in
  let w2 := exec (Visualize.loadGraph API_BASE_URL net true) w in
  (truthy (Visualize.selectedContext (state w)) = true ->
   state w1 = state w2
   /\ fst <$> sent w1 = fst <$> sent w2
   /\ live_urls w1 = live_urls w2
   /\ minted w1 = minted w2
   /\ fst <$> sent w1
      = (fst <$> sent w)
        ++ [{| method := GET;
               url := API_BASE_URL ++ str "/visualize?context_id="
                      ++ string_of_cell (Visualize.selectedContext (state w))
                      ++ str "&regenerate=true";
               body := NoBody |}])
  /\ (truthy (Visualize.selectedContext (state w)) = false ->
      w1 = with_state (Visualize.with_regenerating true (state w)) w
      /\ w2 = w).
Proof.
  cbv zeta. unfold exec. rewrite handleRegenerate_run.
  rewrite !loadGraph_run. cbv zeta.
  cbn [state sent console live_urls minted with_state
       Visualize.selectedContext Visualize.with_regenerating].
  split; intros Hctx; rewrite Hctx; cbn [negb]; [|done].
  destruct (net _ _) as [e|r];
    [|destruct (ok r); [destruct (blob_body r)|]];
    cbn [graph_failed graph_loaded snd state sent live_urls minted];
    rewrite !fmap_app; repeat split.
Qed.

Lemma regenerate_is_forced_load_witness :
  state (exec (Visualize.handleRegenerate Sample.api Sample.graph_ready)
              Fixture.showing_graph)
  = state (exec (Visualize.loadGraph Sample.api Sample.graph_ready true)
                Fixture.showing_graph).
Proof.
  destruct (regenerate_is_forced_load Sample.api Sample.graph_ready
              Fixture.showing_graph) as [Hsame _].
  apply Hsame. reflexivity.
Defined.

(** [loadGraph] returns normally, keeps the selection and the pending
    clean-up, writes nothing to the console, and sends its request exactly
    when a context is selected. *)
Lemma loadGraph_frame API_BASE_URL net force (w : Env Visualize.State) :
  exists st' snap lu mi,
    Visualize.loadGraph API_BASE_URL net force w
    = (Normal tt,
       mkEnv st'
             (sent w ++
              if truthy (Visualize.selectedContext (state w))
              then [(Visualize.visualize_request API_BASE_URL
                       (Visualize.selectedContext (state w)) force, snap)]
              else [])
             (console w) lu mi)
    /\ Visualize.selectedContext st' = Visualize.selectedContext (state w)
    /\ Visualize.cleanup st' = Visualize.cleanup (state w).
Proof.
  rewrite loadGraph_run. cbv zeta. destruct (truthy _); cbn [negb].
  - destruct (net _ _) as [e|r];
      [|destruct (ok r); [destruct (blob_body r)|]];
      eexists _, _, _, _; (split; [reflexivity|]); by split.
  - exists (state w), (state w), (live_urls w), (minted w).
    rewrite app_nil_r. split; [by destruct w|]. by split.
Qed.

(** The prop of the graph page: it returns normally, leaves [v] as the
    selection of the page, and sends the request for the graph of [v]
    when [v] is a new, truthy selection, and no request otherwise. *)
Lemma visualize_select_frame API_BASE_URL net v (w : Env Visualize.State) :
  exists st' new lu mi,
    Visualize.onContextChange API_BASE_URL net v w
    = (Normal tt, mkEnv st' (sent w ++ new) (console w) lu mi)
    /\ Visualize.selectedContext st' = v
    /\ fst <$> new
       = if decide (v = Visualize.selectedContext (state w)) then []
         else if truthy v
              then [Visualize.visualize_request API_BASE_URL v false]
              else [].
Proof.
  unfold Visualize.onContextChange. unfold bind at 1, get at 1.
  destruct (decide (v = Visualize.selectedContext (state w))) as [Heq|Hne].
  { exists (state w), [], (live_urls w), (minted w). rewrite app_nil_r.
    split; [by destruct w|]. by split. }
  unfold bind at 1. unfold Visualize.setSelectedContext at 1, update at 1.
  unfold bind at 1.
  set (w1 := with_state (Visualize.with_selectedContext v (state w)) w).
  assert (Hclean : exists st2 lu2,
            Visualize.run_cleanup w1
            = (Normal tt, mkEnv st2 (sent w) (console w) lu2 (minted w))
            /\ Visualize.selectedContext st2 = v).
  { unfold Visualize.run_cleanup. unfold bind at 1, get at 1.
    destruct (Visualize.cleanup (state w1)) as [[url|]|];
      eexists _, _; (split; [reflexivity|]); reflexivity. }
  destruct Hclean as (st2 & lu2 & -> & Hsel2).
  unfold Visualize.effect. unfold bind at 1, get at 1. cbn [state].
  rewrite Hsel2. unfold bind at 1.
  destruct (truthy v) eqn:Hv.
  - destruct (loadGraph_frame API_BASE_URL net false
                (mkEnv st2 (sent w) (console w) lu2 (minted w)))
      as (st3 & snap & lu3 & mi3 & -> & Hsel3 & _).
    cbn [state sent console] in *. rewrite Hsel2, Hv in *.
    eexists _, _, _, _. split; [reflexivity|]. split; [exact Hsel3|done].
  - eexists _, [], _, _. rewrite app_nil_r.
    split; [reflexivity|]. split; [exact Hsel2|done].
Qed.

Lemma run_cleanup_frame (w : Env Visualize.State) :
  exists st' lu,
    Visualize.run_cleanup w
    = (Normal tt, mkEnv st' (sent w) (console w) lu (minted w))
    /\ Visualize.selectedContext st' = Visualize.selectedContext (state w)
    /\ Visualize.graphUrl st' = Visualize.graphUrl (state w).
Proof.
  unfold Visualize.run_cleanup. unfold bind at 1, get at 1.
  destruct (Visualize.cleanup (state w)) as [[u|]|].
  - eexists _, _. split; [reflexivity|]. by split.
  - eexists _, _. split; [reflexivity|]. by split.
  - exists (state w), (live_urls w). split; [by destruct w|]. by split.
Qed.

(** The effect of the graph page returns normally, keeps the selection,
    and sends the request for the graph of the selected context exactly
    when one is selected. *)
Lemma effect_frame API_BASE_URL net (w : Env Visualize.State) :
  exists st' new lu mi,
    Visualize.effect API_BASE_URL net w
    = (Normal tt, mkEnv st' (sent w ++ new) (console w) lu mi)
    /\ Visualize.selectedContext st' = Visualize.selectedContext (state w)
    /\ fst <$> new
       = if truthy (Visualize.selectedContext (state w))
         then [Visualize.visualize_request API_BASE_URL
                 (Visualize.selectedContext (state w)) false]
         else [].
Proof.
  unfold Visualize.effect. unfold bind at 1, get at 1. unfold bind at 1.
  destruct (truthy (Visualize.selectedContext (state w))) eqn:Hctx.
  - destruct (loadGraph_frame API_BASE_URL net false w)
      as (st1 & snap & lu & mi & -> & Hsel & _).
    rewrite Hctx. eexists _, _, _, _. split; [reflexivity|].
    split; [exact Hsel|reflexivity].
  - eexists _, [], _, _. rewrite app_nil_r. split; [reflexivity|].
    by split.
Qed.

(** X10. Neither the first render of the graph page nor any event it
    handles afterwards (a change of context, a regeneration, the discarding
    of the view) sends more than one request, and every request sent is the
    GET of the graph of the context that is selected once the step is done,
    which is then truthy: nothing is requested while no context is
    selected.  The first render sends its request exactly when a context
    is already selected.  Deselecting and discarding the view send
    nothing.  Every step ends without an exception. *)
Theorem graph_requests_need_context
    (API_BASE_URL : jsstring) (net : network) (step : graph_step)
    (w : Env Visualize.State) :
  let w' := exec (graph_run API_BASE_URL net step) w in
  exists new,
    sent w' = sent w ++ new
    /\ (length new <= 1)%nat
    /\ (forall rq, rq ∈ (fst <$> new) ->
          truthy (Visualize.selectedContext (state w')) = true
          /\ exists force,
               rq = Visualize.visualize_request API_BASE_URL
                      (Visualize.selectedContext (state w')) force)
    /\ (step = Mount ->
        fst <$> new
        = if truthy (Visualize.selectedContext (state w))
          then [Visualize.visualize_request API_BASE_URL
                  (Visualize.selectedContext (state w)) false]
          else [])
    /\ (step = Later Visualize.Unmount
        \/ step = Later (Visualize.SelectContext None) ->
        new = [])
    /\ outcome (graph_run API_BASE_URL net step) w = Normal tt.
Proof.
  cbv zeta. unfold exec, outcome.
  destruct step as [|[v| |]]; cbn [graph_run Visualize.handle].
  - unfold Visualize.mount.
    destruct (effect_frame API_BASE_URL net w)
      as (st' & new & lu & mi & -> & Hsel & Hnew).
    cbn [snd fst state sent]. exists new.
    assert (Hlen : length new = length (fst <$> new))
      by (by rewrite length_fmap).
    rewrite Hnew in *. rewrite Hsel. split; [done|].
    destruct (truthy (Visualize.selectedContext (state w))) eqn:Hctx;
      cbn [length] in Hlen.
    + split; [lia|]. split.
      * intros rq ->%list_elem_of_singleton. split; [done|]. by exists false.
      * split; [done|]. split; [|done]. intros [?|?]; discriminate.
    + split; [lia|]. split; [by intros rq Hrq%elem_of_nil|].
      split; [done|]. split; [|done]. intros [?|?]; discriminate.
  - destruct (visualize_select_frame API_BASE_URL net v w)
      as (st' & new & lu & mi & -> & Hsel & Hnew).
    cbn [snd fst state sent]. exists new.
    assert (Hlen : length new = length (fst <$> new))
      by (by rewrite length_fmap).
    rewrite Hnew in *. split; [done|].
    destruct (decide (v = _)) as [Heq|Hne];
      [|destruct (truthy v) eqn:Hv]; cbn [length] in Hlen.
    + split; [lia|]. split; [by intros rq Hrq%elem_of_nil|].
      split; [discriminate|]. split; [|done]. intros _. by destruct new.
    + split; [lia|]. split.
      * intros rq ->%list_elem_of_singleton. rewrite Hsel.
        split; [done|]. by exists false.
      * split; [discriminate|]. split; [|done].
        intros [Hu|Hn]; [discriminate|].
        injection Hn as ->. by cbn in Hv.
    + split; [lia|]. split; [by intros rq Hrq%elem_of_nil|].
      split; [discriminate|]. split; [|done]. intros _. by destruct new.
  - rewrite handleRegenerate_run.
    destruct (loadGraph_frame API_BASE_URL net true
                (with_state (Visualize.with_regenerating true (state w)) w))
      as (st' & snap & lu & mi & -> & Hsel & _).
    cbn [snd fst state sent with_state Visualize.selectedContext
         Visualize.with_regenerating] in *.
    eexists. split; [reflexivity|]. rewrite Hsel.
    destruct (truthy (Visualize.selectedContext (state w))) eqn:Hctx.
    + split; [cbn; lia|]. split.
      * intros rq ->%list_elem_of_singleton. split; [done|]. by exists true.
      * split; [discriminate|]. split; [|done]. intros [?|?]; simplify_eq.
    + split; [cbn; lia|]. split; [by intros rq Hrq%elem_of_nil|].
      split; [discriminate|]. split; [|done]. intros [?|?]; simplify_eq.
  - unfold Visualize.unmount.
    destruct (run_cleanup_frame w) as (st' & lu & -> & _).
    cbn [snd fst sent]. exists []. rewrite app_nil_r.
    split; [reflexivity|]. split; [cbn; lia|].
    split; [by intros rq Hrq%elem_of_nil|]. split; [discriminate|].
    by split.
Qed.

Lemma graph_requests_need_context_witness :
  sent (exec (graph_run Sample.api Sample.graph_ready
                (Later (Visualize.SelectContext None)))
             Fixture.showing_graph)
  = [].
Proof.
  destruct (graph_requests_need_context Sample.api Sample.graph_ready
              (Later (Visualize.SelectContext None)) Fixture.showing_graph)
    as (new & Hsent & _ & _ & _ & Hnone & _).
  rewrite Hsent, Hnone; [reflexivity|]. right. reflexivity.
Defined.

(** ** The selector and its page agree on the selection *)

Lemma zoom_selecting {P} (sel_of : P -> option jsstring) (m : Js P unit)
    (v : option jsstring) :
  (forall wi : Env P,
     exists st' new c lu mi,
       m wi = (Normal tt, mkEnv st' (sent wi ++ new) c lu mi)
       /\ sel_of st' = v) ->
  forall w : Env (Page.Tree P),
    exists w1,
      zoom Page.page Page.put_page m w = (Normal tt, w1)
      /\ sel_of (Page.page (state w1)) = v
      /\ Page.selector (state w1) = Page.selector (state w).
Proof.
  intros Hm w.
  destruct (Hm (mkEnv (Page.page (state w))
                      ((fun e => (fst e, Page.page (snd e))) <$> sent w)
                      (console w) (live_urls w) (minted w)))
    as (st' & new & c & lu & mi & Hrun & Hsel).
  cbn [sent] in Hrun. eexists. split; [by apply zoom_run|]. by split.
Qed.

Lemma chat_selecting v (w : Env (Page.Tree Chat.State)) :
  exists w1,
    Page.chat_onContextChange v w = (Normal tt, w1)
    /\ Chat.selectedContext (Page.page (state w1)) = v
    /\ Page.selector (state w1) = Page.selector (state w).
Proof.
  apply zoom_selecting. intros wi.
  exists (Chat.with_selectedContext v (state wi)), [], (console wi),
    (live_urls wi), (minted wi).
  rewrite app_nil_r. by split.
Qed.

Lemma upload_selecting API_BASE_URL net v
    (w : Env (Page.Tree Upload.State)) :
  exists w1,
    Page.upload_onContextChange API_BASE_URL net v w = (Normal tt, w1)
    /\ Upload.selectedContext (Page.page (state w1)) = v
    /\ Page.selector (state w1) = Page.selector (state w).
Proof.
  apply zoom_selecting. intros wi. unfold bind at 1, get at 1.
  destruct (decide (v = Upload.selectedContext (state wi))) as [Heq|Hne].
  { exists (state wi), [], (console wi), (live_urls wi), (minted wi).
    rewrite app_nil_r. split; [by destruct wi|done]. }
  unfold bind at 1. unfold Upload.setSelectedContext, update at 1.
  destruct (truthy v).
  - destruct (fetchVariables_frame API_BASE_URL net
                (with_state (Upload.with_selectedContext v (state wi)) wi))
      as (st' & snap & -> & _ & Hsel).
    eexists _, _, _, _, _. split; [reflexivity|exact Hsel].
  - eexists _, [], _, _, _. rewrite app_nil_r. split; reflexivity.
Qed.

Lemma visualize_selecting API_BASE_URL net v
    (w : Env (Page.Tree Visualize.State)) :
  exists w1,
    Page.visualize_onContextChange API_BASE_URL net v w = (Normal tt, w1)
    /\ Visualize.selectedContext (Page.page (state w1)) = v
    /\ Page.selector (state w1) = Page.selector (state w).
Proof.
  apply zoom_selecting. intros wi.
  destruct (visualize_select_frame API_BASE_URL net v wi)
    as (st' & new & lu & mi & -> & Hsel & _).
  eexists _, _, _, _, _. split; [reflexivity|exact Hsel].
Qed.

Lemma handleSelect_run {P} onContextChange chosen (w : Env (Page.Tree P)) :
  let v := if truthy chosen then chosen else None in
  ContextSelector.handleSelect Page.selector Page.put_selector
    onContextChange chosen w
  = onContextChange v
      (with_state
         (Page.put_selector
            (ContextSelector.with_selectedContext v (Page.selector (state w)))
            (state w)) w).
Proof. reflexivity. Qed.

(** X11. Choosing an option in the select box leaves the selector and the
    page that mounts it with one and the same selection, in the chat page,
    the upload page and the graph page alike: the chosen value, or [null]
    when nothing or the empty string is chosen, so the selection is never
    the empty string.  The context list is not touched. *)
Theorem select_keeps_selector_and_page_in_step
    (API_BASE_URL : jsstring) (net : network) (chosen : option jsstring) :
  let v := if truthy chosen then chosen else None in
  let agree {P} (sel_of : P -> option jsstring)
        (onContextChange : option jsstring -> Js (Page.Tree P) unit)
        (w : Env (Page.Tree P)) :=
    let run := ContextSelector.handleSelect Page.selector Page.put_selector
                 onContextChange chosen in
    ContextSelector.selectedContext (Page.selector (state (exec run w))) = v
    /\ sel_of (Page.page (state (exec run w))) = v
    /\ ContextSelector.contexts (Page.selector (state (exec run w)))
       = ContextSelector.contexts (Page.selector (state w))
    /\ outcome run w = Normal tt in
  v <> Some []
  /\ (forall w, agree Chat.selectedContext Page.chat_onContextChange w)
  /\ (forall w, agree Upload.selectedContext
                  (Page.upload_onContextChange API_BASE_URL net) w)
  /\ (forall w, agree Visualize.selectedContext
                  (Page.visualize_onContextChange API_BASE_URL net) w).
Proof.
  cbv zeta. split; [by destruct chosen as [[|? ?]|]|].
  split; [|split]; intros w; unfold exec, outcome; rewrite handleSelect_run;
    cbv zeta.
  - destruct (chat_selecting (if truthy chosen then chosen else None)
                (with_state
                   (Page.put_selector
                      (ContextSelector.with_selectedContext
                         (if truthy chosen then chosen else None)
                         (Page.selector (state w))) (state w)) w))
      as (w1 & -> & Hpage & Hsel).
    cbn [snd fst]. rewrite Hsel. by repeat split.
  - destruct (upload_selecting API_BASE_URL net
                (if truthy chosen then chosen else None)
                (with_state
                   (Page.put_selector
                      (ContextSelector.with_selectedContext
                         (if truthy chosen then chosen else None)
                         (Page.selector (state w))) (state w)) w))
      as (w1 & -> & Hpage & Hsel).
    cbn [snd fst]. rewrite Hsel. by repeat split.
  - destruct (visualize_selecting API_BASE_URL net
                (if truthy chosen then chosen else None)
                (with_state
                   (Page.put_selector
                      (ContextSelector.with_selectedContext
                         (if truthy chosen then chosen else None)
                         (Page.selector (state w))) (state w)) w))
      as (w1 & -> & Hpage & Hsel).
    cbn [snd fst]. rewrite Hsel. by repeat split.
Qed.

(** ** Creating, selecting and deleting a context *)

Lemma bind_normal {S A B} (m : Js S A) (k : A -> Js S B) w a w1 :
  m w = (Normal a, w1) -> bind m k w = k a w1.
Proof. intros H. unfold bind. by rewrite H. Qed.

Lemma filter_drops_new_context s fields (l : list json) :
  lookup_field (str "id") fields = Some (JStr s) ->
  Forall (fun c => has_id s c = false) l ->
  filter (fun c => has_id s c = false) (l ++ [JObj fields]) = l.
Proof.
  intros Hid Hl. rewrite filter_app.
  assert (Hkeep : filter (fun c => has_id s c = false) l = l).
  { induction Hl as [|c l Hc Hl IH]; [done|].
    rewrite filter_cons. case_decide; [by rewrite IH|done]. }
  rewrite Hkeep, filter_cons, filter_nil. case_decide as Hnew.
  - simpl in Hnew. rewrite Hid in Hnew. simpl in Hnew.
    by rewrite bool_decide_eq_true_2 in Hnew.
  - by rewrite app_nil_r.
Qed.

(** X12. Creating a context, selecting it and deleting it gives back the
    list one started from.  When the backend answers the creation with an
    object whose [id] is a non-empty string that no listed context has,
    the user then chooses that context and confirms its deletion, and the
    backend answers the deletion with a success status, the context list
    is again what it was before the creation, and the selection of the
    selector and of the chat page is [null]. *)
Theorem create_select_delete_round_trip
    (API_BASE_URL : jsstring) (net : network) (confirm : jsstring -> bool)
    (w : Env (Page.Tree Chat.State)) (r1 r2 : response)
    (fields : list (jsstring * json)) (s : jsstring) :
  let st := Page.selector (state w) in
  net (length (sent w)) (ContextSelector.create_request API_BASE_URL st)
  = Resolved r1 ->
  json_body r1 = inr (JObj fields) ->
  lookup_field (str "id") fields = Some (JStr s) ->
  s <> [] ->
  Forall (fun c => c <> JNull) (ContextSelector.contexts st) ->
  Forall (fun c => has_id s c = false) (ContextSelector.contexts st) ->
  confirm ContextSelector.delete_prompt = true ->
  net (Datatypes.S (length (sent w)))
      {| method := DELETE;
         url := API_BASE_URL ++ str "/contexts/" ++ s;
         body := NoBody |}
  = Resolved r2 ->
  ok r2 = true ->
  let session :=
    (Page.handleCreateContext API_BASE_URL net >>
     ContextSelector.handleSelect Page.selector Page.put_selector
       Page.chat_onContextChange (Some s) >>
     Page.handleDeleteContext API_BASE_URL net confirm
       Page.chat_onContextChange)%js in
  let w' := exec session w in
  ContextSelector.contexts (Page.selector (state w'))
  = ContextSelector.contexts st
  /\ ContextSelector.selectedContext (Page.selector (state w')) = None
  /\ Chat.selectedContext (Page.page (state w')) = None
  /\ length (sent w') = (length (sent w) + 2)%nat
  /\ outcome session w = Normal tt.
Proof.
  intros st Hnet1 Hjson Hid Hs Hdocs Hfresh Hyes Hnet2 Hok session w'.
  assert (Hcreate := handleCreateContext_run API_BASE_URL net w).
  cbv zeta in Hcreate. fold st in Hcreate. rewrite Hnet1, Hjson in Hcreate.
  match type of Hcreate with _ = (_, ?e) => set (w1 := e) in * end.
  assert (Hselect := handleSelect_run Page.chat_onContextChange (Some s) w1).
  assert (Ht : truthy (Some s) = true) by (by destruct s).
  cbv zeta in Hselect. rewrite Ht in Hselect.
  rewrite chat_onContextChange_run in Hselect.
  match type of Hselect with _ = (_, ?e) => set (w2 := e) in * end.
  assert (Hdelete := handleDeleteContext_done API_BASE_URL net confirm s
                       Page.chat_onContextChange w2).
  unfold try_catch in Hdelete. rewrite chat_onContextChange_run in Hdelete.
  assert (Hrun : session w = (Normal tt, snd (session w))
                 /\ ContextSelector.contexts
                      (Page.selector (state (snd (session w))))
                    = ContextSelector.contexts st
                 /\ ContextSelector.selectedContext
                      (Page.selector (state (snd (session w)))) = None
                 /\ Chat.selectedContext
                      (Page.page (state (snd (session w)))) = None
                 /\ length (sent (snd (session w)))
                    = (length (sent w) + 2)%nat).
  { subst session. cbv beta.
    rewrite (bind_normal _ _ _ _ _ Hcreate).
    rewrite (bind_normal _ _ _ _ _ Hselect).
    rewrite Hdelete.
    - cbn [snd fst state sent with_state Page.selector Page.page
           Page.put_page Page.put_selector selector_without w1 w2
           ContextSelector.contexts ContextSelector.selectedContext
           ContextSelector.with_contexts
           ContextSelector.with_selectedContext ContextSelector.with_loading
           ContextSelector.with_newContextDescription
           ContextSelector.with_newContextName
           ContextSelector.with_isCreateModalVisible
           Chat.selectedContext Chat.with_selectedContext].
      rewrite filter_drops_new_context by done.
      rewrite !length_app. cbn [length]. repeat split. lia.
    - subst w1 w2.
      cbn [state sent with_state Page.selector Page.page Page.put_page
           Page.put_selector].
      split; [reflexivity|]. split; [exact Hs|]. split; [exact Hyes|].
      split.
      + cbn. apply Forall_app. split; [exact Hdocs|]. by repeat constructor.
      + exists r2. split; [|exact Hok].
        cbn [state sent with_state].
        rewrite length_app. cbn [length]. rewrite Nat.add_1_r. exact Hnet2. }
  subst w'. unfold exec, outcome.
  destruct Hrun as (Hrun & H1 & H2 & H3 & H4). rewrite Hrun at 5.
  by repeat split.
Qed.

Lemma create_select_delete_round_trip_witness :
  ContextSelector.contexts
    (Page.selector
       (state
          (exec
             (Page.handleCreateContext Sample.api Fixture.creates_c3 >>
              ContextSelector.handleSelect Page.selector Page.put_selector
                Page.chat_onContextChange (Some (str "c3")) >>
              Page.handleDeleteContext Sample.api Fixture.creates_c3
                Sample.yes Page.chat_onContextChange)%js
             Sample.creating)))
  = [Sample.context "c1" "papers"; Sample.context "c2" "manuals"].
Proof.
  destruct (create_select_delete_round_trip Sample.api Fixture.creates_c3
              Sample.yes Sample.creating
              {| ok := true;
                 json_body := inr (Sample.context "c3" "notes");
                 blob_body := inr [] |}
              {| ok := true;
                 json_body :=
                   inr (JObj [(str "message", JStr (str "deleted"))]);
                 blob_body := inr [] |}
              [(str "id", JStr (str "c3")); (str "name", JStr (str "notes"));
               (str "created_at", JStr (str "2024-11-05T10:00:00"))]
              (str "c3"))
    as (Hlist & _).
  - reflexivity.
  - reflexivity.
  - reflexivity.
  - vm_compute. discriminate.
  - repeat constructor; discriminate.
  - repeat constructor.
  - reflexivity.
  - reflexivity.
  - reflexivity.
  - exact Hlist.
Defined.

(** * Generated contents *)

Section GeneratedFiles.
Import GeneratedContents.
Variable API_BASE_URL : jsstring.
Variable net : network.

Lemma fetchFileContent_run filename (w : Env State) :
  fetchFileContent API_BASE_URL net filename w
  = if loaded (fileContents (state w)) filename then (Normal tt, w) else
    match net (length (sent w))
              (content_request API_BASE_URL (selectedContext (state w))
                 filename) with
    | Rejected e => content_failed API_BASE_URL filename w e
    | Resolved r =>
        if ok r then
          match json_body r with
          | inl e => content_failed API_BASE_URL filename w e
          | inr data =>
              match get_prop data (str "content") with
              | Throw e => content_crashed API_BASE_URL filename w e
              | Normal content =>
                  content_stored API_BASE_URL filename w content
              end
          end
        else
          content_failed API_BASE_URL filename w
            (ErrorObj (str "Failed to fetch " ++ filename))
    end.
Proof.
  unfold fetchFileContent. unfold bind at 1, get at 1.
  destruct (loaded _ _); [reflexivity|].
  unfold bind at 1. unfold setLoadingFile at 1, update at 1.
  unfold try_finally, try_catch. unfold bind at 1. unfold fetch.
  cbn [state sent console live_urls minted with_state].
  destruct (net _ _) as [e|r]; [reflexivity|].
  unfold bind at 1. destruct (ok r); cbn [negb]; [|reflexivity].
  unfold ret at 1. unfold bind at 1, json_of.
  destruct (json_body r) as [e|data]; [reflexivity|].
  unfold ret at 1. unfold bind at 1.
  unfold setFileContents_by at 1, update at 1.
  cbn [state sent console live_urls minted with_state].
  destruct (get_prop data (str "content")) as [content|e]; reflexivity.
Qed.

(** [fetchAvailableFiles] returns normally and writes only the file list
    and the error. *)
Lemma fetchAvailableFiles_frame (w : Env State) :
  exists files err snap,
    fetchAvailableFiles API_BASE_URL net w
    = (Normal tt,
       mkEnv (with_availableFiles files (with_error err (state w)))
             (sent w ++ [(files_request API_BASE_URL
                            (selectedContext (state w)), snap)])
             (console w) (live_urls w) (minted w)).
Proof.
  unfold fetchAvailableFiles. unfold bind at 1, get at 1.
  unfold try_catch. unfold bind at 1. unfold fetch.
  destruct (net _ _) as [e|r]; [by eexists _, _, _|].
  unfold bind at 1. destruct (ok r); cbn [negb]; [|by eexists _, _, _].
  unfold ret at 1. unfold bind at 1, json_of.
  destruct (json_body r) as [e|data]; [by eexists _, _, _|].
  unfold ret at 1. unfold bind at 1, lift at 1.
  destruct (get_prop data (str "files")) as [files|e]; by eexists _, _, _.
Qed.

Lemma onContextChange_keeps_contents v (w : Env State) :
  fileContents (state (exec (onContextChange API_BASE_URL net v) w))
  = fileContents (state w).
Proof.
  unfold exec, onContextChange. unfold bind at 1, get at 1.
  destruct (decide _); [reflexivity|].
  unfold bind at 1. unfold setSelectedContext at 1, update at 1.
  destruct (truthy v); [|reflexivity].
  destruct (fetchAvailableFiles_frame
              (with_state (with_selectedContext v (state w)) w))
    as (files & err & snap & ->).
  reflexivity.
Qed.
End GeneratedFiles.

(** X13. Storing a file.  When a file is not yet loaded and the backend
    answers the request for it with a success status and a document,
    [fetchFileContent] sends that one request, for the selected context
    and the file, and stores the [content] property under the name of the
    file: reading the name then yields that content, reading any other name
    yields what it did before; the error is cleared and no file is left
    marked as loading. *)
Theorem file_content_is_stored
    (API_BASE_URL : jsstring) (net : network) (filename : jsstring)
    (w : Env GeneratedContents.State) (content : jsval) :
  let st := state w in
  let rq := GeneratedContents.content_request API_BASE_URL
              (GeneratedContents.selectedContext st) filename in
  GeneratedContents.loaded (GeneratedContents.fileContents st) filename
  = false ->
  content_arrives content (net (length (sent w)) rq) ->
  let w' := exec (GeneratedContents.fetchFileContent API_BASE_URL net
                    filename) w in
  GeneratedContents.fileContents (state w') !! filename = Some content
  /\ (forall other, other <> filename ->
        GeneratedContents.fileContents (state w') !! other
        = GeneratedContents.fileContents st !! other)
  /\ GeneratedContents.loaded
       (GeneratedContents.fileContents (state w')) filename
     = truthy_val content
  /\ GeneratedContents.error (state w') = None
  /\ GeneratedContents.loadingFile (state w') = None
  /\ fst <$> sent w' = (fst <$> sent w) ++ [rq].
Proof.
  intros st rq Hnew (r & data & Hnet & Hok & Hjson & Hc) w'.
  subst w'. unfold exec. rewrite fetchFileContent_run.
  fold st rq. rewrite Hnew, Hnet, Hok, Hjson, Hc.
  cbn [content_stored snd state sent GeneratedContents.fileContents
       GeneratedContents.with_loadingFile GeneratedContents.with_error
       GeneratedContents.with_fileContents GeneratedContents.error
       GeneratedContents.loadingFile].
  rewrite fmap_app. unfold GeneratedContents.loaded.
  rewrite lookup_insert_eq. repeat split.
  intros other Hother. by rewrite lookup_insert_ne.
Qed.

Lemma file_content_is_stored_witness :
  GeneratedContents.fileContents
    (state (exec (GeneratedContents.fetchFileContent Sample.api
                    (Fixture2.serving "[1]") (str "vdb_entities.json"))
                 Fixture2.browsing))
  !! str "vdb_entities.json"
  = Some (Some (JStr (str "[1]"))).
Proof.
  destruct (file_content_is_stored Sample.api (Fixture2.serving "[1]")
              (str "vdb_entities.json") Fixture2.browsing
              (Some (JStr (str "[1]")))) as (Hread & _).
  - vm_compute. reflexivity.
  - eexists _, _. repeat split.
  - exact Hread.
Defined.

(** X14. A failed fetch of a file.  When a file is not yet loaded and its
    request is rejected, answered with a non-success status, or answered
    with a body that does not parse, [fetchFileContent] stores nothing: the
    loaded contents and the file list are as before; the error shown is the
    message of the failure, which for a non-success status is ["Failed to
    fetch "] followed by the name of the file; no file is left marked as
    loading and the handler returns normally.  When the answer is a success
    whose body parses to [null], the read of its content throws inside the
    function queued with [setFileContents], which the [catch] of the
    handler does not see: nothing is stored either, but the error is
    cleared as after a success, and the exception is the one the next
    render fails with. *)
Theorem file_content_failure_stores_nothing
    (API_BASE_URL : jsstring) (net : network) (filename : jsstring)
    (w : Env GeneratedContents.State) (e : js_exn) :
  let st := state w in
  let rq := GeneratedContents.content_request API_BASE_URL
              (GeneratedContents.selectedContext st) filename in
  let o := net (length (sent w)) rq in
  let run := GeneratedContents.fetchFileContent API_BASE_URL net filename in
  let st' := state (exec run w) in
  GeneratedContents.loaded (GeneratedContents.fileContents st) filename
  = false ->
  (content_fails filename e o ->
   GeneratedContents.fileContents st' = GeneratedContents.fileContents st
   /\ GeneratedContents.availableFiles st'
      = GeneratedContents.availableFiles st
   /\ GeneratedContents.error st'
      = Some (message_or e (str "An error occurred"))
   /\ GeneratedContents.renderError st' = GeneratedContents.renderError st
   /\ GeneratedContents.loadingFile st' = None
   /\ fst <$> sent (exec run w) = (fst <$> sent w) ++ [rq]
   /\ outcome run w = Normal tt)
  /\ (content_unreadable e o ->
      GeneratedContents.fileContents st' = GeneratedContents.fileContents st
      /\ GeneratedContents.availableFiles st'
         = GeneratedContents.availableFiles st
      /\ GeneratedContents.error st' = None
      /\ GeneratedContents.renderError st' = Some e
      /\ GeneratedContents.loadingFile st' = None
      /\ fst <$> sent (exec run w) = (fst <$> sent w) ++ [rq]
      /\ outcome run w = Normal tt).
Proof.
  intros st rq o run st' Hnew. subst st' run o. unfold exec, outcome.
  rewrite fetchFileContent_run. fold st rq. rewrite Hnew. split.
  - intros [->|[(r & -> & -> & ->)|(r & -> & -> & ->)]];
      cbn [content_failed snd fst state sent]; rewrite fmap_app;
      by repeat split.
  - intros (r & data & -> & -> & -> & ->).
    cbn [content_crashed snd fst state sent]. rewrite fmap_app.
    by repeat split.
Qed.

Lemma file_content_failure_stores_nothing_witness :
  GeneratedContents.error
    (state (exec (GeneratedContents.fetchFileContent Sample.api
                    Sample.refusing (str "vdb_entities.json"))
                 Fixture2.browsing))
  = Some (str "Failed to fetch " ++ str "vdb_entities.json")
  /\ GeneratedContents.renderError
       (state (exec (GeneratedContents.fetchFileContent Sample.api
                       Fixture2.serving_null (str "vdb_entities.json"))
                    Fixture2.browsing))
     = Some (ErrorObj
               (str "Cannot read properties of null (reading 'content')")).
Proof.
  split.
  - destruct (file_content_failure_stores_nothing Sample.api Sample.refusing
                (str "vdb_entities.json") Fixture2.browsing
                (ErrorObj
                   (str "Failed to fetch " ++ str "vdb_entities.json")))
      as [Hfails _].
    + vm_compute. reflexivity.
    + destruct Hfails as (_ & _ & Herr & _).
      * right. left. eexists. repeat split.
      * exact Herr.
  - destruct (file_content_failure_stores_nothing Sample.api
                Fixture2.serving_null (str "vdb_entities.json")
                Fixture2.browsing
                (ErrorObj
                   (str "Cannot read properties of null (reading 'content')")))
      as [_ Hnull].
    + vm_compute. reflexivity.
    + destruct Hnull as (_ & _ & _ & Hrender & _).
      * eexists _, _. repeat split.
      * exact Hrender.
Defined.

(** X15. The contents are cached by file name alone.  Once a file is
    loaded with a truthy content, [fetchFileContent] for it does nothing
    and sends nothing, and this stays so after the selected context has
    changed, to whatever value: the change of context lists the files anew
    but leaves the loaded contents as they are, so clicking the tab of
    that file only makes it the active tab and shows the content loaded
    for the earlier context. *)
Theorem loaded_file_is_never_refetched
    (API_BASE_URL : jsstring) (net : network) (filename : jsstring)
    (v : option jsstring) (w : Env GeneratedContents.State) :
  GeneratedContents.loaded
    (GeneratedContents.fileContents (state w)) filename = true ->
  let w1 := exec (GeneratedContents.onContextChange API_BASE_URL net v) w in
  GeneratedContents.fetchFileContent API_BASE_URL net filename w
  = (Normal tt, w)
  /\ GeneratedContents.fileContents (state w1)
     = GeneratedContents.fileContents (state w)
  /\ GeneratedContents.fetchFileContent API_BASE_URL net filename w1
     = (Normal tt, w1)
  /\ GeneratedContents.handleTabChange API_BASE_URL net filename w1
     = (Normal tt,
        with_state (GeneratedContents.with_activeTabId filename (state w1))
                   w1).
Proof.
  intros Hloaded w1.
  assert (Hkeep := onContextChange_keeps_contents API_BASE_URL net v w).
  fold w1 in Hkeep.
  split; [by rewrite fetchFileContent_run, Hloaded|].
  split; [exact Hkeep|].
  split; [by rewrite fetchFileContent_run, Hkeep, Hloaded|].
  unfold GeneratedContents.handleTabChange.
  unfold bind, GeneratedContents.setActiveTabId, update.
  rewrite fetchFileContent_run.
  cbn [state with_state GeneratedContents.fileContents
       GeneratedContents.with_activeTabId].
  by rewrite Hkeep, Hloaded.
Qed.

Lemma loaded_file_is_never_refetched_witness :
  let w1 := exec (GeneratedContents.onContextChange Sample.api
                    (Fixture2.serving "[]") (Some (str "c2")))
                 Fixture2.browsing in
  GeneratedContents.fetchFileContent Sample.api (Fixture2.serving "[]")
    (str "vdb_chunks.json") w1
  = (Normal tt, w1).
Proof.
  destruct (loaded_file_is_never_refetched Sample.api (Fixture2.serving "[]")
              (str "vdb_chunks.json") (Some (str "c2")) Fixture2.browsing)
    as (_ & _ & Hskip & _).
  - vm_compute. reflexivity.
  - exact Hskip.
Defined.

(** X16. A falsy content is never cached.  After a file was fetched and
    stored, a second [fetchFileContent] for it sends a second request
    exactly when the stored content is falsy (the empty string, [null], a
    missing [content] property): with a truthy content the two calls send
    one request, with a falsy one they send two. *)
Theorem falsy_content_is_fetched_again
    (API_BASE_URL : jsstring) (net : network) (filename : jsstring)
    (w : Env GeneratedContents.State) (content : jsval) :
  let st := state w in
  let run := GeneratedContents.fetchFileContent API_BASE_URL net filename in
  GeneratedContents.loaded (GeneratedContents.fileContents st) filename
  = false ->
  content_arrives content
    (net (length (sent w))
         (GeneratedContents.content_request API_BASE_URL
            (GeneratedContents.selectedContext st) filename)) ->
  length (sent (exec run (exec run w)))
  = (length (sent w) + if truthy_val content then 1 else 2)%nat.
Proof.
  intros st run Hnew (r & data & Hnet & Hok & Hjson & Hc). subst run.
  unfold exec. rewrite (fetchFileContent_run _ _ _ w).
  fold st. rewrite Hnew, Hnet, Hok, Hjson, Hc.
  cbn [content_stored snd]. rewrite fetchFileContent_run.
  cbn [state sent GeneratedContents.fileContents
       GeneratedContents.with_loadingFile GeneratedContents.with_error
       GeneratedContents.with_fileContents
       GeneratedContents.selectedContext].
  unfold GeneratedContents.loaded at 1. rewrite lookup_insert_eq.
  destruct (truthy_val content).
  - cbn [snd sent]. rewrite length_app. reflexivity.
  - rewrite length_app. cbn [length].
    destruct (net (length (sent w) + 1)%nat _) as [e|r'];
      [|destruct (ok r');
        [destruct (json_body r') as [e|data'];
         [|destruct (get_prop data' (str "content"))]|]];
      cbn [content_failed content_stored content_crashed snd sent];
      rewrite ?length_app; cbn [length]; lia.
Qed.

Lemma falsy_content_is_fetched_again_witness :
  length
    (sent (exec (GeneratedContents.fetchFileContent Sample.api
                   (Fixture2.serving "") (str "vdb_entities.json"))
             (exec (GeneratedContents.fetchFileContent Sample.api
                      (Fixture2.serving "") (str "vdb_entities.json"))
                   Fixture2.browsing)))
  = 2%nat.
Proof.
  apply (falsy_content_is_fetched_again Sample.api (Fixture2.serving "")
           (str "vdb_entities.json") Fixture2.browsing
           (Some (JStr (str "")))).
  - vm_compute. reflexivity.
  - eexists _, _. repeat split.
Defined.

Lemma fetchAvailableFiles_run API_BASE_URL net
    (w : Env GeneratedContents.State) :
  GeneratedContents.fetchAvailableFiles API_BASE_URL net w
  = match net (length (sent w))
              (GeneratedContents.files_request API_BASE_URL
                 (GeneratedContents.selectedContext (state w))) with
    | Rejected e => listing_failed API_BASE_URL w e
    | Resolved r =>
        if ok r then
          match json_body r with
          | inl e => listing_failed API_BASE_URL w e
          | inr data =>
              match get_prop data (str "files") with
              | Throw e => listing_failed API_BASE_URL w e
              | Normal files => listing_done API_BASE_URL w files
              end
          end
        else
          listing_failed API_BASE_URL w
            (ErrorObj (str "Failed to fetch file list"))
    end.
Proof.
  unfold GeneratedContents.fetchAvailableFiles. unfold bind at 1, get at 1.
  unfold try_catch. unfold bind at 1. unfold fetch.
  destruct (net _ _) as [e|r]; [reflexivity|].
  unfold bind at 1. destruct (ok r); cbn [negb]; [|reflexivity].
  unfold ret at 1. unfold bind at 1, json_of.
  destruct (json_body r) as [e|data]; [reflexivity|].
  unfold ret at 1. unfold bind at 1, lift at 1.
  destruct (get_prop data (str "files")) as [files|e]; reflexivity.
Qed.

(** X17. Listing the files.  [fetchAvailableFiles] sends one GET for the
    files of the selected context.  When the listing fails (rejected
    request, non-success status, a body that is no document) the file list
    becomes the empty array and the message of the failure is shown, which
    for a non-success status is ["Failed to fetch file list"]; when a
    document arrives with a success status its [files] property becomes the
    file list and the error is cleared.  Either way the loaded contents and
    the active tab are left alone and the handler returns normally. *)
Theorem file_listing_effects
    (API_BASE_URL : jsstring) (net : network)
    (w : Env GeneratedContents.State) :
  let st := state w in
  let rq := GeneratedContents.files_request API_BASE_URL
              (GeneratedContents.selectedContext st) in
  let o := net (length (sent w)) rq in
  let run := GeneratedContents.fetchAvailableFiles API_BASE_URL net in
  let st' := state (exec run w) in
  (forall e, listing_fails e o ->
     GeneratedContents.availableFiles st' = Some (JArr [])
     /\ GeneratedContents.error st'
        = Some (message_or e (str "An error occurred")))
  /\ (forall r data files,
        o = Resolved r -> ok r = true -> json_body r = inr data ->
        get_prop data (str "files") = Normal files ->
        GeneratedContents.availableFiles st' = files
        /\ GeneratedContents.error st' = None)
  /\ GeneratedContents.fileContents st' = GeneratedContents.fileContents st
  /\ GeneratedContents.activeTabId st' = GeneratedContents.activeTabId st
  /\ fst <$> sent (exec run w) = (fst <$> sent w) ++ [rq]
  /\ outcome run w = Normal tt.
Proof.
  cbv zeta. unfold exec, outcome. rewrite fetchAvailableFiles_run.
  split; [|split].
  - intros e [->|[(r & -> & -> & ->)|[(r & -> & -> & ->)
                 |(r & data & -> & -> & -> & ->)]]]; by split.
  - intros r data files -> -> -> ->. by split.
  - destruct (net _ _) as [e|r];
      [|destruct (ok r);
        [destruct (json_body r) as [e|data];
         [|destruct (get_prop data (str "files")) as [files|e]]|]];
      cbn [listing_failed listing_done snd fst state sent];
      rewrite fmap_app; by repeat split.
Qed.

Lemma file_listing_effects_witness :
  GeneratedContents.availableFiles
    (state (exec (GeneratedContents.fetchAvailableFiles Sample.api
                    Sample.offline) Fixture2.browsing))
  = Some (JArr []).
Proof.
  destruct (file_listing_effects Sample.api Sample.offline Fixture2.browsing)
    as (Hfail & _).
  destruct (Hfail (ErrorObj (str "Failed to fetch"))) as [Hlist _].
  - left. reflexivity.
  - exact Hlist.
Defined.

(** * Text upload and clearing *)

Lemma get_prop_null k : exists e, get_prop JNull k = Throw e.
Proof. by eexists. Qed.

Lemma handleTextUpload_run API_BASE_URL net (w : Env Forms.Cells) :
  Forms.handleTextUpload API_BASE_URL net w
  = if negb (truthy_string (trim (Forms.text (state w))))
       || negb (truthy (Forms.selectedContext (state w)))
    then (Normal tt, w)
    else
      match net (length (sent w))
                (Forms.insert_request API_BASE_URL (state w)) with
      | Rejected e => text_upload_failed API_BASE_URL w
      | Resolved r =>
          match json_body r with
          | inl e => text_upload_failed API_BASE_URL w
          | inr data =>
              match get_prop data (str "message") with
              | Throw e => text_upload_failed API_BASE_URL w
              | Normal message => text_upload_done API_BASE_URL w message
              end
          end
      end.
Proof.
  unfold Forms.handleTextUpload. unfold bind at 1, get at 1.
  destruct (_ || _); [reflexivity|].
  unfold bind at 1. unfold Forms.setLoading at 1, update at 1.
  unfold bind at 1. unfold try_catch. unfold bind at 1. unfold fetch.
  cbn [state sent console live_urls minted with_state].
  destruct (net _ _) as [e|r]; [reflexivity|].
  unfold bind at 1, json_of. destruct (json_body r) as [e|data];
    [reflexivity|].
  unfold ret at 1. unfold bind at 1, lift at 1.
  destruct (get_prop data (str "message")); reflexivity.
Qed.

Lemma handleClear_run API_BASE_URL net (w : Env Forms.Cells) :
  Forms.handleClear API_BASE_URL net w
  = if negb (truthy (Forms.selectedContext (state w)))
    then (Normal tt, w)
    else
      match net (length (sent w))
                (Forms.clear_request API_BASE_URL (state w)) with
      | Rejected e => clear_failed API_BASE_URL w
      | Resolved r =>
          match json_body r with
          | inl e => clear_failed API_BASE_URL w
          | inr data =>
              match get_prop data (str "message") with
              | Throw e => clear_failed API_BASE_URL w
              | Normal message => clear_done API_BASE_URL w message
              end
          end
      end.
Proof.
  unfold Forms.handleClear. unfold bind at 1, get at 1.
  destruct (negb _); [reflexivity|].
  unfold bind at 1. unfold Forms.setClearLoading at 1, update at 1.
  unfold bind at 1. unfold try_catch. unfold bind at 1. unfold fetch.
  cbn [state sent console live_urls minted with_state].
  destruct (net _ _) as [e|r]; [reflexivity|].
  unfold bind at 1, json_of. destruct (json_body r) as [e|data];
    [reflexivity|].
  unfold ret at 1. unfold bind at 1, lift at 1.
  destruct (get_prop data (str "message")); reflexivity.
Qed.

(** X18. Uploading a text.  [handleTextUpload] does nothing, and sends
    nothing, when the text is empty or white space only or no context is
    selected.  Otherwise it sends one POST carrying the text as typed.
    When a document comes back, whatever the status of the response, its
    [message] property is shown without the error flag and the text box is
    emptied; when no document comes back the text is kept and the fixed
    message ["Error uploading text"] is shown as an error.  In both cases
    [loading] ends off, the chosen files and the tag buffer are untouched,
    and the handler returns normally. *)
Theorem text_upload_effects
    (API_BASE_URL : jsstring) (net : network) (w : Env Forms.Cells) :
  let st := state w in
  let rq := Forms.insert_request API_BASE_URL st in
  let o := net (length (sent w)) rq in
  let run := Forms.handleTextUpload API_BASE_URL net in
  let st' := state (exec run w) in
  (Forall (fun c => is_white_space c = true) (Forms.text st)
   \/ truthy (Forms.selectedContext st) = false ->
   run w = (Normal tt, w))
  /\ (trim (Forms.text st) <> [] ->
      truthy (Forms.selectedContext st) = true ->
      fst <$> sent (exec run w) = (fst <$> sent w) ++ [rq]
      /\ body rq = JsonBody (JObj [(str "text", JStr (Forms.text st))])
      /\ Forms.loading st' = false
      /\ Forms.files st' = Forms.files st
      /\ Forms.tags st' = Forms.tags st
      /\ outcome run w = Normal tt
      /\ (forall message, document_with_message message o ->
            Forms.text st' = []
            /\ Forms.message st' = message
            /\ Forms.isError st' = false)
      /\ (no_document o ->
            Forms.text st' = Forms.text st
            /\ Forms.message st' = Some (JStr (str "Error uploading text"))
            /\ Forms.isError st' = true)).
Proof.
  cbv zeta. unfold exec, outcome. rewrite handleTextUpload_run. split.
  - intros [H|H].
    + apply trim_nil_iff in H. by rewrite H.
    + rewrite H. by rewrite orb_true_r.
  - intros Hq Hctx. apply truthy_string_spec in Hq. rewrite Hq, Hctx.
    cbn [negb orb].
    repeat match goal with |- _ /\ _ => split end.
    2: reflexivity.
    1-5: destruct (net (length (sent w)) _) as [e|r];
         [|destruct (json_body r) as [e|data];
           [|destruct (get_prop data (str "message"))]];
         cbn [text_upload_failed text_upload_done snd fst state sent];
         rewrite ?fmap_app; reflexivity.
    + intros message (r & data & -> & -> & ->). by repeat split.
    + intros [(e & ->)|[(r & e & -> & ->)|(r & -> & ->)]]; by repeat split.
Qed.

Lemma text_upload_effects_witness :
  let w' := exec (Forms.handleTextUpload Sample.api Fixture3.acknowledging)
                 Fixture3.typing in
  Forms.text (state w') = []
  /\ Forms.message (state w') = Some (JStr (str "done")).
Proof.
  destruct (text_upload_effects Sample.api Fixture3.acknowledging
              Fixture3.typing) as [_ Hsent].
  destruct Hsent as (_ & _ & _ & _ & _ & _ & Hdone & _).
  - vm_compute. discriminate.
  - reflexivity.
  - destruct (Hdone (Some (JStr (str "done")))) as (Htext & Hmsg & _).
    + eexists _, _. repeat split.
    + split; [exact Htext|exact Hmsg].
Defined.

(** X19. Clearing a context.  [handleClear] does nothing without a
    selected context.  With one, it sends one DELETE to the [clear] address
    of that context.  When a document comes back, whatever the status of
    the response, its [message] property is shown without the error flag
    and both the text box and the chosen files are emptied; when no
    document comes back both are kept and ["Error clearing data"] is shown
    as an error.  In both cases [clearLoading] ends off and the handler
    returns normally. *)
Theorem clear_context_effects
    (API_BASE_URL : jsstring) (net : network) (w : Env Forms.Cells) :
  let st := state w in
  let rq := Forms.clear_request API_BASE_URL st in
  let o := net (length (sent w)) rq in
  let run := Forms.handleClear API_BASE_URL net in
  let st' := state (exec run w) in
  (truthy (Forms.selectedContext st) = false -> run w = (Normal tt, w))
  /\ (truthy (Forms.selectedContext st) = true ->
      fst <$> sent (exec run w) = (fst <$> sent w) ++ [rq]
      /\ Forms.clearLoading st' = false
      /\ Forms.tags st' = Forms.tags st
      /\ outcome run w = Normal tt
      /\ (forall message, document_with_message message o ->
            Forms.text st' = [] /\ Forms.files st' = None
            /\ Forms.message st' = message
            /\ Forms.isError st' = false)
      /\ (no_document o ->
            Forms.text st' = Forms.text st
            /\ Forms.files st' = Forms.files st
            /\ Forms.message st' = Some (JStr (str "Error clearing data"))
            /\ Forms.isError st' = true)).
Proof.
  cbv zeta. unfold exec, outcome. rewrite handleClear_run. split.
  - intros H. by rewrite H.
  - intros Hctx. rewrite Hctx. cbn [negb].
    repeat match goal with |- _ /\ _ => split end.
    1-4: destruct (net (length (sent w)) _) as [e|r];
         [|destruct (json_body r) as [e|data];
           [|destruct (get_prop data (str "message"))]];
         cbn [clear_failed clear_done snd fst state sent];
         rewrite ?fmap_app; reflexivity.
    + intros message (r & data & -> & -> & ->). by repeat split.
    + intros [(e & ->)|[(r & e & -> & ->)|(r & -> & ->)]]; by repeat split.
Qed.

Lemma clear_context_effects_witness :
  let w' := exec (Forms.handleClear Sample.api Sample.offline)
                 Fixture3.typing in
  Forms.files (state w') = Forms.files (state Fixture3.typing)
  /\ Forms.message (state w') = Some (JStr (str "Error clearing data")).
Proof.
  destruct (clear_context_effects Sample.api Sample.offline Fixture3.typing)
    as [_ Hsent].
  destruct Hsent as (_ & _ & _ & _ & _ & Hfail); [reflexivity|].
  destruct Hfail as (_ & Hfiles & Hmsg & _).
  - left. eexists. reflexivity.
  - split; [exact Hfiles|exact Hmsg].
Defined.

(** * The variable editor *)

Lemma find_named_first name before found after :
  none_named name before -> named name found ->
  Forms.find_named name (before ++ found :: after) = Normal (Some found).
Proof.
  intros Hbefore (n & Hn & Hsame).
  induction Hbefore as [|v rest (m & Hm & Hdiff) _ IH]; cbn.
  - by rewrite Hn, Hsame.
  - by rewrite Hm, Hdiff.
Qed.

Lemma handleVariableChange_run API_BASE_URL net (w : Env Forms.Cells) :
  Forms.handleVariableChange API_BASE_URL net w
  = match Forms.selectedVariable (state w) with
    | None => (Normal tt, w)
    | Some chosen =>
        if negb (truthy (Forms.selectedContext (state w)))
        then (Normal tt, w)
        else
          match Forms.find_variable (Forms.variableOptions (state w))
                                    (Forms.value chosen) with
          | Throw e => (Throw e, w)
          | Normal None => (Normal tt, w)
          | Normal (Some found) =>
              if negb (truthy_val (Some found)) then (Normal tt, w)
              else
                match get_prop found (str "type") with
                | Throw e =>
                    update_failed w (sent w)
                      (message_or e (str "Error updating variable"))
                | Normal type =>
                    let rq := Forms.update_request API_BASE_URL (state w)
                                chosen found type in
                    let log := sent w ++ [(rq, state w)] in
                    let failed e :=
                      update_failed w log
                        (message_or e (str "Error updating variable")) in
                    match net (length (sent w)) rq with
                    | Rejected e => failed e
                    | Resolved r =>
                        match json_body r with
                        | inl e => failed e
                        | inr data =>
                            if ok r then
                              match get_prop data (str "message") with
                              | Throw e => failed e
                              | Normal message => update_done w log message
                              end
                            else
                              match get_prop data (str "detail") with
                              | Throw e => failed e
                              | Normal detail =>
                                  failed
                                    (new_Error
                                       (val_or detail
                                          (str "Failed to update variable")))
                              end
                        end
                    end
                end
          end
    end.
Proof.
  unfold Forms.handleVariableChange. unfold bind at 1, get at 1.
  destruct (Forms.selectedVariable (state w)) as [chosen|]; [|reflexivity].
  destruct (negb (truthy _)); [reflexivity|].
  unfold bind at 1, lift at 1.
  destruct (Forms.find_variable _ _) as [[found|]|e]; try reflexivity.
  destruct (negb (truthy_val _)); [reflexivity|].
  unfold try_catch. unfold bind at 1, lift at 1.
  destruct (get_prop found (str "type")) as [type|e]; [|reflexivity].
  cbv zeta. unfold bind at 1, fetch.
  destruct w as [st log con urls mint].
  cbn [state sent console live_urls minted with_state].
  destruct (net _ _) as [e|r]; [reflexivity|].
  unfold bind, json_of, lift, ret, throw.
  destruct (ok r), (json_body r) as [e|data]; cbn [negb]; try reflexivity.
  - destruct (get_prop data (str "message")); reflexivity.
  - destruct (get_prop data (str "detail")); reflexivity.
Qed.

Lemma seedBuffer_run (w : Env Forms.Cells) :
  Forms.seedBuffer w
  = match Forms.selectedVariable (state w) with
    | None => (Normal tt, w)
    | Some chosen =>
        match Forms.find_variable (Forms.variableOptions (state w))
                                  (Forms.value chosen) with
        | Throw e => (Throw e, w)
        | Normal None => (Normal tt, w)
        | Normal (Some found) =>
            if negb (truthy_val (Some found)) then (Normal tt, w)
            else
              match get_prop found (str "type") with
              | Throw e => (Throw e, w)
              | Normal type =>
                  match get_prop found (str "currentValue") with
                  | Throw e => (Throw e, w)
                  | Normal currentValue =>
                      (Normal tt,
                       with_state
                         (if strict_eq_string type (str "array")
                          then Forms.with_variableValue (Some (JStr []))
                                 (Forms.with_tags currentValue (state w))
                          else Forms.with_tags (Some (JArr []))
                                 (Forms.with_variableValue currentValue
                                    (state w)))
                         w)
                  end
              end
        end
    end.
Proof.
  unfold Forms.seedBuffer. unfold bind at 1, get at 1.
  destruct (Forms.selectedVariable (state w)) as [chosen|]; [|reflexivity].
  unfold bind at 1, lift at 1.
  destruct (Forms.find_variable _ _) as [[found|]|e]; try reflexivity.
  destruct (negb (truthy_val _)); [reflexivity|].
  unfold bind at 1, lift at 1.
  destruct (get_prop found (str "type")) as [type|e]; [|reflexivity].
  unfold bind at 1, lift at 1.
  destruct (get_prop found (str "currentValue")) as [cur|e]; [|reflexivity].
  destruct w as [st log con urls mint].
  destruct (strict_eq_string _ _); reflexivity.
Qed.

Lemma get_prop_truthy v k :
  truthy_val (Some v) = true -> exists p, get_prop v k = Normal p.
Proof. destruct v; try discriminate; intros _; by eexists. Qed.

Lemma handleVariableChange_frame API_BASE_URL net (w : Env Forms.Cells) :
  let w' := exec (Forms.handleVariableChange API_BASE_URL net) w in
  same_editor (state w') (state w)
  /\ (length (sent w') <= length (sent w) + 1)%nat
  /\ console w' = console w.
Proof.
  cbv zeta. unfold exec. rewrite handleVariableChange_run.
  assert (Hsame : same_editor (state w) (state w)) by by repeat split.
  assert (Hlen : (length (sent w) <= length (sent w) + 1)%nat) by lia.
  destruct (Forms.selectedVariable (state w)) as [chosen|]; [|done].
  destruct (negb (truthy _)); [done|].
  destruct (Forms.find_variable _ _) as [[found|]|e]; try done.
  destruct (negb (truthy_val _)); [done|].
  destruct (get_prop found (str "type")) as [type|e]; [|done].
  cbv zeta.
  destruct (net _ _) as [e|r];
    [|destruct (json_body r) as [e|data];
      [|destruct (ok r);
        [destruct (get_prop data (str "message"))
        |destruct (get_prop data (str "detail"))]]];
    cbn [update_failed update_done snd state sent console];
    rewrite ?length_app; cbn [length]; by repeat split.
Qed.



(** X21. What committing never does.  In every state and against every
    backend, [handleVariableChange] leaves the tag buffer, the text buffer,
    the options, the choice, the selected context, the text box and the
    chosen files as they are, sends at most one request and logs nothing.
    It does nothing at all when no variable is chosen, when no context is
    selected, or when no option carries the chosen name; and when looking
    the name up throws, the exception leaves the handler with the page
    unchanged. *)
Theorem variable_update_keeps_editor
    (API_BASE_URL : jsstring) (net : network) (w : Env Forms.Cells) :
  let st := state w in
  let run := Forms.handleVariableChange API_BASE_URL net in
  let w' := exec run w in
  same_editor (state w') st
  /\ (length (sent w') <= length (sent w) + 1)%nat
  /\ console w' = console w
  /\ (Forms.selectedVariable st = None -> run w = (Normal tt, w))
  /\ (truthy (Forms.selectedContext st) = false -> run w = (Normal tt, w))
  /\ (forall chosen,
        Forms.selectedVariable st = Some chosen ->
        Forms.find_variable (Forms.variableOptions st) (Forms.value chosen)
        = Normal None ->
        run w = (Normal tt, w))
  /\ (forall e, outcome run w = Throw e -> w' = w).
Proof.
  cbv zeta.
  pose proof (handleVariableChange_frame API_BASE_URL net w) as Hframe.
  cbv zeta in Hframe. destruct Hframe as (Hsame & Hlen & Hcon).
  repeat match goal with |- _ /\ _ => split end; try assumption.
  - intros H. rewrite handleVariableChange_run. by rewrite H.
  - intros H. rewrite handleVariableChange_run. rewrite H.
    by destruct (Forms.selectedVariable (state w)).
  - intros chosen H Hfind. rewrite handleVariableChange_run.
    rewrite H, Hfind. by destruct (negb _).
  - intros e. unfold outcome, exec. rewrite handleVariableChange_run.
    destruct (Forms.selectedVariable (state w)) as [chosen|]; [|done].
    destruct (negb (truthy _)); [done|].
    destruct (Forms.find_variable _ _) as [[found|]|e']; try done.
    destruct (negb (truthy_val _)); [done|].
    destruct (get_prop found (str "type")) as [type|e']; [|done].
    cbv zeta.
    destruct (net _ _) as [e'|r];
      [|destruct (json_body r) as [e'|data];
        [|destruct (ok r);
          [destruct (get_prop data (str "message"))
          |destruct (get_prop data (str "detail"))]]]; done.
Qed.

(** X22. Choosing a variable seeds the editor.  The effect on
    [selectedVariable] looks the chosen name up in the options and takes
    the first variable carrying it.  For a variable of type ["array"] the
    tag buffer becomes its current value and the text buffer the empty
    string; for any other type the text buffer becomes its current value
    and the tag buffer the empty list.  Nothing is sent, and the message,
    the options and the choice stay as they are. *)
Theorem seed_buffer_by_kind
    (w : Env Forms.Cells) (chosen : Forms.SelectOption)
    (before after : list json) (found : json) (type currentValue : jsval) :
  let st := state w in
  let w' := exec Forms.seedBuffer w in
  Forms.selectedVariable st = Some chosen ->
  Forms.variableOptions st = Some (JArr (before ++ found :: after)) ->
  none_named (Forms.value chosen) before ->
  named (Forms.value chosen) found ->
  truthy_val (Some found) = true ->
  get_prop found (str "type") = Normal type ->
  get_prop found (str "currentValue") = Normal currentValue ->
  (if strict_eq_string type (str "array")
   then Forms.tags (state w') = currentValue
        /\ Forms.variableValue (state w') = Some (JStr [])
   else Forms.variableValue (state w') = currentValue
        /\ Forms.tags (state w') = Some (JArr []))
  /\ sent w' = sent w
  /\ Forms.message (state w') = Forms.message st
  /\ Forms.variableOptions (state w') = Forms.variableOptions st
  /\ Forms.selectedVariable (state w') = Forms.selectedVariable st
  /\ outcome Forms.seedBuffer w = Normal tt.
Proof.
  cbv zeta. intros Hchosen Hoptions Hbefore Hfound Htruthy Htype Hcur.
  unfold exec, outcome. rewrite seedBuffer_run. rewrite Hchosen, Hoptions.
  cbn [Forms.find_variable].
  rewrite (find_named_first _ _ _ _ Hbefore Hfound).
  rewrite Htruthy, Htype, Hcur. cbn [negb snd fst].
  destruct (strict_eq_string type (str "array")); destruct w; by repeat split.
Qed.

Lemma seed_buffer_by_kind_witness :
  Forms.tags (state (exec Forms.seedBuffer Fixture4.editing_tags))
  = Some (JArr [JStr (str "person"); JStr (str "place")]).
Proof.
  assert (Hbefore : none_named (Forms.value Fixture4.chosen)
                     [Fixture4.language]).
  { constructor; [|constructor]. eexists. split; reflexivity. }
  assert (Hfound : named (Forms.value Fixture4.chosen)
                     Fixture4.entity_types).
  { eexists. split; reflexivity. }
  exact (proj1 (proj1 (seed_buffer_by_kind Fixture4.editing_tags
                         Fixture4.chosen [Fixture4.language] []
                         Fixture4.entity_types (Some (JStr (str "array")))
                         (Some (JArr [JStr (str "person");
                                      JStr (str "place")]))
                         eq_refl eq_refl Hbefore Hfound eq_refl eq_refl
                         eq_refl))).
Defined.

(** X23. Seeding and committing compose.  When a variable has just been
    chosen and its buffer seeded, committing without an edit sends the
    variable's own current value back under its name and type, whatever
    the buffers held before the choice. *)
Theorem seed_then_commit_sends_current_value
    (API_BASE_URL : jsstring) (net : network) (w : Env Forms.Cells)
    (chosen : Forms.SelectOption) (before after : list json) (found : json)
    (type currentValue : jsval) :
  let st := state w in
  let w' := exec (Forms.seedBuffer
                  >> Forms.handleVariableChange API_BASE_URL net) w in
  Forms.selectedVariable st = Some chosen ->
  truthy (Forms.selectedContext st) = true ->
  Forms.variableOptions st = Some (JArr (before ++ found :: after)) ->
  none_named (Forms.value chosen) before ->
  named (Forms.value chosen) found ->
  truthy_val (Some found) = true ->
  get_prop found (str "type") = Normal type ->
  get_prop found (str "currentValue") = Normal currentValue ->
  exists rq,
    fst <$> sent w' = (fst <$> sent w) ++ [rq]
    /\ method rq = POST
    /\ url rq = API_BASE_URL ++ str "/update_prompt?context_id="
                ++ string_of_cell (Forms.selectedContext st)
    /\ body rq
       = JsonBody
           (JObj (Forms.property "variable" (JStr <$> Forms.value chosen)
                  ++ Forms.property "value" currentValue
                  ++ Forms.property "type" type)).
Proof.
  cbv zeta. intros Hchosen Hctx Hoptions Hbefore Hfound Htruthy Htype Hcur.
  set (seeded :=
         if strict_eq_string type (str "array")
         then Forms.with_variableValue (Some (JStr []))
                (Forms.with_tags currentValue (state w))
         else Forms.with_tags (Some (JArr []))
                (Forms.with_variableValue currentValue (state w))).
  assert (Hseed : Forms.seedBuffer w = (Normal tt, with_state seeded w)).
  { rewrite seedBuffer_run. rewrite Hchosen, Hoptions.
    cbn [Forms.find_variable].
    rewrite (find_named_first _ _ _ _ Hbefore Hfound).
    by rewrite Htruthy, Htype, Hcur. }
  assert (Hkeep : Forms.selectedVariable seeded = Some chosen
                  /\ Forms.selectedContext seeded
                     = Forms.selectedContext (state w)
                  /\ Forms.variableOptions seeded
                     = Some (JArr (before ++ found :: after))
                  /\ (if strict_eq_string type (str "array")
                      then Forms.tags seeded else Forms.variableValue seeded)
                     = currentValue).
  { unfold seeded. by destruct (strict_eq_string type (str "array")). }
  destruct Hkeep as (Hchosen' & Hctx' & Hoptions' & Hvalue).
  exists (Forms.update_request API_BASE_URL seeded chosen found type).
  split; [|repeat split].
  - unfold exec. unfold bind at 1. rewrite Hseed.
    rewrite handleVariableChange_run.
    cbn [state sent with_state].
    rewrite Hchosen', Hctx', Hctx, Hoptions'. cbn [Forms.find_variable].
    rewrite (find_named_first _ _ _ _ Hbefore Hfound).
    rewrite Htruthy, Htype. cbn [negb]. cbv zeta.
    destruct (net _ _) as [e|r];
      [|destruct (json_body r) as [e|data];
        [|destruct (ok r);
          [destruct (get_prop data (str "message"))
          |destruct (get_prop data (str "detail"))]]];
      cbn [update_failed update_done snd fst state sent];
      rewrite ?fmap_app; reflexivity.
  - cbn [url Forms.update_request]. by rewrite Hctx'.
  - cbn [body Forms.update_request]. by rewrite Hvalue.
Qed.

Lemma seed_then_commit_sends_current_value_witness :
  exists rq,
    fst <$> sent (exec (Forms.seedBuffer
                        >> Forms.handleVariableChange Sample.api
                             Sample.refusing) Fixture4.editing_tags) = [rq]
    /\ body rq
       = JsonBody
           (JObj [(str "variable", JStr (str "entity_types"));
                  (str "value",
                   JArr [JStr (str "person"); JStr (str "place")]);
                  (str "type", JStr (str "array"))]).
Proof.
  destruct (seed_then_commit_sends_current_value Sample.api Sample.refusing
              Fixture4.editing_tags Fixture4.chosen
              [Fixture4.language] [] Fixture4.entity_types
              (Some (JStr (str "array")))
              (Some (JArr [JStr (str "person"); JStr (str "place")])))
    as (rq & Hsent & _ & _ & Hbody); try reflexivity.
  - constructor; [|constructor]. eexists. split; reflexivity.
  - eexists. split; reflexivity.
  - exists rq. split; [exact Hsent|exact Hbody].
Defined.
